(** * Ledger, commission and reporting core of the casino back office

    A shallow embedding of
      - [src/models/User.js]               (User schema, [updateCredit]),
      - the Transaction, DailyReport and AgentStats schemas,
      - [src/services/commissionService.js] ([calculateCommission],
        [updateAgentStats]),
      - [src/services/reportService.js]    (the nightly cron callback and
        [generateWeeklySummary]),
    together with the properties the specification states about them.

    The development has two layers.  The first embeds the operations over
    exact arithmetic and typed arguments; the invariants, frames and
    footprints of the ledger, the nightly run and the read routes are proved
    there.  The second, [Js], embeds the credit ledger, the commission
    engine, the credit route and the weekly summary on the values of the
    runtime (binary64 Numbers, untyped fields of a JSON body); what depends
    on how a Number rounds or on what a request carries is proved there.

    Modelling conventions of the first layer.
      - A JavaScript [Number] holding money is an exact rational ([Q]);
        binary64 rounding is the matter of [Js].  Counters are [Z].
      - A [Date] is its time value: milliseconds since the epoch, in [Z];
        the process runs with the UTC time zone.
      - A MongoDB collection is the list of its documents in insertion
        order; the database is a record of the four collections.
      - Mongoose setters ([set: v => Math.round(v * 100) / 100], [trim]) run
        when a path is assigned; validators ([min], [enum], [maxlength])
        run in [save()] on the paths that were assigned, the other paths
        holding values that passed them when they were stored.
      - [async] code runs to completion: every operation is a function from
        the database to a new database and either a value or the exception
        thrown.  An exception keeps the writes made before it (there is no
        rollback in the source). *)

From Stdlib Require Import ZArith QArith Qabs Qround Lqa Lia.
From Stdlib Require Import String Ascii List Bool Sorted Permutation.
From Stdlib Require Import PrimFloat SpecFloat FloatOps FloatAxioms.
From Stdlib Require Uint63.
Import ListNotations.

Set Warnings "-inexact-float".

Local Open Scope string_scope.
Local Open Scope list_scope.
Local Open Scope Z_scope.

(** ** Numbers *)

(** [Math.round]: nearest integer, ties towards +infinity. *)
Definition Math_round (v : Q) : Z := Qfloor (v + (1 # 2))%Q.

(** The setter every monetary path shares,
    [v => Math.round(v * 100) / 100], in exact arithmetic ([Js.round2] is
    the binary64 one). *)
Definition round2 (v : Q) : Q := (inject_Z (Math_round (v * 100)) / 100)%Q.

(** [a < b] and [a <= b] on numbers, as booleans. *)
Definition Qltb (a b : Q) : bool := negb (Qle_bool b a).
Definition Qleb (a b : Q) : bool := Qle_bool a b.

(** A value with at most two decimal digits: a fixed point of the setter. *)
Definition TwoDecimals (q : Q) : Prop := (round2 q == q)%Q.

(** [arr.reduce((sum, x) => sum + f(x), 0)] *)
Definition reduce_sum {A : Type} (f : A -> Q) (arr : list A) : Q :=
  fold_left (fun sum x => (sum + f x)%Q) arr 0%Q.

(** ** Strings *)

(** A JavaScript string is held as its UTF-8 encoding, one [ascii] per
    byte (so every well-formed string is covered; a lone surrogate is not).
    [s.length] counts UTF-16 code units: one per character of one to three
    bytes, two per character of four bytes, none for a continuation byte. *)
Definition utf16_units (c : ascii) : nat :=
  let n := nat_of_ascii c in
  if (Nat.leb 128 n && Nat.ltb n 192)%bool then 0%nat
  else if Nat.leb 240 n then 2%nat
  else 1%nat.

Fixpoint js_length (s : string) : nat :=
  match s with
  | EmptyString => 0%nat
  | String c s' => (utf16_units c + js_length s')%nat
  end.

(** The white space and line terminators [String.prototype.trim] removes:
    U+0009 to U+000D and U+0020 on one byte; U+00A0 on two; U+1680,
    U+2000 to U+200A, U+2028, U+2029, U+202F, U+205F, U+3000 and U+FEFF on
    three. *)
Definition is_space (c : ascii) : bool :=
  let n := nat_of_ascii c in
  (Nat.eqb n 9 || Nat.eqb n 10 || Nat.eqb n 11 || Nat.eqb n 12
   || Nat.eqb n 13 || Nat.eqb n 32)%bool.

Definition is_space2 (c1 c2 : ascii) : bool :=
  (Nat.eqb (nat_of_ascii c1) 194 && Nat.eqb (nat_of_ascii c2) 160)%bool.

Definition is_space3 (c1 c2 c3 : ascii) : bool :=
  let a := nat_of_ascii c1 in
  let b := nat_of_ascii c2 in
  let c := nat_of_ascii c3 in
  ((Nat.eqb a 225 && Nat.eqb b 154 && Nat.eqb c 128)
   || (Nat.eqb a 226 && Nat.eqb b 128
       && ((Nat.leb 128 c && Nat.leb c 138) || Nat.eqb c 168
           || Nat.eqb c 169 || Nat.eqb c 175))
   || (Nat.eqb a 226 && Nat.eqb b 129 && Nat.eqb c 159)
   || (Nat.eqb a 227 && Nat.eqb b 128 && Nat.eqb c 128)
   || (Nat.eqb a 239 && Nat.eqb b 187 && Nat.eqb c 191))%bool.

Fixpoint trimStart (s : list ascii) : list ascii :=
  match s with
  | [] => []
  | c1 :: s1 =>
      if is_space c1 then trimStart s1
      else
        match s1 with
        | [] => s
        | c2 :: s2 =>
            if is_space2 c1 c2 then trimStart s2
            else
              match s2 with
              | [] => s
              | c3 :: s3 => if is_space3 c1 c2 c3 then trimStart s3 else s
              end
        end
  end.

(** The same from the end, on the reversed bytes. *)
Fixpoint trimEnd_rev (r : list ascii) : list ascii :=
  match r with
  | [] => []
  | c1 :: r1 =>
      if is_space c1 then trimEnd_rev r1
      else
        match r1 with
        | [] => r
        | c2 :: r2 =>
            if is_space2 c2 c1 then trimEnd_rev r2
            else
              match r2 with
              | [] => r
              | c3 :: r3 => if is_space3 c3 c2 c1 then trimEnd_rev r3 else r
              end
        end
  end.

Definition trim (s : string) : string :=
  string_of_list_ascii
    (rev (trimEnd_rev (rev (trimStart (list_ascii_of_string s))))).

(** [n] copies of a character, for building long descriptions. *)
Fixpoint repeat_char (c : ascii) (n : nat) : string :=
  match n with
  | O => EmptyString
  | S n' => String c (repeat_char c n')
  end.

(** ** Identifiers *)

(** A BSON ObjectId, by its 24 hexadecimal digits. *)
Inductive ObjectId : Type := Oid (hex : string).

Definition toString (o : ObjectId) : string := let 'Oid h := o in h.

Definition oid_eqb (a b : ObjectId) : bool := (toString a =? toString b)%string.

(** The values an array of identifiers or strings can hold. *)
Inductive JsValue : Type :=
| VObjectId (o : ObjectId)
| VString (s : string).

(** [arr.includes(s)] for a string [s]: SameValueZero never equates a
    string with an object, whatever the object prints as. *)
Definition includes_string (arr : list JsValue) (s : string) : bool :=
  existsb (fun v => match v with
                    | VString s' => (s' =? s)%string
                    | VObjectId _ => false
                    end) arr.

(** ** Documents *)

Module User.
(** [userSchema]; [password], [agentCode] and the timestamps play no part
    in the ledger. *)
Record t : Type := mk {
  _id : ObjectId;
  username : string;
  role : string;
  credit : Q;
  parent : option ObjectId
}.

(** Assigning [credit] runs the schema setter. *)
Definition set_credit (u : t) (v : Q) : t :=
  mk (_id u) (username u) (role u) (round2 v) (parent u).
End User.

Module Transaction.
(** [transactionSchema]; [createdAt] comes from [timestamps: true]. *)
Record t : Type := mk {
  user : ObjectId;
  amount : Q;
  type : string;
  oldCredit : Q;
  newCredit : Q;
  adjustedBy : option ObjectId;
  description : string;
  createdAt : Z
}.

(** [new Transaction({...})]: every path goes through its setter. *)
Definition new (user : ObjectId) (amount : Q) (type : string)
    (oldCredit newCredit : Q) (adjustedBy : option ObjectId)
    (description : string) : t :=
  mk user (round2 amount) type (round2 oldCredit) (round2 newCredit)
     adjustedBy (trim description) 0.
End Transaction.

Module CommissionEntry.
(** An element of [commissionHistory]. *)
Record t : Type := mk {
  amount : Q;
  date : Z;
  description : string
}.
End CommissionEntry.

Module AgentStats.
Record t : Type := mk {
  agent : ObjectId;
  totalMembers : Z;
  activeMembers : Z;
  totalCredit : Q;
  totalProfit : Q;
  commissionRate : Q;
  totalCommission : Q;
  commissionHistory : list CommissionEntry.t;
  lastUpdated : Z
}.

(** [new AgentStats({ agent })] with the schema defaults. *)
Definition new (agent : ObjectId) (now : Z) : t :=
  mk agent 0 0 0%Q 0%Q (5 # 100)%Q 0%Q [] now.
End AgentStats.

Module AgentReport.
(** An element of [DailyReport.agentReports]. *)
Record t : Type := mk {
  agent : ObjectId;
  members : Z;
  creditMovement : Q;
  commission : Q
}.
End AgentReport.

Module DailyReport.
Record t : Type := mk {
  date : Z;
  totalMembers : Z;
  activeMembers : Z;
  totalCreditMovement : Q;
  totalCommission : Q;
  agentReports : list AgentReport.t;
  systemNotes : string;
  createdAt : Z;
  updatedAt : Z
}.
End DailyReport.

(** ** The database *)

Record Db : Type := mkDb {
  users : list User.t;
  transactions : list Transaction.t;
  agentStats : list AgentStats.t;
  dailyReports : list DailyReport.t
}.

Definition with_users (db : Db) (us : list User.t) : Db :=
  mkDb us (transactions db) (agentStats db) (dailyReports db).
Definition with_transactions (db : Db) (ts : list Transaction.t) : Db :=
  mkDb (users db) ts (agentStats db) (dailyReports db).
Definition with_agentStats (db : Db) (ss : list AgentStats.t) : Db :=
  mkDb (users db) (transactions db) ss (dailyReports db).
Definition with_dailyReports (db : Db) (rs : list DailyReport.t) : Db :=
  mkDb (users db) (transactions db) (agentStats db) rs.

(** ** Exceptions and the operation monad *)

Inductive Exn : Type :=
| JsError (message : string)                 (* [new Error(message)] *)
| ValidationError (model path : string)      (* a schema validator failed *)
| DocumentNotFoundError (model : string)     (* [save()] matched nothing *)
| CastError (path : string).                 (* an invalid [Date] in a filter *)

Definition M (A : Type) : Type := Db -> Db * (Exn + A).

Definition ret {A : Type} (a : A) : M A := fun db => (db, inr a).
Definition throw {A : Type} (e : Exn) : M A := fun db => (db, inl e).
Definition bind {A B : Type} (m : M A) (k : A -> M B) : M B :=
  fun db =>
    match m db with
    | (db', inr a) => k a db'
    | (db', inl e) => (db', inl e)
    end.
(** [try { m } catch (err) { h }] *)
Definition try_catch {A : Type} (m : M A) (h : Exn -> M A) : M A :=
  fun db =>
    match m db with
    | (db', inr a) => (db', inr a)
    | (db', inl e) => h e db'
    end.

Declare Scope op_scope.
Delimit Scope op_scope with op.
Notation "x <- m ;; k" := (bind m (fun x => k))
  (at level 61, m at next level, right associativity) : op_scope.
Notation "m ;;; k" := (bind m (fun _ => k))
  (at level 61, right associativity) : op_scope.

(** ** Queries and writes *)

(** [User.findById(id)] *)
Definition findById (us : list User.t) (id : ObjectId) : option User.t :=
  find (fun u => oid_eqb (User._id u) id) us.

(** [AgentStats.findOne({ agent: agentId })] *)
Definition AgentStats_findOne (ss : list AgentStats.t) (agentId : ObjectId)
    : option AgentStats.t :=
  find (fun s => oid_eqb (AgentStats.agent s) agentId) ss.

(** Rewrite the first document that matches, as [updateOne] does. *)
Fixpoint updateOne {A : Type} (p : A -> bool) (f : A -> A) (l : list A)
    : list A :=
  match l with
  | [] => []
  | x :: l' => if p x then f x :: l' else x :: updateOne p f l'
  end.

Definition opt_oid_eqb (a : option ObjectId) (b : ObjectId) : bool :=
  match a with
  | Some a' => oid_eqb a' b
  | None => false
  end.

(** [user.save()] after [credit] was assigned: the [min: 0] validator runs,
    then the stored document with this [_id] receives the new [credit]. *)
Definition User_save (this : User.t) : M unit :=
  fun db =>
    if Qltb (User.credit this) 0 then
      (db, inl (ValidationError "User" "credit"))
    else
      match findById (users db) (User._id this) with
      | None => (db, inl (DocumentNotFoundError "User"))
      | Some _ =>
          (with_users db
             (updateOne (fun u => oid_eqb (User._id u) (User._id this))
                (fun u => User.mk (User._id u) (User.username u) (User.role u)
                            (User.credit this) (User.parent u))
                (users db)),
           inr tt)
      end.

(** The validators of [transactionSchema]: [min: 0.01] on [amount],
    [enum] on [type], [maxlength: 255] on [description]. *)
Definition Transaction_validate (t : Transaction.t) : option Exn :=
  if Qltb (Transaction.amount t) (1 # 100) then
    Some (ValidationError "Transaction" "amount")
  else if negb ((Transaction.type t =? "add")%string
                || (Transaction.type t =? "deduct")%string) then
    Some (ValidationError "Transaction" "type")
  else if (255 <? Z.of_nat (js_length (Transaction.description t))) then
    Some (ValidationError "Transaction" "description")
  else None.

(** [transaction.save()] of a new document: validate, stamp, insert. *)
Definition Transaction_save (t : Transaction.t) (now : Z)
    : M Transaction.t :=
  fun db =>
    match Transaction_validate t with
    | Some e => (db, inl e)
    | None =>
        let saved :=
          Transaction.mk (Transaction.user t) (Transaction.amount t)
            (Transaction.type t) (Transaction.oldCredit t)
            (Transaction.newCredit t) (Transaction.adjustedBy t)
            (Transaction.description t) now in
        (with_transactions db (transactions db ++ [saved]), inr saved)
    end.

(** The validators of the paths [updateAgentStats] assigns
    ([min: 0] on the counters and on [totalCredit]). *)
Definition AgentStats_validate_rollup (s : AgentStats.t) : option Exn :=
  if AgentStats.totalMembers s <? 0 then
    Some (ValidationError "AgentStats" "totalMembers")
  else if AgentStats.activeMembers s <? 0 then
    Some (ValidationError "AgentStats" "activeMembers")
  else if Qltb (AgentStats.totalCredit s) 0 then
    Some (ValidationError "AgentStats" "totalCredit")
  else None.

(** The validators of the paths [calculateCommission] assigns ([min: 0] on
    [totalCommission], [maxlength: 255] on the description of the entry
    just pushed, the last one). *)
Definition AgentStats_validate_commission (s : AgentStats.t) : option Exn :=
  if Qltb (AgentStats.totalCommission s) 0 then
    Some (ValidationError "AgentStats" "totalCommission")
  else
    match last (map Some (AgentStats.commissionHistory s)) None with
    | Some e =>
        if 255 <? Z.of_nat (js_length (CommissionEntry.description e))
        then Some (ValidationError "AgentStats" "commissionHistory")
        else None
    | None => None
    end.

(** [agentStats.save()]: validate the assigned paths, then replace the
    stored record of this agent. *)
Definition AgentStats_save (validate : AgentStats.t -> option Exn)
    (this : AgentStats.t) : M unit :=
  fun db =>
    match validate this with
    | Some e => (db, inl e)
    | None =>
        match AgentStats_findOne (agentStats db) (AgentStats.agent this) with
        | None => (db, inl (DocumentNotFoundError "AgentStats"))
        | Some _ =>
            (with_agentStats db
               (updateOne
                  (fun s => oid_eqb (AgentStats.agent s)
                              (AgentStats.agent this))
                  (fun _ => this) (agentStats db)),
             inr tt)
        end
    end.

(** A parameter with a default value: [(description = 'text') => ...]. *)
Definition orDefault (arg : option string) (default : string) : string :=
  match arg with
  | Some s => s
  | None => default
  end.

(** ** Credit ledger: [userSchema.methods.updateCredit]

    Here on exact arithmetic, for an amount that is a Number;
    [Js.updateCredit] takes the amount as the request carries it. *)

Local Open Scope op_scope.
Local Open Scope Z_scope.

Definition updateCredit (this : User.t) (amount : Q) (type : string)
    (adjustedBy : ObjectId) (description : option string) (now : Z)
    : M (User.t * Transaction.t) :=
  let description := orDefault description "Credit adjustment" in
  let oldCredit := User.credit this in
  this' <-
    (if (type =? "add")%string then
       ret (User.set_credit this (User.credit this + amount)%Q)
     else if (type =? "deduct")%string then
       if Qltb (User.credit this) amount then
         throw (JsError "Insufficient credit")
       else
         ret (User.set_credit this (User.credit this - amount)%Q)
     else
       throw (JsError "Invalid credit type")) ;;
  User_save this' ;;;
  let transaction :=
    Transaction.new (User._id this') amount type oldCredit
      (User.credit this') (Some adjustedBy) description in
  saved <- Transaction_save transaction now ;;
  ret (this', saved).

(** [adjust]: load the account, then [updateCredit]
    ([memberRoutes.js], [User.findById] followed by [member.updateCredit];
    a missing account is answered 404). *)
Definition adjust (accountId : ObjectId) (amount : Q) (type : string)
    (actorId : ObjectId) (description : option string) (now : Z)
    : M (User.t * Transaction.t) :=
  fun db =>
    match findById (users db) accountId with
    | None => (db, inl (JsError "Member not found"))
    | Some member => updateCredit member amount type actorId description now db
    end.

(** The balance stored for an account. *)
Definition balance (db : Db) (id : ObjectId) : option Q :=
  option_map User.credit (findById (users db) id).

(** ** Commission engine and stats aggregator
       ([commissionService.js]) *)

Section CommissionService.

(** [Number.prototype.toLocaleString('th-TH', { minimumFractionDigits: 2 })]:
    its output depends on the locale data of the runtime. *)
Variable toLocaleString : Q -> string.

Definition calculateCommission (agentId : ObjectId) (betAmount : Q)
    (description : option string) (now : Z) : M Q :=
  let description := orDefault description "Commission from bet" in
  try_catch
    (fun db =>
       match AgentStats_findOne (agentStats db) agentId with
       | None => (db, inr 0%Q)
       | Some agentStats0 =>
           (* populate('agent') *)
           match findById (users db) (AgentStats.agent agentStats0) with
           | None => (db, inr 0%Q)
           | Some agent =>
               let commission :=
                 (betAmount * AgentStats.commissionRate agentStats0)%Q in
               if Qleb commission 0 then (db, inr 0%Q)
               else
                 (let agent' :=
                    User.set_credit agent
                      (User.credit agent + commission)%Q in
                  User_save agent' ;;;
                  let entry :=
                    CommissionEntry.mk (round2 commission) now
                      (trim (description ++ ": "
                             ++ toLocaleString betAmount)%string) in
                  let agentStats' :=
                    AgentStats.mk (AgentStats.agent agentStats0)
                      (AgentStats.totalMembers agentStats0)
                      (AgentStats.activeMembers agentStats0)
                      (AgentStats.totalCredit agentStats0)
                      (AgentStats.totalProfit agentStats0)
                      (AgentStats.commissionRate agentStats0)
                      (round2 (AgentStats.totalCommission agentStats0
                               + commission)%Q)
                      (AgentStats.commissionHistory agentStats0 ++ [entry])
                      (AgentStats.lastUpdated agentStats0) in
                  AgentStats_save AgentStats_validate_commission agentStats' ;;;
                  ret commission) db
           end
       end)
    (fun _ => ret 0%Q).

End CommissionService.

(** [{ parent: agentId, role: 'member' }] *)
Definition isMemberOf (agentId : ObjectId) (u : User.t) : bool :=
  opt_oid_eqb (User.parent u) agentId && (User.role u =? "member")%string.

(** The [$match]/[$group] pipeline: no group when nothing matches. *)
Definition aggregate_total (agentId : ObjectId) (us : list User.t) : list Q :=
  match filter (isMemberOf agentId) us with
  | [] => []
  | ms => [reduce_sum User.credit ms]
  end.

Definition updateAgentStats (agentId : ObjectId) (now : Z) : M unit :=
  try_catch
    (fun db =>
       match AgentStats_findOne (agentStats db) agentId with
       | None => (db, inr tt)
       | Some agentStats0 =>
           let memberCount :=
             Z.of_nat (length (filter (isMemberOf agentId) (users db))) in
           let activeMemberCount :=
             Z.of_nat (length (filter
               (fun u => isMemberOf agentId u && Qltb 0 (User.credit u))
               (users db))) in
           let totalCreditResult := aggregate_total agentId (users db) in
           (* totalCreditResult[0]?.total || 0 *)
           let totalCredit :=
             match totalCreditResult with
             | total :: _ => if Qeq_bool total 0 then 0%Q else total
             | [] => 0%Q
             end in
           let agentStats' :=
             AgentStats.mk (AgentStats.agent agentStats0)
               memberCount activeMemberCount (round2 totalCredit)
               (AgentStats.totalProfit agentStats0)
               (AgentStats.commissionRate agentStats0)
               (AgentStats.totalCommission agentStats0)
               (AgentStats.commissionHistory agentStats0)
               now in
           AgentStats_save AgentStats_validate_rollup agentStats' db
       end)
    (fun _ => ret tt).

(** ** The caller of a route *)

(** [req.user], the payload [jwt.verify] decodes from the token.  The
    tokens this application signs carry [id] and [role] and no [username]:
    [`${req.user.username}`] then prints [undefined]. *)
Record Actor : Type := mkActor {
  actor_id : ObjectId;
  actor_username : string;
  actor_role : string
}.

(** ** Dates *)

Definition msPerDay : Z := 86400000.

(** [d.setHours(0, 0, 0, 0)] *)
Definition startOfDay (t : Z) : Z := (t / msPerDay) * msPerDay.

(** The largest time value a [Date] can hold; beyond it the [Date] is
    invalid. *)
Definition maxTime : Z := 8640000000000000.

Definition timeClip (t : Z) : option Z :=
  if Z.abs t <=? maxTime then Some t else None.

(** Day number of a civil date, and back (proleptic Gregorian calendar). *)
Definition days_from_civil (y m d : Z) : Z :=
  let y := if m <=? 2 then y - 1 else y in
  let era := y / 400 in
  let yoe := y - era * 400 in
  let doy := (153 * (if 2 <? m then m - 3 else m + 9) + 2) / 5 + d - 1 in
  let doe := yoe * 365 + yoe / 4 - yoe / 100 + doy in
  era * 146097 + doe - 719468.

Definition civil_from_days (z : Z) : Z * Z * Z :=
  let z := z + 719468 in
  let era := z / 146097 in
  let doe := z - era * 146097 in
  let yoe := (doe - doe / 1460 + doe / 36524 - doe / 146096) / 365 in
  let y := yoe + era * 400 in
  let doy := doe - (365 * yoe + yoe / 4 - yoe / 100) in
  let mp := (5 * doy + 2) / 153 in
  let d := doy - (153 * mp + 2) / 5 + 1 in
  let m := if mp <? 10 then mp + 3 else mp - 9 in
  (if m <=? 2 then y + 1 else y, m, d).

(** [new Date(year, 0, day)]; years 0 to 99 mean 1900 to 1999. *)
Definition Date_new (year day : Z) : option Z :=
  let yr := if (0 <=? year) && (year <=? 99) then 1900 + year else year in
  timeClip ((days_from_civil yr 1 1 + (day - 1)) * msPerDay).

(** [d.getDay()]: 0 is Sunday; the epoch fell on a Thursday. *)
Definition getDay (t : Z) : Z := (t / msPerDay + 4) mod 7.

(** [d.setDate(d.getDate() + k)] *)
Definition addDays (t k : Z) : option Z := timeClip (t + k * msPerDay).

Definition digit (n : Z) : ascii := ascii_of_nat (48 + Z.to_nat n).

(** [n] in decimal, on exactly [w] digits. *)
Fixpoint pad (w : nat) (n : Z) : string :=
  match w with
  | O => EmptyString
  | S w' => (pad w' (n / 10) ++ String (digit (n mod 10)) EmptyString)%string
  end.

Definition year_string (y : Z) : string :=
  if (0 <=? y) && (y <=? 9999) then pad 4 y
  else
    let sign := if y <? 0 then "-" else "+" in
    (sign ++ pad 6 (Z.abs y))%string.

(** [d.toISOString()] of a valid date. *)
Definition toISOString (t : Z) : string :=
  let '(y, m, d) := civil_from_days (t / msPerDay) in
  let ms := t mod msPerDay in
  let hours := pad 2 (ms / 3600000) in
  let minutes := pad 2 ((ms / 60000) mod 60) in
  let seconds := pad 2 ((ms / 1000) mod 60) in
  let millis := pad 3 (ms mod 1000) in
  (year_string y ++ "-" ++ pad 2 m ++ "-" ++ pad 2 d ++ "T"
   ++ hours ++ ":" ++ minutes ++ ":" ++ seconds ++ "." ++ millis
   ++ "Z")%string.

(** [s.split('T')[0]] *)
Fixpoint split_T_0 (s : string) : string :=
  match s with
  | EmptyString => EmptyString
  | String c s' =>
      if Ascii.eqb c "T"%char then EmptyString else String c (split_T_0 s')
  end.

(** ** Report scheduler ([reportService.js]) *)

(** [.distinct('_id')] *)
Fixpoint distinct (l : list ObjectId) : list ObjectId :=
  match l with
  | [] => []
  | x :: l' => x :: filter (fun y => negb (oid_eqb x y)) (distinct l')
  end.

(** The literal [0.01] of the cron callback. *)
Definition flatRate : Q := 1 # 100.

(** [transactions.filter(t => memberIds.includes(t.user.toString()))]:
    [memberIds] holds the ObjectIds [distinct] returned, the needle is a
    string. *)
Definition memberTransactionsOf (memberIds : list ObjectId)
    (transactions : list Transaction.t) : list Transaction.t :=
  filter (fun t => includes_string (map VObjectId memberIds)
                     (toString (Transaction.user t)))
         transactions.

(** The body of [for (const agent of agents)], up to the [push]. *)
Definition agentReportFor (transactions : list Transaction.t)
    (us : list User.t) (agent : User.t) : AgentReport.t :=
  let memberIds :=
    distinct (map User._id (filter (isMemberOf (User._id agent)) us)) in
  let memberTransactions := memberTransactionsOf memberIds transactions in
  let creditMovement := reduce_sum Transaction.amount memberTransactions in
  let commission := (creditMovement * flatRate)%Q in
  AgentReport.mk (User._id agent) (Z.of_nat (length memberIds))
    creditMovement commission.

(** [AgentStats.findOneAndUpdate({ agent }, { $inc, $set }, { upsert })]:
    the increment is applied by the database. *)
Definition AgentStats_incCommission (agentId : ObjectId) (commission : Q)
    (now : Z) : M unit :=
  fun db =>
    match AgentStats_findOne (agentStats db) agentId with
    | Some _ =>
        (with_agentStats db
           (updateOne (fun s => oid_eqb (AgentStats.agent s) agentId)
              (fun s =>
                 AgentStats.mk (AgentStats.agent s)
                   (AgentStats.totalMembers s) (AgentStats.activeMembers s)
                   (AgentStats.totalCredit s) (AgentStats.totalProfit s)
                   (AgentStats.commissionRate s)
                   (AgentStats.totalCommission s + commission)%Q
                   (AgentStats.commissionHistory s) now)
              (agentStats db)),
         inr tt)
    | None =>
        (with_agentStats db
           (agentStats db
            ++ [AgentStats.mk agentId 0 0 0%Q 0%Q (5 # 100)%Q commission []
                  now]),
         inr tt)
    end.

Fixpoint agentLoop (transactions : list Transaction.t) (agents : list User.t)
    (agentReports : list AgentReport.t) (now : Z)
    : M (list AgentReport.t) :=
  match agents with
  | [] => ret agentReports
  | agent :: rest =>
      fun db =>
        let r := agentReportFor transactions (users db) agent in
        (AgentStats_incCommission (User._id agent) (AgentReport.commission r)
           now ;;;
         agentLoop transactions rest (agentReports ++ [r]) now) db
  end.

(** Casting a sub-report to [dailyReportSchema.agentReports] runs the
    setters of its monetary paths. *)
Definition castAgentReport (r : AgentReport.t) : AgentReport.t :=
  AgentReport.mk (AgentReport.agent r) (AgentReport.members r)
    (round2 (AgentReport.creditMovement r))
    (round2 (AgentReport.commission r)).

(** [DailyReport.findOneAndUpdate({ date }, {...},
      { upsert: true, new: true, setDefaultsOnInsert: true })] *)
Definition DailyReport_upsert (date : Z) (totalMembers activeMembers : Z)
    (totalCreditMovement totalCommission : Q)
    (agentReports : list AgentReport.t) (systemNotes : string) (now : Z)
    : M DailyReport.t :=
  fun db =>
    let doc createdAt :=
      DailyReport.mk date totalMembers activeMembers
        (round2 totalCreditMovement) (round2 totalCommission)
        (map castAgentReport agentReports) systemNotes createdAt now in
    match find (fun r => DailyReport.date r =? date) (dailyReports db) with
    | Some old =>
        let r := doc (DailyReport.createdAt old) in
        (with_dailyReports db
           (updateOne (fun r => DailyReport.date r =? date) (fun _ => r)
              (dailyReports db)),
         inr r)
    | None =>
        let r := doc now in
        (with_dailyReports db (dailyReports db ++ [r]), inr r)
    end.

(** [Transaction.find({ createdAt: { $gte: from, $lt: to } })] *)
Definition transactionsBetween (from to : Z) (ts : list Transaction.t)
    : list Transaction.t :=
  filter (fun t => (from <=? Transaction.createdAt t)
                   && (Transaction.createdAt t <? to)) ts.

Definition hasRole (r : string) (u : User.t) : bool :=
  (User.role u =? r)%string.

(** [{ role: 'member', credit: { $gt: 0 } }] *)
Definition isActiveMember (u : User.t) : bool :=
  hasRole "member" u && Qltb 0 (User.credit u).

(** [User.countDocuments(filter)] *)
Definition countDocuments (p : User.t -> bool) (us : list User.t) : Z :=
  Z.of_nat (length (filter p us)).

(** The callback of [cron.schedule('0 0 * * *', ...)], run at time [now]. *)
Definition runDaily (now : Z) : M DailyReport.t :=
  fun db =>
    let yesterday := startOfDay (now - msPerDay) in
    let today := startOfDay now in
    let transactions :=
      transactionsBetween yesterday today (transactions db) in
    let agents := filter (hasRole "agent") (users db) in
    let totalCreditMovement := reduce_sum Transaction.amount transactions in
    (agentReports <- agentLoop transactions agents [] now ;;
     fun db' =>
       let totalMembers := countDocuments (hasRole "member") (users db') in
       let activeMembers := countDocuments isActiveMember (users db') in
       let totalCommission := reduce_sum AgentReport.commission agentReports in
       DailyReport_upsert yesterday totalMembers activeMembers
         totalCreditMovement totalCommission agentReports
         ("Auto-generated report by system at " ++ toISOString now)%string
         now db') db.

(** *** Range queries on the reports *)

(** [.sort({ date: 1 })] *)
Fixpoint insert_by_date (r : DailyReport.t) (l : list DailyReport.t)
    : list DailyReport.t :=
  match l with
  | [] => [r]
  | x :: l' =>
      if DailyReport.date r <=? DailyReport.date x then r :: l
      else x :: insert_by_date r l'
  end.

Definition sort_by_date (l : list DailyReport.t) : list DailyReport.t :=
  fold_right insert_by_date [] l.

(** The first and last day [generateWeeklySummary] derives from
    [(year, weekNumber)]; [None] when a [Date] on the way is invalid. *)
Definition weekSpan (year weekNumber : Z) : option (Z * Z) :=
  match Date_new year (1 + (weekNumber - 1) * 7) with
  | None => None
  | Some d0 =>
      match addDays d0 (1 - getDay d0) with
      | None => None
      | Some firstDay =>
          match addDays firstDay 6 with
          | None => None
          | Some lastDay => Some (firstDay, lastDay)
          end
      end
  end.

(** [DailyReport.find({ date: { $gte: firstDay, $lte: lastDay } })
      .sort({ date: 1 })] *)
Definition reportsBetween (firstDay lastDay : Z) (rs : list DailyReport.t)
    : list DailyReport.t :=
  sort_by_date
    (filter (fun r => (firstDay <=? DailyReport.date r)
                      && (DailyReport.date r <=? lastDay)) rs).

(** ** The core operations as one step function *)

Inductive Op : Type :=
| OpAdjust (accountId : ObjectId) (amount : Q) (type : string)
    (actorId : ObjectId) (description : option string) (now : Z)
| OpApplyCommission (agentId : ObjectId) (baseAmount : Q)
    (description : option string) (now : Z)
| OpRecompute (agentId : ObjectId) (now : Z)
| OpRunDaily (now : Z).

Definition exec (toLocaleString : Q -> string) (op : Op) (db : Db) : Db :=
  match op with
  | OpAdjust accountId amount type actorId description now =>
      fst (adjust accountId amount type actorId description now db)
  | OpApplyCommission agentId baseAmount description now =>
      fst (calculateCommission toLocaleString agentId baseAmount description
             now db)
  | OpRecompute agentId now => fst (updateAgentStats agentId now db)
  | OpRunDaily now => fst (runDaily now db)
  end.

(** States reached from [init] by core operations. *)
Inductive reachable (toLocaleString : Q -> string) (init : Db) : Db -> Prop :=
| reach_init : reachable toLocaleString init init
| reach_step : forall db op,
    reachable toLocaleString init db ->
    reachable toLocaleString init (exec toLocaleString op db).

Definition balances_nonneg (db : Db) : Prop :=
  Forall (fun u => (0 <= User.credit u)%Q) (users db).

Definition balances_two_decimals (db : Db) : Prop :=
  Forall (fun u => TwoDecimals (User.credit u)) (users db).

(** ** Vocabulary of the properties *)

(** Exceptions raised by the validators of [transactionSchema], that is,
    by [transaction.save()]. *)
Definition raisedByTransaction (e : Exn) : bool :=
  match e with
  | ValidationError model _ => (model =? "Transaction")%string
  | _ => false
  end.

(** An operation keeps a property of the database, whatever it returns. *)
Definition preserves {A : Type} (P : Db -> Prop) (m : M A) : Prop :=
  forall db, P db -> P (fst (m db)).

(** The paths of an AgentStats record that [updateAgentStats] does not
    assign. *)
Definition untouched (s : AgentStats.t)
    : ObjectId * Q * Q * Q * list CommissionEntry.t :=
  (AgentStats.agent s, AgentStats.totalProfit s, AgentStats.commissionRate s,
   AgentStats.totalCommission s, AgentStats.commissionHistory s).

(** The stored reports of one date. *)
Definition reportsDated (d : Z) (rs : list DailyReport.t)
    : list DailyReport.t :=
  filter (fun r => DailyReport.date r =? d) rs.

(** The date, totals and per-agent sub-reports of a DailyReport: everything
    but [systemNotes] and the timestamps. *)
Definition reportContent (r : DailyReport.t)
    : Z * Z * Z * Q * Q * list AgentReport.t :=
  (DailyReport.date r, DailyReport.totalMembers r, DailyReport.activeMembers r,
   DailyReport.totalCreditMovement r, DailyReport.totalCommission r,
   DailyReport.agentReports r).

(** The transactions the run at [now] keeps for [agent]. *)
Definition selectedFor (now : Z) (db : Db) (agent : User.t)
    : list Transaction.t :=
  memberTransactionsOf
    (distinct (map User._id (filter (isMemberOf (User._id agent)) (users db))))
    (transactionsBetween (startOfDay (now - msPerDay)) (startOfDay now)
       (transactions db)).

(** A report date lies in the span of a week. *)
Definition inSpan (firstDay lastDay : Z) (r : DailyReport.t) : Prop :=
  firstDay <= DailyReport.date r <= lastDay.

(** What the specification asks of a sub-report's [creditMovement]: the
    signed sum over the window's transactions of the agent's members. *)
Definition signedAmount (t : Transaction.t) : Q :=
  if (Transaction.type t =? "add")%string then Transaction.amount t
  else (- Transaction.amount t)%Q.

Definition creditMovement_spec (transactions : list Transaction.t)
    (us : list User.t) (agent : User.t) : Q :=
  reduce_sum signedAmount
    (filter (fun t =>
               existsb (fun u => isMemberOf (User._id agent) u
                                 && oid_eqb (User._id u) (Transaction.user t))
                       us)
            transactions).

(** ** Concrete data for the examples *)

(** A formatter in the shape of the th-TH locale: grouped integer part, two
    or three fraction digits. *)
Fixpoint decimal (fuel : nat) (n : Z) : string :=
  match fuel with
  | O => EmptyString
  | S f =>
      if n <? 10 then String (digit n) EmptyString
      else (decimal f (n / 10) ++ String (digit (n mod 10)) EmptyString)%string
  end.

Fixpoint grouped (fuel : nat) (n : Z) : string :=
  match fuel with
  | O => EmptyString
  | S f =>
      if n <? 1000 then decimal 3 n
      else (grouped f (n / 1000) ++ "," ++ pad 3 (n mod 1000))%string
  end.

Definition format_thTH (q : Q) : string :=
  let scaled := Qfloor (Qabs q * 1000 + (1 # 2))%Q in
  let int := scaled / 1000 in
  let frac := scaled mod 1000 in
  let sign := if Qltb q 0 then "-" else EmptyString in
  let fraction := if frac mod 10 =? 0 then pad 2 (frac / 10) else pad 3 frac in
  (sign ++ grouped (S (Z.to_nat (Z.log2 int))) int ++ "." ++ fraction)%string.

Definition rootId : ObjectId := Oid "64b000000000000000000000".
Definition agentA_id : ObjectId := Oid "64b0000000000000000000a1".
Definition memberM_id : ObjectId := Oid "64b0000000000000000000b1".

Definition agentA : User.t :=
  User.mk agentA_id "agentA" "agent" 100 (Some rootId).
Definition memberM : User.t :=
  User.mk memberM_id "memberM" "member" 50 (Some agentA_id).
Definition statsA : AgentStats.t := AgentStats.new agentA_id 0.

(** A cast in the shape of Mongoose's: 24 hexadecimal digits, read in either
    case. *)
Definition is_hex (c : ascii) : bool :=
  let n := nat_of_ascii c in
  ((Nat.leb 48 n && Nat.leb n 57) || (Nat.leb 65 n && Nat.leb n 70)
   || (Nat.leb 97 n && Nat.leb n 102))%bool.

Definition lower_hex (c : ascii) : ascii :=
  let n := nat_of_ascii c in
  if (Nat.leb 65 n && Nat.leb n 70)%bool then ascii_of_nat (n + 32) else c.

Definition castHex (s : string) : option ObjectId :=
  let l := list_ascii_of_string s in
  if (Nat.eqb (length l) 24 && forallb is_hex l)%bool
  then Some (Oid (string_of_list_ascii (map lower_hex l)))
  else None.

(** Agent A (rate 0.05, balance 100.00) with its member M (balance 50.00). *)
Definition db0 : Db := mkDb [agentA; memberM] [] [statsA] [].

(** 2025-11-03T00:00:05.000Z and one minute later. *)
Definition night1 : Z := 1762128005000.
Definition night2 : Z := 1762128065000.
(** 2025-11-02T10:00:00.000Z, inside the window of that night's run. *)
Definition noon : Z := 1762077600000.

(** The operator, and a request description of 255 characters, the longest
    the route's validation lets through. *)
Definition admin : Actor := mkActor rootId "admin" "superadmin".
Definition requestDescription : string := repeat_char "x" 255.

(** The description the credit route builds from it:
    [`${description} by ${req.user.username}`]. *)
Definition longDescription : string :=
  (requestDescription ++ " by admin")%string.

(** The database after member M was debited 40.00 at [noon]. *)
Definition db_deduct : Db :=
  fst (adjust memberM_id 40 "deduct" rootId None noon db0).

(** The database after the nightly run that follows the debit. *)
Definition db_reported : Db := fst (runDaily night1 db_deduct).

(** A second member of agent A, registered after the first nightly run. *)
Definition memberN : User.t :=
  User.mk (Oid "64b0000000000000000000b2") "memberN" "member" 0
    (Some agentA_id).

Definition db_registered : Db :=
  with_users db_reported (users db_reported ++ [memberN]).

(** ** Vocabulary of the further properties *)

(** What identifies an account and places it in the hierarchy. *)
Definition identity (u : User.t)
    : ObjectId * string * string * option ObjectId :=
  (User._id u, User.username u, User.role u, User.parent u).

(** The log of [db'] continues the log of [db]. *)
Definition logExtends (db db' : Db) : Prop :=
  exists l, transactions db' = transactions db ++ l.

(** A Transaction the validators of its schema accept. *)
Definition acceptedTransaction (t : Transaction.t) : Prop :=
  (1 # 100 <= Transaction.amount t)%Q
  /\ (Transaction.type t = "add" \/ Transaction.type t = "deduct")
  /\ (js_length (Transaction.description t) <= 255)%nat.

(** A Transaction whose monetary paths went through the setter. *)
Definition roundedTransaction (t : Transaction.t) : Prop :=
  TwoDecimals (Transaction.amount t)
  /\ TwoDecimals (Transaction.oldCredit t)
  /\ TwoDecimals (Transaction.newCredit t).

(** An agent has an AgentStats record. *)
Definition hasStats (db : Db) (agentId : ObjectId) : Prop :=
  AgentStats_findOne (agentStats db) agentId <> None.

(** A state reached from [db0]: M debited 40.00, A paid a commission on
    base 0.40, A's rollup recomputed, the nightly run. *)
Definition db_reached : Db :=
  exec format_thTH (OpRunDaily night1)
    (exec format_thTH (OpRecompute agentA_id noon)
       (exec format_thTH (OpApplyCommission agentA_id (4 # 10) None noon)
          (exec format_thTH
             (OpAdjust memberM_id 40 "deduct" rootId None noon) db0))).

(** The record [updateAgentStats] assigns from the accounts [us] onto the
    record [st] it found. *)
Definition rollup (agentId : ObjectId) (st : AgentStats.t) (now : Z)
    (us : list User.t) : AgentStats.t :=
  AgentStats.mk (AgentStats.agent st)
    (Z.of_nat (length (filter (isMemberOf agentId) us)))
    (Z.of_nat (length (filter
       (fun u => isMemberOf agentId u && Qltb 0 (User.credit u)) us)))
    (round2 match aggregate_total agentId us with
            | total :: _ => if Qeq_bool total 0 then 0%Q else total
            | [] => 0%Q
            end)
    (AgentStats.totalProfit st) (AgentStats.commissionRate st)
    (AgentStats.totalCommission st) (AgentStats.commissionHistory st) now.

(** Reports in ascending order of date. *)
Definition byDate (a b : DailyReport.t) : Prop :=
  DailyReport.date a <= DailyReport.date b.

(** ** Read routes and the range report *)

(** The answer of a read route: a status, or the payload sent with 200. *)
Inductive Reply (A : Type) : Type :=
| R400                      (* a CastError caught by the handler *)
| R401                      (* no token, or an invalid or expired one *)
| R403
| R404
| R500
| R200 (payload : A).
Arguments R400 {A}.
Arguments R401 {A}.
Arguments R403 {A}.
Arguments R404 {A}.
Arguments R500 {A}.
Arguments R200 {A} payload.

(** [checkAccess] ([memberRoutes.js]): [token] is what [jwt.verify] decodes
    from the [x-auth-token] header ([None] when the header is missing or the
    verification throws); [paramId] is [req.params.id] as Mongoose casts it
    to an ObjectId, [None] for a route without [:id] and [Some None] for a
    string the cast refuses, on which [User.findById] rejects and the
    [.catch] answers 500; [next] is the handler that follows. *)
Definition checkAccess {A : Type} (token : option Actor)
    (paramId : option (option ObjectId)) (db : Db) (next : Actor -> Reply A)
    : Reply A :=
  match token with
  | None => R401
  | Some decoded =>
      if (actor_role decoded =? "superadmin")%string then next decoded
      else if (actor_role decoded =? "agent")%string then
        match paramId with
        | Some None => R500
        | Some (Some id) =>
            match findById (users db) id with
            | None => R403
            | Some member =>
                if negb (opt_oid_eqb (User.parent member) (actor_id decoded))
                then R403
                else next decoded
            end
        | None => next decoded
        end
      else R403
  end.

(** [.sort({ createdAt: -1 })] *)
Fixpoint insert_newest (t : Transaction.t) (l : list Transaction.t)
    : list Transaction.t :=
  match l with
  | [] => [t]
  | x :: l' =>
      if Transaction.createdAt x <=? Transaction.createdAt t then t :: l
      else x :: insert_newest t l'
  end.

Definition sort_newest (l : list Transaction.t) : list Transaction.t :=
  fold_right insert_newest [] l.

(** [Transaction.find({ user: memberId }).sort({ createdAt: -1 }).limit(50)] *)
Definition recentTransactions (memberId : ObjectId)
    (ts : list Transaction.t) : list Transaction.t :=
  firstn 50
    (sort_newest
       (filter (fun t => oid_eqb (Transaction.user t) memberId) ts)).

Module TransactionView.
(** An element of the [transactions] array the route answers ([_id] apart,
    which the model of a Transaction leaves out). *)
Record t : Type := mk {
  amount : Q;
  type : string;
  oldCredit : Q;
  newCredit : Q;
  description : string;
  createdAt : Z;
  formattedDate : string;
  formattedAmount : string;
  formattedOldCredit : string;
  formattedNewCredit : string
}.
End TransactionView.

Module MemberView.
Record t : Type := mk {
  _id : ObjectId;
  username : string;
  currentCredit : Q;
  formattedCurrentCredit : string
}.
End MemberView.

Module StatsView.
(** The three shapes [GET /stats] answers: for the operator, for an agent,
    and [{}]. *)
Inductive t : Type :=
| Operator (totalMembers activeMembers : Z) (totalCredit : Q)
    (inactiveMembers : Z) (formattedTotalCredit : string)
| Agent (totalMembers activeMembers : Z) (totalCredit totalCommission : Q)
    (commissionRate : Q) (formattedTotalCredit : string)
    (formattedTotalCommission : string)
| Empty.
End StatsView.

Module NamedAgentReport.
(** [{ ...ar, agentName }]: what the spread copies of the sub-document,
    kept here as the sub-document itself, and the name. *)
Record t : Type := mk {
  ar : AgentReport.t;
  agentName : string
}.
End NamedAgentReport.

Module FormattedReport.
(** [{ ...report.toObject(), formattedDate, agentReports }] *)
Record t : Type := mk {
  report : DailyReport.t;
  formattedDate : string;
  agentReports : list NamedAgentReport.t
}.
End FormattedReport.

(** [x || 0] and [x || 0.05] on numbers. *)
Definition orNumber (x : option Q) (default : Q) : Q :=
  match x with
  | Some q => if Qeq_bool q 0 then default else q
  | None => default
  end.

Definition orCount (x : option Z) : Z :=
  match x with
  | Some n => n
  | None => 0
  end.



Section ReadRoutes.

(** [n.toLocaleString('th-TH', { minimumFractionDigits: 2,
      maximumFractionDigits: 2 })], the [formattedDate] virtual of a
    Transaction and the [formattedDate] virtual of a DailyReport: locale
    data of the runtime. *)
Variable formatMoney : Q -> string.
Variable formatDateTime : Z -> string.
Variable formatDate : Z -> string.

(** Mongoose's cast of a string to an ObjectId ([None] when it throws a
    CastError): which strings it accepts, and that it reads hexadecimal
    digits in either case, is the library's. *)
Variable castObjectId : string -> option ObjectId.

Definition viewTransaction (t : Transaction.t) : TransactionView.t :=
  TransactionView.mk (Transaction.amount t) (Transaction.type t)
    (Transaction.oldCredit t) (Transaction.newCredit t)
    (Transaction.description t) (Transaction.createdAt t)
    (formatDateTime (Transaction.createdAt t))
    (formatMoney (Transaction.amount t))
    (formatMoney (Transaction.oldCredit t))
    (formatMoney (Transaction.newCredit t)).

(** The handler of [GET /:id/transactions]: a CastError thrown by a query
    is answered 400. *)
Definition transactionsHandler (id : string) (db : Db) (user : Actor)
    : Reply (MemberView.t * list TransactionView.t) :=
  match castObjectId id with
  | None => R400
  | Some memberId =>
  match findById (users db) memberId with
  | None => R404
  | Some member =>
      if (actor_role user =? "agent")%string
         && negb (opt_oid_eqb (User.parent member) (actor_id user))
      then R403
      else
        R200 (MemberView.mk (User._id member) (User.username member)
                (User.credit member) (formatMoney (User.credit member)),
              map viewTransaction
                (recentTransactions memberId (transactions db)))
  end
  end.

(** [router.get('/:id/transactions', checkAccess, ...)]; an empty [id] is
    falsy in [if (req.params.id)]. *)
Definition transactionsRoute (token : option Actor) (id : string)
    (db : Db) : Reply (MemberView.t * list TransactionView.t) :=
  checkAccess token
    (if (id =? "")%string then None else Some (castObjectId id)) db
    (transactionsHandler id db).

(** The handler of [GET /stats] ([memberRoutes.js]); an account without
    parent has no [parent] path. *)
Definition statsHandler (db : Db) (user : Actor) : Reply StatsView.t :=
  if (actor_role user =? "superadmin")%string then
    let orphan u :=
      hasRole "member" u
      && match User.parent u with Some _ => false | None => true end in
    let totalMembers := countDocuments orphan (users db) in
    let activeMembers :=
      countDocuments (fun u => orphan u && Qltb 0 (User.credit u))
        (users db) in
    let totalCreditValue :=
      match filter orphan (users db) with
      | [] => 0%Q
      | ms =>
          let total := reduce_sum User.credit ms in
          if Qeq_bool total 0 then 0%Q else total
      end in
    R200 (StatsView.Operator totalMembers activeMembers
            (round2 totalCreditValue) (totalMembers - activeMembers)
            (formatMoney totalCreditValue))
  else if (actor_role user =? "agent")%string then
    let agentStats0 := AgentStats_findOne (agentStats db) (actor_id user) in
    let totalCredit :=
      orNumber (option_map AgentStats.totalCredit agentStats0) 0 in
    let totalCommission :=
      orNumber (option_map AgentStats.totalCommission agentStats0) 0 in
    R200 (StatsView.Agent
            (orCount (option_map AgentStats.totalMembers agentStats0))
            (orCount (option_map AgentStats.activeMembers agentStats0))
            totalCredit totalCommission
            (orNumber (option_map AgentStats.commissionRate agentStats0)
               (5 # 100))
            (formatMoney totalCredit) (formatMoney totalCommission))
  else R200 StatsView.Empty.

(** [router.get('/stats', checkAccess, ...)] ([memberRoutes.js]) *)
Definition statsRoute (token : option Actor) (db : Db) : Reply StatsView.t :=
  checkAccess token None db (statsHandler db).


End ReadRoutes.

(** Transactions from the newest to the oldest. *)
Definition newestFirst (a b : Transaction.t) : Prop :=
  Transaction.createdAt b <= Transaction.createdAt a.

(** * The operations on the values of the runtime

    Wherever a property depends on how a Number rounds, or on what a request
    may carry, the operation is embedded on the values the runtime has: a
    Number is a binary64 float, a field of a JSON body is untyped, and a
    failed validation carries what its message prints.  What the source takes
    from its libraries and from the built-ins of the language, and whose
    result cannot be read off the source ([Number.prototype.toString],
    the conversion of a string to a Number, the locale formatters, the
    standard validators of express-validator, Mongoose's cast of a string to
    an ObjectId, MongoDB's [$sum]) is a parameter: the properties hold for
    every behaviour of these. *)

Module Js.

(** ** Numbers *)

Definition isNaN (x : float) : bool := negb (PrimFloat.eqb x x).

(** The integer [n] as a Number; exact for [|n| <= 2^53]. *)
Definition ofZ (n : Z) : float :=
  let a := PrimFloat.of_uint63 (Uint63.of_Z (Z.abs n)) in
  if n <? 0 then PrimFloat.opp a else a.

(** [Math.round(x)]: [x] itself when it is an integer, an infinity, a zero
    or NaN; otherwise [floor(x + 1/2)], computed exactly, with the sign of
    [x] when the result is zero. *)
Definition Math_round (x : float) : float :=
  match Prim2SF x with
  | S754_finite s m e =>
      if 0 <=? e then x
      else
        let d := 2 ^ (- e) in
        let v := if s then Z.neg m else Z.pos m in
        let n := (2 * v + d) / (2 * d) in
        if n =? 0 then (if s then (-0)%float else 0%float) else ofZ n
  | _ => x
  end.

(** The setter every monetary path shares:
    [v => Math.round(v * 100) / 100]. *)
Definition round2 (v : float) : float :=
  PrimFloat.div (Math_round (PrimFloat.mul v 100%float)) 100%float.

(** [x || d] on Numbers: [0], [-0] and NaN are falsy. *)
Definition orNumber (x d : float) : float :=
  if (isNaN x || PrimFloat.eqb x 0%float)%bool then d else x.

(** [arr.reduce((sum, x) => sum + f(x), 0)] *)
Definition reduce_sum {A : Type} (f : A -> float) (arr : list A) : float :=
  fold_left (fun sum x => PrimFloat.add sum (f x)) arr 0%float.

(** [a === b] on Numbers. *)
Definition same (a b : float) : Prop := PrimFloat.eqb a b = true.

(** Neither an infinity nor NaN. *)
Definition isFinite (x : float) : bool :=
  match Prim2SF x with
  | S754_finite _ _ _ => true
  | S754_zero _ => true
  | _ => false
  end.

(** The exact value of a finite Number. *)
Definition toQ (x : float) : Q :=
  match Prim2SF x with
  | S754_finite s m e =>
      let v := if s then Z.neg m else Z.pos m in
      if 0 <=? e then inject_Z (v * 2 ^ e)
      else v # Z.to_pos (2 ^ (- e))
  | _ => 0%Q
  end.

(** ** Values of a JSON body

    [Arr image] is an array, by the string its elements join to, which is
    all the coercions of the code depend on; an absent field is
    [Undefined].  A JSON object does not pass [isFloat] and has no place
    here. *)
Inductive value : Type :=
| Undefined
| Null
| Bool (b : bool)
| Num (x : float)
| Str (s : string)
| Arr (image : string).

(** [v === 'text'] *)
Definition isText (v : value) (text : string) : bool :=
  match v with
  | Str s => (s =? text)%string
  | _ => false
  end.

(** [haystack.includes(needle)] on strings. *)
Fixpoint includes (haystack needle : string) : bool :=
  (String.prefix needle haystack
   || match haystack with
      | EmptyString => false
      | String _ rest => includes rest needle
      end)%bool.

(** [s.split('.')[1]]: the text between the first and the second dot;
    [None] ([undefined]) when there is no dot. *)
Fixpoint untilDot (s : string) : string :=
  match s with
  | EmptyString => EmptyString
  | String c s' =>
      if Ascii.eqb c "."%char then EmptyString else String c (untilDot s')
  end.

Fixpoint split_dot_1 (s : string) : option string :=
  match s with
  | EmptyString => None
  | String c s' =>
      if Ascii.eqb c "."%char then Some (untilDot s') else split_dot_1 s'
  end.

(** ** Exceptions

    A [ValidationError] lists the paths that failed with, for a String path,
    the value its message quotes ([None] for a path whose message quotes a
    Number or nothing). *)
Inductive Exn : Type :=
| JsError (message : string)
| ValidationError (model : string) (errors : list (string * option string))
| DocumentNotFoundError (model : string)
| CastError (path : string).

(** [err.message.includes(needle)], for a needle of letters and spaces: the
    fixed text of Mongoose's messages, the names of models and paths and the
    digits of a Number hold none, so only a quoted String value can. *)
Definition mentions (err : Exn) (needle : string) : bool :=
  match err with
  | JsError message => includes message needle
  | ValidationError _ errors =>
      existsb (fun e => match snd e with
                        | Some quoted => includes quoted needle
                        | None => false
                        end) errors
  | DocumentNotFoundError _ => false
  | CastError _ => false
  end.

(** ** Documents *)

Module User.
Record t : Type := mk {
  _id : ObjectId;
  username : string;
  role : string;
  credit : float;
  parent : option ObjectId
}.

Definition with_credit (u : t) (v : float) : t :=
  mk (_id u) (username u) (role u) v (parent u).
End User.

Module Transaction.
Record t : Type := mk {
  user : ObjectId;
  amount : float;
  type : string;
  oldCredit : float;
  newCredit : float;
  adjustedBy : ObjectId;
  description : string;
  createdAt : Z
}.
End Transaction.

Module CommissionEntry.
Record t : Type := mk {
  amount : float;
  date : Z;
  description : string
}.
End CommissionEntry.

Module AgentStats.
Record t : Type := mk {
  agent : ObjectId;
  totalMembers : float;
  activeMembers : float;
  totalCredit : float;
  totalProfit : float;
  commissionRate : float;
  totalCommission : float;
  commissionHistory : list CommissionEntry.t;
  lastUpdated : Z
}.

(** [new AgentStats({ agent })] with the schema defaults. *)
Definition new (agent : ObjectId) (now : Z) : t :=
  mk agent 0%float 0%float 0%float 0%float 0.05%float 0%float [] now.
End AgentStats.

Module DailyReport.
(** [dailyReportSchema], less the per-agent sub-reports, which the weekly
    summary does not read. *)
Record t : Type := mk {
  date : Z;
  totalMembers : float;
  activeMembers : float;
  totalCreditMovement : float;
  totalCommission : float
}.
End DailyReport.

Record Db : Type := mkDb {
  users : list User.t;
  transactions : list Transaction.t;
  agentStats : list AgentStats.t;
  dailyReports : list DailyReport.t
}.

Definition with_users (db : Db) (us : list User.t) : Db :=
  mkDb us (transactions db) (agentStats db) (dailyReports db).
Definition with_transactions (db : Db) (ts : list Transaction.t) : Db :=
  mkDb (users db) ts (agentStats db) (dailyReports db).
Definition with_agentStats (db : Db) (ss : list AgentStats.t) : Db :=
  mkDb (users db) (transactions db) ss (dailyReports db).

(** ** The operation monad *)

Definition M (A : Type) : Type := Db -> Db * (Exn + A).

Definition ret {A : Type} (a : A) : M A := fun db => (db, inr a).
Definition throw {A : Type} (e : Exn) : M A := fun db => (db, inl e).
Definition bind {A B : Type} (m : M A) (k : A -> M B) : M B :=
  fun db =>
    match m db with
    | (db', inr a) => k a db'
    | (db', inl e) => (db', inl e)
    end.
Definition try_catch {A : Type} (m : M A) (h : Exn -> M A) : M A :=
  fun db =>
    match m db with
    | (db', inr a) => (db', inr a)
    | (db', inl e) => h e db'
    end.

Declare Scope js_scope.
Delimit Scope js_scope with js.
Notation "x <- m ;; k" := (bind m (fun x => k))
  (at level 61, m at next level, right associativity) : js_scope.
Notation "m ;;; k" := (bind m (fun _ => k))
  (at level 61, right associativity) : js_scope.

(** ** Queries *)

Definition findById (us : list User.t) (id : ObjectId) : option User.t :=
  find (fun u => oid_eqb (User._id u) id) us.

Definition AgentStats_findOne (ss : list AgentStats.t) (agentId : ObjectId)
    : option AgentStats.t :=
  find (fun s => oid_eqb (AgentStats.agent s) agentId) ss.

Definition balance (db : Db) (id : ObjectId) : option float :=
  option_map User.credit (findById (users db) id).

(** [{ parent: agentId, role: 'member' }] *)
Definition isMemberOf (agentId : ObjectId) (u : User.t) : bool :=
  opt_oid_eqb (User.parent u) agentId && (User.role u =? "member")%string.

(** ** Assignment to a Number path

    Mongoose runs the setter, then the cast, which refuses NaN: the path is
    then marked invalid and keeps its value.  A value [===] to the one the
    path holds is stored in the document but does not mark the path
    modified: [save()] validates it, and does not write it. *)
Inductive assignment : Type :=
| Rejected
| Unmodified (v : float)
| Modified (v : float).

Definition assign (setter : float -> float) (prior : float) (v : float)
    : assignment :=
  let r := setter v in
  if isNaN r then Rejected
  else if PrimFloat.eqb prior r then Unmodified r
  else Modified r.

(** The value the document holds after the assignment. *)
Definition held (prior : float) (a : assignment) : float :=
  match a with
  | Rejected => prior
  | Unmodified v => v
  | Modified v => v
  end.

(** What [save()] reports for the path: a failed cast, or a value that
    fails [min]. *)
Definition pathErrors (path : string) (min : float) (a : assignment)
    : list (string * option string) :=
  match a with
  | Rejected => [(path, None)]
  | Unmodified v | Modified v =>
      if PrimFloat.leb min v then [] else [(path, None)]
  end.

(** The value written by [save()], if any. *)
Definition written (stored : float) (a : assignment) : float :=
  match a with
  | Modified v => v
  | _ => stored
  end.

(** A monetary path of a new document: the setter, then the cast. *)
Definition castNumber (v : float) : option float :=
  let r := round2 v in
  if isNaN r then None else Some r.

Section Runtime.

(** The conversion of a string to a Number, [Number.prototype.toString],
    and [n.toLocaleString('th-TH', { minimumFractionDigits: 2 })]. *)
Variable StringToNumber : string -> float.
Variable NumberToString : float -> string.
Variable toLocaleString : float -> string.

(** Mongoose's cast of a string to an ObjectId; [None] when it throws. *)
Variable castObjectId : string -> option ObjectId.

(** [ToNumber(v)] *)
Definition ToNumber (v : value) : float :=
  match v with
  | Undefined => PrimFloat.nan
  | Null => 0%float
  | Bool b => if b then 1%float else 0%float
  | Num x => x
  | Str s => StringToNumber s
  | Arr image => StringToNumber image
  end.

(** [`${v}`] *)
Definition ToString (v : value) : string :=
  match v with
  | Undefined => "undefined"
  | Null => "null"
  | Bool b => if b then "true" else "false"
  | Num x => NumberToString x
  | Str s => s
  | Arr image => image
  end.

(** [x + v] for a Number [x]: a concatenation when [v] is a string or an
    array. *)
Definition plus (x : float) (v : value) : value :=
  match v with
  | Str s => Str (NumberToString x ++ s)
  | Arr image => Str (NumberToString x ++ image)
  | _ => Num (PrimFloat.add x (ToNumber v))
  end.

(** [x < v] for a Number [x]: [false] when [v] converts to NaN. *)
Definition lessThan (x : float) (v : value) : bool :=
  PrimFloat.ltb x (ToNumber v).

(** Assigning [v] to a monetary path: [v * 100] in the setter converts [v]
    to a Number. *)
Definition assignMoney (prior : float) (v : value) : assignment :=
  assign round2 prior (ToNumber v).

Definition castMoney (v : value) : option float := castNumber (ToNumber v).

(** ** Saves *)

(** [user.save()] after [credit] was assigned: the validators run on what
    was modified, then the update must match the stored document. *)
Definition User_save (this : User.t) (credit : assignment) : M User.t :=
  fun db =>
    let errors := pathErrors "credit" 0%float credit in
    match errors with
    | _ :: _ => (db, inl (ValidationError "User" errors))
    | [] =>
        match findById (users db) (User._id this) with
        | None => (db, inl (DocumentNotFoundError "User"))
        | Some _ =>
            (with_users db
               (updateOne (fun u => oid_eqb (User._id u) (User._id this))
                  (fun u => User.with_credit u (written (User.credit u) credit))
                  (users db)),
             inr (User.with_credit this (held (User.credit this) credit)))
        end
    end.

(** [new Transaction({ user, amount, type, oldCredit, newCredit, adjustedBy,
    description })] followed by [save()]: the setters and casts run in the
    constructor, the validators ([required], [min: 0.01], [enum],
    [maxlength: 255]) in [save()], which reports every path that failed. *)
Definition Transaction_errors (amount oldCredit newCredit : option float)
    (type : string) (adjustedBy : string) (cast : option ObjectId)
    (description : string) : list (string * option string) :=
  (match amount with
   | None => [("amount", None)]
   | Some a => if PrimFloat.leb 0.01%float a then [] else [("amount", None)]
   end)
  ++ (if ((type =? "add") || (type =? "deduct"))%string then []
      else [("type", Some type)])
  ++ (match oldCredit with None => [("oldCredit", None)] | Some _ => [] end)
  ++ (match newCredit with None => [("newCredit", None)] | Some _ => [] end)
  ++ (match cast with None => [("adjustedBy", Some adjustedBy)] | Some _ => [] end)
  ++ (if 255 <? Z.of_nat (js_length description)
      then [("description", Some description)] else []).

Definition Transaction_create (user : ObjectId) (amount : value)
    (type : string) (oldCredit newCredit : float) (adjustedBy : string)
    (description : string) (now : Z) : M Transaction.t :=
  fun db =>
    let amount' := castMoney amount in
    let oldCredit' := castNumber oldCredit in
    let newCredit' := castNumber newCredit in
    let adjustedBy' := castObjectId adjustedBy in
    let description' := trim description in
    match amount', oldCredit', newCredit', adjustedBy',
          Transaction_errors amount' oldCredit' newCredit' type adjustedBy
            adjustedBy' description' with
    | Some a, Some o, Some n, Some by_, [] =>
        let saved := Transaction.mk user a type o n by_ description' now in
        (with_transactions db (transactions db ++ [saved]), inr saved)
    | _, _, _, _, errors =>
        (db, inl (ValidationError "Transaction" errors))
    end.

(** ** [userSchema.methods.updateCredit] *)

Local Open Scope js_scope.

Definition updateCredit (this : User.t) (amount type : value)
    (adjustedBy : string) (description : option string) (now : Z)
    : M (User.t * Transaction.t) :=
  let description := orDefault description "Credit adjustment" in
  let oldCredit := User.credit this in
  credit <-
    (if isText type "add" then
       ret (assignMoney oldCredit (plus oldCredit amount))
     else if isText type "deduct" then
       if lessThan oldCredit amount then
         throw (JsError "Insufficient credit")
       else
         ret (assign round2 oldCredit
                (PrimFloat.sub oldCredit (ToNumber amount)))
     else
       throw (JsError "Invalid credit type")) ;;
  this' <- User_save this credit ;;
  saved <- Transaction_create (User._id this') amount (ToString type)
             oldCredit (User.credit this') adjustedBy description now ;;
  ret (this', saved).

(** ** [calculateCommission] and [updateAgentStats] *)

(** [agentStats.save()] in [calculateCommission]: [totalCommission] was
    assigned and an entry pushed to [commissionHistory]. *)
Definition AgentStats_save_commission (this : AgentStats.t)
    (totalCommission : assignment) (amount : option float) (date : Z)
    (description : string) : M unit :=
  fun db =>
    let errors :=
      pathErrors "totalCommission" 0%float totalCommission
      ++ (match amount with
          | None => [("commissionHistory.amount", None)]
          | Some _ => []
          end)
      ++ (if 255 <? Z.of_nat (js_length description)
          then [("commissionHistory.description", Some description)]
          else []) in
    match amount, errors with
    | Some a, [] =>
        match AgentStats_findOne (agentStats db) (AgentStats.agent this) with
        | None => (db, inl (DocumentNotFoundError "AgentStats"))
        | Some _ =>
            (with_agentStats db
               (updateOne
                  (fun s => oid_eqb (AgentStats.agent s)
                              (AgentStats.agent this))
                  (fun s =>
                     AgentStats.mk (AgentStats.agent s)
                       (AgentStats.totalMembers s)
                       (AgentStats.activeMembers s)
                       (AgentStats.totalCredit s)
                       (AgentStats.totalProfit s)
                       (AgentStats.commissionRate s)
                       (written (AgentStats.totalCommission s)
                          totalCommission)
                       (AgentStats.commissionHistory s
                        ++ [CommissionEntry.mk a date description])
                       (AgentStats.lastUpdated s))
                  (agentStats db)),
             inr tt)
        end
    | _, _ => (db, inl (ValidationError "AgentStats" errors))
    end.

Definition calculateCommission (agentId : ObjectId) (betAmount : float)
    (description : option string) (now : Z) : M float :=
  let description := orDefault description "Commission from bet" in
  try_catch
    (fun db =>
       match AgentStats_findOne (agentStats db) agentId with
       | None => (db, inr 0%float)
       | Some agentStats0 =>
           (* populate('agent') *)
           match findById (users db) (AgentStats.agent agentStats0) with
           | None => (db, inr 0%float)
           | Some agent =>
               let commission :=
                 PrimFloat.mul betAmount
                   (AgentStats.commissionRate agentStats0) in
               if PrimFloat.leb commission 0%float then (db, inr 0%float)
               else
                 (User_save agent
                    (assign round2 (User.credit agent)
                       (PrimFloat.add (User.credit agent) commission))
                  ;;;
                  AgentStats_save_commission agentStats0
                    (assign round2 (AgentStats.totalCommission agentStats0)
                       (PrimFloat.add
                          (AgentStats.totalCommission agentStats0)
                          commission))
                    (castNumber commission) now
                    (trim (description ++ ": "
                           ++ toLocaleString betAmount)%string) ;;;
                  ret commission) db
           end
       end)
    (fun _ => ret 0%float).

(** [$sum] of the [$group] stage. *)
Variable sum : list float -> float.

(** [agentStats.save()] in [updateAgentStats]: the two counters and
    [totalCredit] were assigned ([min: 0] on each), and [lastUpdated]. *)
Definition AgentStats_save_rollup (this : AgentStats.t)
    (totalMembers activeMembers totalCredit : assignment) (now : Z)
    : M unit :=
  fun db =>
    let errors :=
      pathErrors "totalMembers" 0%float totalMembers
      ++ pathErrors "activeMembers" 0%float activeMembers
      ++ pathErrors "totalCredit" 0%float totalCredit in
    match errors with
    | _ :: _ => (db, inl (ValidationError "AgentStats" errors))
    | [] =>
        match AgentStats_findOne (agentStats db) (AgentStats.agent this) with
        | None => (db, inl (DocumentNotFoundError "AgentStats"))
        | Some _ =>
            (with_agentStats db
               (updateOne
                  (fun s => oid_eqb (AgentStats.agent s)
                              (AgentStats.agent this))
                  (fun s =>
                     AgentStats.mk (AgentStats.agent s)
                       (written (AgentStats.totalMembers s) totalMembers)
                       (written (AgentStats.activeMembers s) activeMembers)
                       (written (AgentStats.totalCredit s) totalCredit)
                       (AgentStats.totalProfit s)
                       (AgentStats.commissionRate s)
                       (AgentStats.totalCommission s)
                       (AgentStats.commissionHistory s)
                       now)
                  (agentStats db)),
             inr tt)
        end
    end.

Definition updateAgentStats (agentId : ObjectId) (now : Z) : M unit :=
  try_catch
    (fun db =>
       match AgentStats_findOne (agentStats db) agentId with
       | None => (db, inr tt)
       | Some agentStats0 =>
           let members := filter (isMemberOf agentId) (users db) in
           let memberCount := ofZ (Z.of_nat (length members)) in
           let activeMemberCount :=
             ofZ (Z.of_nat (length (filter
               (fun u => PrimFloat.ltb 0%float (User.credit u)) members))) in
           (* totalCreditResult[0]?.total || 0 *)
           let totalCredit :=
             match members with
             | [] => 0%float
             | _ => orNumber (sum (map User.credit members)) 0%float
             end in
           AgentStats_save_rollup agentStats0
             (assign (fun v => v) (AgentStats.totalMembers agentStats0)
                memberCount)
             (assign (fun v => v) (AgentStats.activeMembers agentStats0)
                activeMemberCount)
             (assign round2 (AgentStats.totalCredit agentStats0) totalCredit)
             now db
       end)
    (fun _ => ret tt).

(** ** The credit route ([memberRoutes.js], [PUT /:id/credit]) *)

(** The standard validators of express-validator, as the chains of
    [validateCreditAdjustment] apply them to the fields:
    [param('id').isMongoId()], [body('amount').isFloat({ min: 0.01,
    max: 1000000 })], [body('type').isIn(['add', 'deduct'])] and
    [body('description').optional().isString().isLength({ max: 255 })]. *)
Variable isMongoId : string -> bool.
Variable isFloat : value -> bool.
Variable isIn : value -> bool.
Variable descriptionChain : value -> bool.

(** [member.credit.toFixed(2)] *)
Variable toFixed2 : float -> string.

(** The [custom] validator of [amount]: [value.toString()] throws on
    [null] and [undefined]. *)
Definition atMostTwoDecimals (value : value) : bool :=
  match value with
  | Undefined => false
  | Null => false
  | _ =>
      match split_dot_1 (ToString value) with
      | None => true
      | Some decimalPart => negb (2 <? Z.of_nat (js_length decimalPart))
      end
  end.

Definition validateCreditAdjustment (id : string)
    (amount type description : value) : bool :=
  isMongoId id && isFloat amount && atMostTwoDecimals amount && isIn type
  && descriptionChain description.

(** The answers of the route. *)
Inductive Response : Type :=
| Unauthorized                                   (* 401, by [checkAccess] *)
| AccessDenied                                   (* 403, by [checkAccess] *)
| AccessError                                    (* 500, by [checkAccess] *)
| ValidationFailed                               (* 400, [{ errors }] *)
| NotFound                                       (* 404 *)
| Forbidden                                      (* 403, by the handler *)
| InsufficientCredit (currentCredit : string)    (* 400, before the update *)
| InvalidMemberId                                (* 400, a CastError caught *)
| BadRequest (err : Exn)                         (* 400, [err.message] *)
| ServerError (err : Exn)                        (* 500 *)
| Success (member : User.t) (transaction : Transaction.t).

(** [User.findById(req.params.id)] *)
Definition User_findById (id : string) (db : Db) : Exn + option User.t :=
  match castObjectId id with
  | None => inl (CastError "_id")
  | Some oid => inr (findById (users db) oid)
  end.

(** [checkAccess]: [token] is what [jwt.verify] decodes from the
    [x-auth-token] header, [None] when the header is missing or the
    verification throws. *)
Definition checkAccess (token : option Actor) (id : string) (db : Db)
    (next : Actor -> Db * Response) : Db * Response :=
  match token with
  | None => (db, Unauthorized)
  | Some decoded =>
      if (actor_role decoded =? "superadmin")%string then next decoded
      else if (actor_role decoded =? "agent")%string then
        if (id =? "")%string then next decoded else
        match User_findById id db with
        | inl _ => (db, AccessError)
        | inr None => (db, AccessDenied)
        | inr (Some member) =>
            if negb (opt_oid_eqb (User.parent member) (actor_id decoded))
            then (db, AccessDenied)
            else next decoded
        end
      else (db, AccessDenied)
  end.

(** The handler, after [checkAccess] and the validation chains. *)
Definition creditHandler (id : string) (amount type description : value)
    (now : Z) (db : Db) (user : Actor) : Db * Response :=
  if negb (validateCreditAdjustment id amount type description) then
    (db, ValidationFailed)
  else
    let description :=
      match description with
      | Undefined => "Manual credit adjustment"
      | _ => ToString description
      end in
    match User_findById id db with
    | inl _ => (db, InvalidMemberId)
    | inr None => (db, NotFound)
    | inr (Some member) =>
        if (actor_role user =? "agent")%string
           && negb (opt_oid_eqb (User.parent member) (actor_id user))
        then (db, Forbidden)
        else if isText type "deduct" && lessThan (User.credit member) amount
        then (db, InsufficientCredit (toFixed2 (User.credit member)))
        else
          match updateCredit member amount type (toString (actor_id user))
                  (Some (description ++ " by "
                         ++ actor_username user)%string) now db with
          | (db1, inl err) =>
              match err with
              | CastError _ => (db1, InvalidMemberId)
              | _ =>
                  if mentions err "Insufficient credit"
                  then (db1, BadRequest err)
                  else (db1, ServerError err)
              end
          | (db1, inr (member', transaction)) =>
              match User.parent member with
              | Some parent =>
                  if isText type "add" then
                    let db2 := fst (updateAgentStats parent now db1) in
                    let db3 :=
                      fst (calculateCommission parent
                             (PrimFloat.mul (ToNumber amount) 0.01%float)
                             (Some ("Manual credit adjustment for "
                                    ++ User.username member)%string)
                             now db2) in
                    (db3, Success member' transaction)
                  else (db1, Success member' transaction)
              | None => (db1, Success member' transaction)
              end
          end
    end.

(** [router.put('/:id/credit', checkAccess, validateCreditAdjustment, ...)] *)
Definition creditRoute (token : option Actor) (id : string)
    (amount type description : value) (now : Z) (db : Db)
    : Db * Response :=
  checkAccess token id db (creditHandler id amount type description now db).

End Runtime.

(** ** Weekly summary ([reportService.js], [generateWeeklySummary]) *)

Module DailyLine.
Record t : Type := mk {
  date : string;
  totalCreditMovement : float;
  totalCommission : float;
  totalMembers : float
}.
End DailyLine.

Module Summary.
Record t : Type := mk {
  totalCreditMovement : float;
  totalCommission : float;
  avgMembers : float;
  avgActiveMembers : float;
  dailyReports : list DailyLine.t
}.
End Summary.

Module WeeklySummary.
Record t : Type := mk {
  weekNumber : Z;
  year : Z;
  startDate : string;
  endDate : string;
  totalReports : Z;
  summary : option Summary.t
}.
End WeeklySummary.

(** [{ date: { $gte: firstDay, $lte: lastDay } }] *)
Definition inSpanb (firstDay lastDay : Z) (r : DailyReport.t) : bool :=
  (firstDay <=? DailyReport.date r) && (DailyReport.date r <=? lastDay).

(** [.sort({ date: 1 })] *)
Fixpoint insert_by_date (r : DailyReport.t) (l : list DailyReport.t)
    : list DailyReport.t :=
  match l with
  | [] => [r]
  | x :: l' =>
      if DailyReport.date r <=? DailyReport.date x then r :: l
      else x :: insert_by_date r l'
  end.

Definition sort_by_date (l : list DailyReport.t) : list DailyReport.t :=
  fold_right insert_by_date [] l.

Definition reportsBetween (firstDay lastDay : Z) (rs : list DailyReport.t)
    : list DailyReport.t :=
  sort_by_date (filter (inSpanb firstDay lastDay) rs).

(** [year] and [weekNumber] are integers; an invalid [Date] in the filter
    makes the query throw a CastError, which the [catch] throws again. *)
Definition generateWeeklySummary (year weekNumber : Z) : M WeeklySummary.t :=
  fun db =>
    match weekSpan year weekNumber with
    | None => (db, inl (CastError "date"))
    | Some (firstDay, lastDay) =>
        let reports := reportsBetween firstDay lastDay (dailyReports db) in
        let startDate := split_T_0 (toISOString firstDay) in
        let endDate := split_T_0 (toISOString lastDay) in
        if (Z.of_nat (length reports) =? 0) then
          (db, inr (WeeklySummary.mk weekNumber year startDate endDate 0 None))
        else
          let n := ofZ (Z.of_nat (length reports)) in
          let totalCreditMovement :=
            reduce_sum DailyReport.totalCreditMovement reports in
          let totalCommission :=
            reduce_sum DailyReport.totalCommission reports in
          let avgMembers :=
            PrimFloat.div (reduce_sum DailyReport.totalMembers reports) n in
          let avgActiveMembers :=
            PrimFloat.div (reduce_sum DailyReport.activeMembers reports) n in
          (db,
           inr (WeeklySummary.mk weekNumber year startDate endDate
                  (Z.of_nat (length reports))
                  (Some (Summary.mk
                     (round2 totalCreditMovement)
                     (round2 totalCommission)
                     (Math_round avgMembers)
                     (Math_round avgActiveMembers)
                     (map (fun r =>
                             DailyLine.mk
                               (split_T_0 (toISOString (DailyReport.date r)))
                               (DailyReport.totalCreditMovement r)
                               (DailyReport.totalCommission r)
                               (DailyReport.totalMembers r))
                          reports)))))
    end.

(** ** Vocabulary of the properties *)

(** Exceptions raised by [transaction.save()]. *)
Definition raisedByTransaction (e : Exn) : bool :=
  match e with
  | ValidationError model _ => (model =? "Transaction")%string
  | _ => false
  end.

(** What rounding means, on exact values.  The whole number nearest to
    [x], the upper one of two that are as near. *)
Definition nearest (x : Q) (k : Z) : Prop :=
  (inject_Z k - (1 # 2) <= x /\ x < inject_Z k + (1 # 2))%Q.

(** [r] is [x] rounded to a whole number: the nearest one when [x] is
    finite, [x] itself when it is an infinity or NaN. *)
Definition roundedToUnit (x r : float) : Prop :=
  if isFinite x then
    isFinite r = true
    /\ exists k : Z, (toQ r == inject_Z k)%Q /\ nearest (toQ x) k
  else r = x.

(** [r] is [x] rounded to two decimals: the Number a whole number of
    hundredths gives when divided by 100, that whole number being the one
    nearest to the Number [x * 100]. *)
Definition roundedToCent (x r : float) : Prop :=
  exists hundredths : float,
    roundedToUnit (PrimFloat.mul x 100%float) hundredths
    /\ r = PrimFloat.div hundredths 100%float.

(** Reports in ascending order of date. *)
Definition byDate (a b : DailyReport.t) : Prop :=
  DailyReport.date a <= DailyReport.date b.

(** The paths of an AgentStats record next to [totalCommission] and
    [commissionHistory]. *)
Definition rollupOf (s : AgentStats.t)
    : ObjectId * float * float * float * float * float * Z :=
  (AgentStats.agent s, AgentStats.totalMembers s, AgentStats.activeMembers s,
   AgentStats.totalCredit s, AgentStats.totalProfit s,
   AgentStats.commissionRate s, AgentStats.lastUpdated s).

(** ** A runtime for the examples

    The conversions between strings and Numbers on plain decimal literals
    (no sign, no exponent, at most 15 significant digits), where the
    division of two exactly represented integers is the correctly rounded
    value of the literal; the th-TH formatter of the exact value of a
    Number; a left-to-right [$sum]; and the validators on Numbers and
    strings. *)

Fixpoint digits (s : string) (acc : Z) : option Z :=
  match s with
  | EmptyString => Some acc
  | String c s' =>
      let n := Z.of_nat (nat_of_ascii c) in
      if (48 <=? n) && (n <=? 57) then digits s' (10 * acc + (n - 48))
      else None
  end.

Fixpoint beforeDot (s : string) : string :=
  match s with
  | EmptyString => EmptyString
  | String c s' =>
      if Ascii.eqb c "."%char then EmptyString else String c (beforeDot s')
  end.

Fixpoint afterDot (s : string) : string :=
  match s with
  | EmptyString => EmptyString
  | String c s' => if Ascii.eqb c "."%char then s' else afterDot s'
  end.

Definition exampleStringToNumber (s : string) : float :=
  match digits (beforeDot s) 0, digits (afterDot s) 0 with
  | Some int, Some frac =>
      let k := Z.of_nat (String.length (afterDot s)) in
      PrimFloat.div (ofZ (int * 10 ^ k + frac)) (ofZ (10 ^ k))
  | _, _ => PrimFloat.nan
  end.

(** The shortest decimal that converts back to [x], looked for among those
    of at most [fuel] more decimals than [k]. *)
Fixpoint shortest (fuel : nat) (k : Z) (x : float) : string :=
  let n := Qfloor (toQ x * inject_Z (10 ^ k) + (1 # 2))%Q in
  match fuel with
  | O => EmptyString
  | S fuel' =>
      if PrimFloat.eqb (PrimFloat.div (ofZ n) (ofZ (10 ^ k))) x then
        let int := n / 10 ^ k in
        let fraction :=
          if k =? 0 then EmptyString
          else ("." ++ pad (Z.to_nat k) (n mod 10 ^ k))%string in
        (decimal (S (Z.to_nat (Z.log2 int))) int ++ fraction)%string
      else shortest fuel' (k + 1) x
  end.

Definition exampleNumberToString (x : float) : string :=
  if isNaN x then "NaN" else shortest 18 0 x.

Definition exampleLocale (x : float) : string := format_thTH (toQ x).

Definition exampleToFixed2 (x : float) : string :=
  let n := Qfloor (toQ x * 100 + (1 # 2))%Q in
  (decimal (S (Z.to_nat (Z.log2 (n / 100)))) (n / 100) ++ "."
   ++ pad 2 (n mod 100))%string.

Definition exampleSum (l : list float) : float :=
  fold_left PrimFloat.add l 0%float.

Definition exampleIsMongoId (s : string) : bool :=
  match castHex s with
  | Some _ => true
  | None => false
  end.

Definition exampleIsFloat (v : value) : bool :=
  let x := match v with
           | Num x => x
           | Str s => exampleStringToNumber s
           | _ => PrimFloat.nan
           end in
  PrimFloat.leb 0.01%float x && PrimFloat.leb x 1000000%float.

Definition exampleIsIn (v : value) : bool :=
  isText v "add" || isText v "deduct".

Definition exampleDescriptionChain (v : value) : bool :=
  match v with
  | Undefined => true
  | Str s => Z.of_nat (js_length s) <=? 255
  | _ => false
  end.

(** The credit route on this runtime. *)
Definition exampleRoute : option Actor -> string -> value -> value -> value
                          -> Z -> Db -> Db * Response :=
  creditRoute exampleStringToNumber exampleNumberToString exampleLocale
    castHex exampleSum exampleIsMongoId exampleIsFloat exampleIsIn
    exampleDescriptionChain exampleToFixed2.

(** ** Concrete data for the examples *)

Definition agentA : User.t :=
  User.mk agentA_id "agentA" "agent" 100%float (Some rootId).
Definition memberM : User.t :=
  User.mk memberM_id "memberM" "member" 50%float (Some agentA_id).
Definition statsA : AgentStats.t := AgentStats.new agentA_id 0.

(** Agent A (rate 0.05, balance 100) with its member M (balance 50). *)
Definition db0 : Db := mkDb [agentA; memberM] [] [statsA] [].

(** The operator, with a token as the application signs it. *)
Definition operator : Actor := mkActor rootId "undefined" "superadmin".

(** Two reports of the week of Monday 2025-11-03, and the database that
    holds them. *)
Definition monday : Z := 1762128000000.
Definition reportMon : DailyReport.t :=
  DailyReport.mk monday 3%float 1%float 0.1%float 0.07%float.
Definition reportTue : DailyReport.t :=
  DailyReport.mk (monday + msPerDay) 4%float 2%float 0.2%float 0.07%float.
Definition db_week : Db := mkDb [] [] [] [reportTue; reportMon].

End Js.

(** * Properties *)

(** ** Numbers *)

Lemma Qltb_lt (a b : Q) : Qltb a b = true <-> (a < b)%Q.
Proof.
  unfold Qltb. rewrite negb_true_iff. split.
  - intros H. apply Qnot_le_lt. intros Hle.
    apply Qle_bool_iff in Hle. congruence.
  - intros H. destruct (Qle_bool b a) eqn:E; [|reflexivity].
    apply Qle_bool_iff in E. exfalso. apply (Qlt_not_le _ _ H E).
Qed.

Lemma Qltb_ge (a b : Q) : Qltb a b = false <-> (b <= a)%Q.
Proof.
  unfold Qltb. rewrite negb_false_iff. apply Qle_bool_iff.
Qed.

Lemma Qleb_le (a b : Q) : Qleb a b = true <-> (a <= b)%Q.
Proof. apply Qle_bool_iff. Qed.

Lemma Qleb_gt (a b : Q) : Qleb a b = false <-> (b < a)%Q.
Proof.
  unfold Qleb. split.
  - intros H. apply Qnot_le_lt. intros Hle.
    apply Qle_bool_iff in Hle. congruence.
  - intros H. destruct (Qle_bool a b) eqn:E; [|reflexivity].
    apply Qle_bool_iff in E. exfalso. apply (Qlt_not_le _ _ H E).
Qed.

(** The setter only looks at the value of its argument. *)
Lemma round2_comp (x y : Q) : (x == y)%Q -> round2 x = round2 y.
Proof.
  intros H. unfold round2, Math_round.
  assert (E : (x * 100 + (1 # 2) == y * 100 + (1 # 2))%Q)
    by (rewrite H; reflexivity).
  rewrite (Qfloor_comp _ _ E). reflexivity.
Qed.

Lemma Math_round_half (z : Z) : Math_round (inject_Z z) = z.
Proof.
  unfold Math_round.
  assert (Hlo : (inject_Z z <= inject_Z z + (1 # 2))%Q) by lra.
  assert (Hhi : (inject_Z z + (1 # 2) < inject_Z (z + 1))%Q).
  { rewrite inject_Z_plus. change (inject_Z 1) with 1%Q. lra. }
  pose proof (Qfloor_le (inject_Z z + (1 # 2))) as H1.
  pose proof (Qlt_floor (inject_Z z + (1 # 2))) as H2.
  assert (H3 : (inject_Z (Qfloor (inject_Z z + (1 # 2))) < inject_Z (z + 1))%Q)
    by (eapply Qle_lt_trans; eauto).
  assert (H4 : (inject_Z z < inject_Z (Qfloor (inject_Z z + (1 # 2)) + 1))%Q)
    by (eapply Qle_lt_trans; eauto).
  rewrite <- Zlt_Qlt in H3, H4. lia.
Qed.

(** Hundredths are fixed points of the setter. *)
Lemma round2_hundredths (z : Z) :
  (round2 (inject_Z z / 100) == inject_Z z / 100)%Q.
Proof.
  unfold round2.
  assert (E : Math_round (inject_Z z / 100 * 100) = z).
  { rewrite <- (Math_round_half z) at 2. unfold Math_round.
    apply Qfloor_comp. field. }
  rewrite E. reflexivity.
Qed.

Lemma TwoDecimals_round2 (q : Q) : TwoDecimals (round2 q).
Proof. unfold TwoDecimals. unfold round2 at 2 3. apply round2_hundredths. Qed.

Lemma TwoDecimals_hundredths (q : Q) :
  TwoDecimals q -> exists z, (q == inject_Z z / 100)%Q.
Proof.
  intros H. exists (Math_round (q * 100)). symmetry. exact H.
Qed.

Lemma Math_round_nonneg (q : Q) : (0 <= q)%Q -> 0 <= Math_round q.
Proof.
  intros H. unfold Math_round.
  change 0 with (Qfloor 0). apply Qfloor_resp_le. lra.
Qed.

Lemma round2_nonneg (q : Q) : (0 <= q)%Q -> (0 <= round2 q)%Q.
Proof.
  intros H. unfold round2.
  assert (H1 : 0 <= Math_round (q * 100)).
  { apply Math_round_nonneg. nra. }
  rewrite Zle_Qle in H1. change (inject_Z 0) with 0%Q in H1.
  apply Qle_shift_div_l; lra.
Qed.

(** ** Collections *)

Lemma oid_eqb_eq (a b : ObjectId) : oid_eqb a b = true <-> a = b.
Proof.
  destruct a as [x], b as [y]. unfold oid_eqb. simpl.
  rewrite String.eqb_eq. split; congruence.
Qed.

Lemma oid_eqb_refl (a : ObjectId) : oid_eqb a a = true.
Proof. apply oid_eqb_eq. reflexivity. Qed.

Lemma oid_eqb_neq (a b : ObjectId) : a <> b -> oid_eqb a b = false.
Proof.
  intros H. destruct (oid_eqb a b) eqn:E; [|reflexivity].
  apply oid_eqb_eq in E. contradiction.
Qed.

Lemma findById_id (us : list User.t) (id : ObjectId) (u : User.t) :
  findById us id = Some u -> User._id u = id.
Proof.
  unfold findById. intros H. apply find_some in H. destruct H as [_ H].
  apply oid_eqb_eq in H. exact H.
Qed.

Lemma AgentStats_findOne_agent ss agentId s :
  AgentStats_findOne ss agentId = Some s -> AgentStats.agent s = agentId.
Proof.
  unfold AgentStats_findOne. intros H. apply find_some in H.
  destruct H as [_ H]. apply oid_eqb_eq in H. exact H.
Qed.

Section UpdateOne.
Context {A : Type} (p : A -> bool) (f : A -> A).

Lemma find_updateOne_same (l : list A) (x : A) :
  find p l = Some x -> p (f x) = true ->
  find p (updateOne p f l) = Some (f x).
Proof.
  induction l as [|y l IH]; simpl; [discriminate|].
  destruct (p y) eqn:E; intros H Hf.
  - injection H as ->. simpl. rewrite Hf. reflexivity.
  - simpl. rewrite E. auto.
Qed.

Lemma find_updateOne_other (q : A -> bool) (l : list A) :
  (forall x, p x = true -> q x = false /\ q (f x) = false) ->
  find q (updateOne p f l) = find q l.
Proof.
  intros Hpq. induction l as [|y l IH]; simpl; [reflexivity|].
  destruct (p y) eqn:E; simpl.
  - destruct (Hpq _ E) as [-> ->]. reflexivity.
  - rewrite IH. reflexivity.
Qed.

(** Only the first match is rewritten: what [f] keeps of it is kept of
    the whole collection. *)
Lemma map_updateOne {B : Type} (g : A -> B) (l : list A) (x : A) :
  find p l = Some x -> g (f x) = g x ->
  map g (updateOne p f l) = map g l.
Proof.
  intros Hx Hg. induction l as [|y l IH]; simpl; [reflexivity|].
  simpl in Hx. destruct (p y); simpl.
  - injection Hx as ->. congruence.
  - rewrite IH; auto.
Qed.

Lemma Forall_updateOne (P : A -> Prop) (l : list A) :
  (forall x, P x -> P (f x)) -> Forall P l -> Forall P (updateOne p f l).
Proof.
  intros Hf. induction 1 as [|y l Hy Hl IH]; simpl; [constructor|].
  destruct (p y); constructor; auto.
Qed.

Lemma length_filter_updateOne (q : A -> bool) (l : list A) (x : A) :
  find p l = Some x -> q (f x) = q x ->
  length (filter q (updateOne p f l)) = length (filter q l).
Proof.
  intros Hx Hq. induction l as [|y l IH]; simpl; [reflexivity|].
  simpl in Hx. destruct (p y); simpl.
  - injection Hx as ->. rewrite Hq. destruct (q x); reflexivity.
  - destruct (q y); simpl; rewrite IH; auto.
Qed.
End UpdateOne.

(** ** Credit ledger *)

Lemma Transaction_validate_raised (t : Transaction.t) (e : Exn) :
  Transaction_validate t = Some e -> raisedByTransaction e = true.
Proof.
  unfold Transaction_validate.
  repeat match goal with
         | |- context [if ?c then _ else _] => destruct c
         end; intros H; inversion H; reflexivity.
Qed.

(** C2: a deduction larger than the balance fails with the "Insufficient
    credit" error and leaves the whole database, hence the account's balance
    and the transaction log, exactly as it was. *)
Theorem C2_deduct_insufficient :
  forall (db : Db) (accountId : ObjectId) (b amount : Q) (actorId : ObjectId)
         (description : option string) (now : Z),
    balance db accountId = Some b ->
    (b < amount)%Q ->
    adjust accountId amount "deduct" actorId description now db
    = (db, inl (JsError "Insufficient credit")).
Proof.
  intros db accountId b amount actorId description now Hb Hlt.
  unfold adjust, balance in *.
  destruct (findById (users db) accountId) as [member|]; [|discriminate].
  simpl in Hb. injection Hb as Hb.
  unfold updateCredit, bind, throw. simpl.
  assert (E : Qltb (User.credit member) amount = true).
  { apply Qltb_lt. rewrite Hb. exact Hlt. }
  rewrite E. reflexivity.
Qed.

Lemma C2_deduct_insufficient_witness :
  adjust memberM_id 60 "deduct" rootId None noon db0
  = (db0, inl (JsError "Insufficient credit")).
Proof.
  apply (C2_deduct_insufficient db0 memberM_id 50 60 rootId None noon).
  - reflexivity.
  - reflexivity.
Defined.

(** C10: a direction other than 'add' and 'deduct' makes [updateCredit]
    throw "Invalid credit type" before any save: the database is returned
    untouched. *)
Theorem C10_invalid_type :
  forall (db : Db) (this : User.t) (amount : Q) (type : string)
         (adjustedBy : ObjectId) (description : option string) (now : Z),
    type <> "add" -> type <> "deduct" ->
    updateCredit this amount type adjustedBy description now db
    = (db, inl (JsError "Invalid credit type")).
Proof.
  intros db this amount type adjustedBy description now Ha Hd.
  apply String.eqb_neq in Ha, Hd.
  unfold updateCredit, bind, throw. rewrite Ha, Hd. reflexivity.
Qed.

Lemma C10_invalid_type_witness :
  updateCredit memberM 10 "refund" rootId None noon db0
  = (db0, inl (JsError "Invalid credit type")).
Proof.
  apply C10_invalid_type; discriminate.
Defined.

(** ** Properties kept by every operation *)

Section Preserves.
Context (P : Db -> Prop).

Lemma preserves_ret {A : Type} (a : A) : preserves P (ret a).
Proof. intros db H. exact H. Qed.

Lemma preserves_throw {A : Type} (e : Exn) : preserves P (@throw A e).
Proof. intros db H. exact H. Qed.

Lemma preserves_bind {A B : Type} (m : M A) (k : A -> M B) :
  preserves P m -> (forall a, preserves P (k a)) -> preserves P (bind m k).
Proof.
  intros Hm Hk db H. unfold bind. specialize (Hm db H).
  destruct (m db) as [db' [e|a]]; simpl in *; [exact Hm|].
  apply Hk. exact Hm.
Qed.

Lemma preserves_try_catch {A : Type} (m : M A) (h : Exn -> M A) :
  preserves P m -> (forall e, preserves P (h e)) ->
  preserves P (try_catch m h).
Proof.
  intros Hm Hh db H. unfold try_catch. specialize (Hm db H).
  destruct (m db) as [db' [e|a]]; simpl in *; [|exact Hm].
  apply Hh. exact Hm.
Qed.

(** Writers of the other collections keep what depends on [users] only. *)
Hypothesis P_users : forall db db', users db' = users db -> P db -> P db'.

Lemma preserves_Transaction_save t now :
  preserves P (Transaction_save t now).
Proof.
  intros db H. unfold Transaction_save.
  destruct (Transaction_validate t); simpl; [exact H|].
  apply (P_users db); [reflexivity|exact H].
Qed.

Lemma preserves_AgentStats_save v this :
  preserves P (AgentStats_save v this).
Proof.
  intros db H. unfold AgentStats_save.
  destruct (v this); simpl; [exact H|].
  destruct (AgentStats_findOne _ _); simpl; [|exact H].
  apply (P_users db); [reflexivity|exact H].
Qed.

Lemma preserves_AgentStats_incCommission agentId commission now :
  preserves P (AgentStats_incCommission agentId commission now).
Proof.
  intros db H. unfold AgentStats_incCommission.
  destruct (AgentStats_findOne _ _); simpl;
    (apply (P_users db); [reflexivity|exact H]).
Qed.

Lemma preserves_DailyReport_upsert d tm am tcm tc ars notes now :
  preserves P (DailyReport_upsert d tm am tcm tc ars notes now).
Proof.
  intros db H. unfold DailyReport_upsert.
  destruct (find _ _); simpl; (apply (P_users db); [reflexivity|exact H]).
Qed.

Lemma preserves_agentLoop txs agents : forall acc now,
  preserves P (agentLoop txs agents acc now).
Proof.
  induction agents as [|agent rest IH]; intros acc now; simpl.
  - apply preserves_ret.
  - intros db H.
    apply (preserves_bind
             (AgentStats_incCommission (User._id agent)
                (AgentReport.commission
                   (agentReportFor txs (users db) agent)) now)
             (fun _ => agentLoop txs rest
                         (acc ++ [agentReportFor txs (users db) agent]) now)).
    + apply preserves_AgentStats_incCommission.
    + intros _. apply IH.
    + exact H.
Qed.

Lemma preserves_runDaily now : preserves P (runDaily now).
Proof.
  intros db H. unfold runDaily.
  match goal with
  | |- P (fst (bind ?m ?k db)) => apply (preserves_bind m k)
  end.
  - apply preserves_agentLoop.
  - intros ars db' H'. apply preserves_DailyReport_upsert. exact H'.
  - exact H.
Qed.

Lemma preserves_updateAgentStats agentId now :
  preserves P (updateAgentStats agentId now).
Proof.
  unfold updateAgentStats. apply preserves_try_catch.
  - intros db H. destruct (AgentStats_findOne _ _); [|exact H].
    apply preserves_AgentStats_save. exact H.
  - intros e. apply preserves_ret.
Qed.
End Preserves.

(** ** Invariants of the stored balances *)

Section Balances.
(** A property of balances that every value the [credit] setter lets
    through [min: 0] has. *)
Variable P : Q -> Prop.
Hypothesis P_round2 : forall v, (0 <= round2 v)%Q -> P (round2 v).

Let all_credits (db : Db) : Prop :=
  Forall (fun u => P (User.credit u)) (users db).

Lemma all_credits_users (db db' : Db) :
  users db' = users db -> all_credits db -> all_credits db'.
Proof. unfold all_credits. intros ->. auto. Qed.

Lemma preserves_User_save (this : User.t) :
  ((0 <= User.credit this)%Q -> P (User.credit this)) ->
  preserves all_credits (User_save this).
Proof.
  intros Hthis db H. unfold User_save.
  destruct (Qltb (User.credit this) 0) eqn:E; [exact H|].
  destruct (findById _ _); [|exact H].
  unfold all_credits. simpl.
  apply Forall_updateOne; [|exact H].
  intros x _. simpl. apply Hthis. apply Qltb_ge. exact E.
Qed.

Lemma preserves_updateCredit this amount type adjustedBy description now :
  preserves all_credits
    (updateCredit this amount type adjustedBy description now).
Proof.
  unfold updateCredit.
  assert (Hsave : forall v,
    preserves all_credits
      (User_save (User.set_credit this v) ;;;
       saved <- Transaction_save
                  (Transaction.new (User._id (User.set_credit this v)) amount
                     type (User.credit this)
                     (User.credit (User.set_credit this v))
                     (Some adjustedBy)
                     (orDefault description "Credit adjustment")) now ;;
       ret (User.set_credit this v, saved))%op).
  { intros v. apply preserves_bind.
    - apply preserves_User_save. simpl. apply P_round2.
    - intros _. apply preserves_bind.
      + apply preserves_Transaction_save. apply all_credits_users.
      + intros saved. apply preserves_ret. }
  destruct (type =? "add")%string.
  { intros db H. unfold bind at 1. unfold ret at 1. apply Hsave. exact H. }
  destruct (type =? "deduct")%string.
  - destruct (Qltb _ _).
    + intros db H. exact H.
    + intros db H. unfold bind at 1. unfold ret at 1. apply Hsave. exact H.
  - intros db H. exact H.
Qed.

Lemma preserves_adjust accountId amount type actorId description now :
  preserves all_credits
    (adjust accountId amount type actorId description now).
Proof.
  intros db H. unfold adjust.
  destruct (findById _ _); [|exact H].
  apply preserves_updateCredit. exact H.
Qed.

Lemma preserves_calculateCommission fmt agentId betAmount description now :
  preserves all_credits
    (calculateCommission fmt agentId betAmount description now).
Proof.
  unfold calculateCommission. apply preserves_try_catch.
  - intros db H. destruct (AgentStats_findOne _ _); [|exact H].
    destruct (findById _ _); [|exact H].
    destruct (Qleb _ _); [exact H|].
    revert db H. apply preserves_bind.
    + apply preserves_User_save. simpl. apply P_round2.
    + intros _. apply preserves_bind.
      * apply preserves_AgentStats_save. apply all_credits_users.
      * intros _. apply preserves_ret.
  - intros e. apply preserves_ret.
Qed.

Lemma exec_all_credits fmt op db :
  all_credits db -> all_credits (exec fmt op db).
Proof.
  destruct op; simpl.
  - apply preserves_adjust.
  - apply preserves_calculateCommission.
  - apply preserves_updateAgentStats. apply all_credits_users.
  - apply preserves_runDaily. apply all_credits_users.
Qed.
End Balances.

Lemma exec_nonneg fmt op db :
  balances_nonneg db -> balances_nonneg (exec fmt op db).
Proof.
  apply (exec_all_credits (fun q => (0 <= q)%Q)). intros v H. exact H.
Qed.


(** C3: starting from accounts with non-negative balances, every state
    reached through adjust, applyCommission, recompute and runDaily has only
    non-negative balances, and so has the state after one more operation,
    whether that operation succeeds or fails. *)
Theorem C3_balance_nonneg :
  forall (toLocaleString : Q -> string) (init db : Db),
    balances_nonneg init ->
    reachable toLocaleString init db ->
    balances_nonneg db
    /\ forall op, balances_nonneg (exec toLocaleString op db).
Proof.
  intros fmt init db Hinit Hreach.
  assert (H : balances_nonneg db).
  { induction Hreach as [|db op _ IH]; [exact Hinit|].
    apply exec_nonneg. exact IH. }
  split; [exact H|]. intros op. apply exec_nonneg. exact H.
Qed.

Lemma db0_nonneg : balances_nonneg db0.
Proof.
  unfold balances_nonneg. simpl.
  repeat constructor; unfold Qle; simpl; lia.
Defined.

Lemma C3_balance_nonneg_witness :
  balances_nonneg db0
  /\ reachable format_thTH db0
       (exec format_thTH (OpAdjust memberM_id (-60) "add" rootId None noon)
          (exec format_thTH (OpAdjust memberM_id 40 "deduct" rootId None noon)
             db0))
  /\ balances_nonneg
       (exec format_thTH (OpAdjust memberM_id (-60) "add" rootId None noon)
          (exec format_thTH (OpAdjust memberM_id 40 "deduct" rootId None noon)
             db0)).
Proof.
  assert (R : reachable format_thTH db0
       (exec format_thTH (OpAdjust memberM_id (-60) "add" rootId None noon)
          (exec format_thTH (OpAdjust memberM_id 40 "deduct" rootId None noon)
             db0))).
  { apply reach_step. apply reach_step. apply reach_init. }
  split; [exact db0_nonneg|]. split; [exact R|].
  exact (proj1 (C3_balance_nonneg format_thTH db0 _ db0_nonneg R)).
Defined.

(** ** Commission engine *)

(** C5: for an agent without AgentStats record, [calculateCommission]
    returns 0, raises nothing and leaves the database untouched. *)
Theorem C5_no_stats_no_op :
  forall (toLocaleString : Q -> string) (db : Db) (agentId : ObjectId)
         (betAmount : Q) (description : option string) (now : Z),
    AgentStats_findOne (agentStats db) agentId = None ->
    calculateCommission toLocaleString agentId betAmount description now db
    = (db, inr 0%Q).
Proof.
  intros fmt db agentId betAmount description now H.
  unfold calculateCommission, try_catch. rewrite H. reflexivity.
Qed.

Lemma C5_no_stats_no_op_witness :
  AgentStats_findOne (agentStats db0) memberM_id = None
  /\ calculateCommission format_thTH memberM_id 40 None noon db0
     = (db0, inr 0%Q).
Proof.
  split; [reflexivity|].
  apply (C5_no_stats_no_op format_thTH db0 memberM_id 40 None noon).
  reflexivity.
Defined.

(** ** Stats aggregator *)

(** C8: [updateAgentStats] never raises and writes nothing but
    [totalMembers], [activeMembers], [totalCredit] and [lastUpdated] of the
    agent's record: in every AgentStats record the agent, [totalProfit],
    [commissionRate], [totalCommission] and [commissionHistory] are as before,
    the records of other agents are returned as they were, and accounts,
    transactions and reports are untouched. *)
Theorem C8_recompute_frame :
  forall (db : Db) (agentId : ObjectId) (now : Z),
    let r := updateAgentStats agentId now db in
    snd r = inr tt
    /\ map untouched (agentStats (fst r)) = map untouched (agentStats db)
    /\ (forall a, a <> agentId ->
        AgentStats_findOne (agentStats (fst r)) a
        = AgentStats_findOne (agentStats db) a)
    /\ users (fst r) = users db
    /\ transactions (fst r) = transactions db
    /\ dailyReports (fst r) = dailyReports db.
Proof.
  intros db agentId now. unfold updateAgentStats, try_catch.
  destruct (AgentStats_findOne (agentStats db) agentId) as [st|] eqn:Hst;
    [|simpl; repeat split].
  pose proof (AgentStats_findOne_agent _ _ _ Hst) as Hid.
  unfold AgentStats_save.
  destruct (AgentStats_validate_rollup _); [simpl; repeat split|].
  simpl AgentStats.agent. rewrite Hid, Hst. simpl.
  split; [reflexivity|]. split; [|split; [|repeat split]].
  - apply (map_updateOne _ _ untouched _ st); [exact Hst|].
    unfold untouched. simpl. rewrite Hid. reflexivity.
  - intros a Ha. apply find_updateOne_other.
    intros x Hx. apply oid_eqb_eq in Hx.
    split; apply oid_eqb_neq; simpl; congruence.
Qed.

(** ** Report scheduler *)

Lemma agentLoop_spec txs agents : forall acc now db,
  exists db',
    agentLoop txs agents acc now db
    = (db', inr (acc ++ map (agentReportFor txs (users db)) agents))
    /\ users db' = users db
    /\ transactions db' = transactions db
    /\ dailyReports db' = dailyReports db.
Proof.
  induction agents as [|agent rest IH]; intros acc now db.
  - exists db. simpl. rewrite app_nil_r. repeat split.
  - cbn [agentLoop]. unfold bind.
    destruct (AgentStats_incCommission (User._id agent)
                (AgentReport.commission (agentReportFor txs (users db) agent))
                now db) as [db1 r] eqn:E.
    assert (H1 : r = inr tt /\ users db1 = users db
                 /\ transactions db1 = transactions db
                 /\ dailyReports db1 = dailyReports db).
    { unfold AgentStats_incCommission in E.
      destruct (AgentStats_findOne _ _); injection E as <- <-;
        repeat split. }
    destruct H1 as (-> & Hu & Ht & Hr).
    destruct (IH (acc ++ [agentReportFor txs (users db) agent]) now db1)
      as (db' & Hrun & Hu' & Ht' & Hr').
    exists db'. rewrite Hrun, Hu, <- app_assoc. simpl.
    repeat split; congruence.
Qed.

(** The report the run at [now] writes, but for its [createdAt]. *)
Lemma runDaily_spec (now : Z) (db : Db) :
  let yesterday := startOfDay (now - msPerDay) in
  let txs := transactionsBetween yesterday (startOfDay now)
               (transactions db) in
  let ars := map (agentReportFor txs (users db))
                 (filter (hasRole "agent") (users db)) in
  exists db1,
    users db1 = users db
    /\ transactions db1 = transactions db
    /\ dailyReports db1 = dailyReports db
    /\ runDaily now db
       = DailyReport_upsert yesterday
           (countDocuments (hasRole "member") (users db))
           (countDocuments isActiveMember (users db))
           (reduce_sum Transaction.amount txs)
           (reduce_sum AgentReport.commission ars) ars
           ("Auto-generated report by system at " ++ toISOString now)%string
           now db1.
Proof.
  intros yesterday txs ars. unfold runDaily, bind.
  destruct (agentLoop_spec txs (filter (hasRole "agent") (users db)) [] now db)
    as (db1 & Hrun & Hu & Ht & Hr).
  fold yesterday. fold txs. rewrite Hrun. simpl app. fold ars.
  exists db1. rewrite Hu. repeat split; assumption.
Qed.

Lemma DailyReport_upsert_spec d tm am tcm tc ars notes now db :
  exists createdAt,
    let r := DailyReport.mk d tm am (round2 tcm) (round2 tc)
               (map castAgentReport ars) notes createdAt now in
    exists rs,
      DailyReport_upsert d tm am tcm tc ars notes now db
      = (with_dailyReports db rs, inr r)
      /\ length (reportsDated d rs)
         = Nat.max 1 (length (reportsDated d (dailyReports db))).
Proof.
  unfold DailyReport_upsert.
  destruct (find (fun r => DailyReport.date r =? d) (dailyReports db))
    as [old|] eqn:F.
  - exists (DailyReport.createdAt old). simpl. eexists. split; [reflexivity|].
    unfold reportsDated.
    rewrite (length_filter_updateOne _ _ _ _ old F).
    + pose proof (find_some _ _ F) as [Hin Hd].
      assert (Hin' : In old (reportsDated d (dailyReports db))).
      { apply filter_In. split; assumption. }
      unfold reportsDated in Hin'.
      destruct (filter _ (dailyReports db)); [contradiction|simpl; lia].
    + simpl. rewrite Z.eqb_refl. symmetry.
      apply (find_some _ _ F).
  - exists now. simpl. eexists. split; [reflexivity|].
    unfold reportsDated. rewrite filter_app, length_app. simpl.
    rewrite Z.eqb_refl. simpl.
    assert (E : filter (fun r => DailyReport.date r =? d) (dailyReports db)
                = []).
    { destruct (filter _ (dailyReports db)) as [|x l] eqn:E; [reflexivity|].
      assert (Hx : In x (filter (fun r => DailyReport.date r =? d)
                           (dailyReports db)))
        by (rewrite E; left; reflexivity).
      apply filter_In in Hx. destruct Hx as [Hin Hd].
      exfalso. apply (find_none _ _ F) in Hin. congruence. }
    rewrite E. reflexivity.
Qed.

(** The filter of the run compares ObjectIds with a string: it keeps
    nothing. *)
Remark memberTransactionsOf_nil (memberIds : list ObjectId)
    (txs : list Transaction.t) :
  memberTransactionsOf memberIds txs = [].
Proof.
  unfold memberTransactionsOf.
  assert (H : forall s, includes_string (map VObjectId memberIds) s = false).
  { intros s. induction memberIds as [|i l IH]; simpl; auto. }
  induction txs as [|t l IH]; simpl; [reflexivity|].
  rewrite H. exact IH.
Qed.

Lemma startOfDay_prev (now : Z) :
  startOfDay (now - msPerDay) = startOfDay now - msPerDay.
Proof.
  unfold startOfDay, msPerDay.
  replace (now - 86400000) with (now + (-1) * 86400000) by lia.
  rewrite Z.div_add by lia. lia.
Qed.

(** C7 (as amended): two runs of the daily job on the same day, with nothing
    else written in between (accounts and transaction log unchanged), leave
    exactly one DailyReport for the reported date, provided the date was not
    already duplicated; the second run's report has the same date, totals
    and per-agent sub-reports as the first. *)
Theorem C7_runDaily_rerun :
  forall (db : Db) (now1 now2 : Z),
    startOfDay now1 = startOfDay now2 ->
    (length (reportsDated (startOfDay (now1 - msPerDay)) (dailyReports db))
     <= 1)%nat ->
    exists db1 rep1 db2 rep2,
      runDaily now1 db = (db1, inr rep1)
      /\ runDaily now2 db1 = (db2, inr rep2)
      /\ users db2 = users db
      /\ transactions db2 = transactions db
      /\ length (reportsDated (startOfDay (now1 - msPerDay))
                   (dailyReports db2)) = 1%nat
      /\ DailyReport.date rep1 = startOfDay (now1 - msPerDay)
      /\ reportContent rep2 = reportContent rep1.
Proof.
  intros db now1 now2 Hday Hcount.
  assert (Hy : startOfDay (now2 - msPerDay) = startOfDay (now1 - msPerDay))
    by (rewrite !startOfDay_prev; congruence).
  destruct (runDaily_spec now1 db) as (da & Hua & Hta & Hra & Hrun1).
  match type of Hrun1 with
  | _ = DailyReport_upsert ?d ?tm ?am ?tcm ?tc ?ars ?notes ?n ?db1 =>
      destruct (DailyReport_upsert_spec d tm am tcm tc ars notes n db1)
        as (c1 & rs1 & Hup1 & Hc1)
  end.
  rewrite Hup1 in Hrun1.
  destruct (runDaily_spec now2 (with_dailyReports da rs1))
    as (dbb & Hub & Htb & Hrb & Hrun2).
  match type of Hrun2 with
  | _ = DailyReport_upsert ?d ?tm ?am ?tcm ?tc ?ars ?notes ?n ?db1 =>
      destruct (DailyReport_upsert_spec d tm am tcm tc ars notes n db1)
        as (c2 & rs2 & Hup2 & Hc2)
  end.
  rewrite Hup2 in Hrun2.
  simpl users in *. simpl transactions in *. simpl dailyReports in *.
  rewrite Hy, Hrb, Hc1, Hra in Hc2.
  eexists _, _, _, _.
  split; [exact Hrun1|]. split; [exact Hrun2|].
  simpl. split; [congruence|]. split; [congruence|].
  split; [lia|]. split; [reflexivity|].
  unfold reportContent. simpl. rewrite Hy, <- Hday, Hua, Hta. reflexivity.
Qed.

Lemma C7_runDaily_rerun_witness :
  startOfDay night1 = startOfDay night2
  /\ (length (reportsDated (startOfDay (night1 - msPerDay))
                (dailyReports db_deduct)) <= 1)%nat
  /\ exists db1 rep1 db2 rep2,
       runDaily night1 db_deduct = (db1, inr rep1)
       /\ runDaily night2 db1 = (db2, inr rep2)
       /\ length (reportsDated (startOfDay (night1 - msPerDay))
                    (dailyReports db2)) = 1%nat
       /\ reportContent rep2 = reportContent rep1.
Proof.
  assert (Hd : startOfDay night1 = startOfDay night2) by reflexivity.
  assert (Hc : (length (reportsDated (startOfDay (night1 - msPerDay))
                          (dailyReports db_deduct)) <= 1)%nat)
    by (vm_compute; repeat constructor).
  split; [exact Hd|]. split; [exact Hc|].
  destruct (C7_runDaily_rerun db_deduct night1 night2 Hd Hc)
    as (db1 & rep1 & db2 & rep2 & H1 & H2 & _ & _ & H3 & _ & H4).
  exists db1, rep1, db2, rep2. repeat split; assumption.
Defined.

(** C7, as stated, fails: the report carries the time it was generated at
    ([systemNotes], [updatedAt]), so a second run one minute later on the
    same day, over the same transactions, returns a report that differs from
    the first. *)
Lemma C7_counterexample :
  let r1 := runDaily night1 db_deduct in
  let r2 := runDaily night2 (fst r1) in
  startOfDay night1 = startOfDay night2
  /\ transactions (fst r1) = transactions db_deduct
  /\ exists rep1 rep2,
       snd r1 = inr rep1 /\ snd r2 = inr rep2
       /\ DailyReport.systemNotes rep1
          = "Auto-generated report by system at 2025-11-03T00:00:05.000Z"
       /\ DailyReport.systemNotes rep2
          = "Auto-generated report by system at 2025-11-03T00:01:05.000Z"
       /\ rep1 <> rep2.
Proof.
  vm_compute. split; [reflexivity|]. split; [reflexivity|].
  eexists _, _. split; [reflexivity|]. split; [reflexivity|].
  split; [reflexivity|]. split; [reflexivity|].
  intros H. discriminate H.
Qed.

(** The totals depend on the accounts too: a member registered between two
    runs changes [totalMembers] although no transaction was written. *)
Example rerun_after_registration :
  transactions db_registered = transactions db_deduct
  /\ exists rep1 rep2,
       snd (runDaily night1 db_deduct) = inr rep1
       /\ snd (runDaily night2 db_registered) = inr rep2
       /\ DailyReport.totalMembers rep1 = 1
       /\ DailyReport.totalMembers rep2 = 2.
Proof.
  vm_compute. split; [reflexivity|].
  eexists _, _. repeat split.
Qed.

(** ** Scenarios *)

(** The scenario of the specification, step by step: member M (50.00)
    credited 40.00, then agent A (100.00, rate 0.05) paid on base
    40.00 * 0.01. *)
Example scenario_adjust_then_commission :
  let r1 := adjust memberM_id 40 "add" rootId None noon db0 in
  let r2 := calculateCommission format_thTH agentA_id (40 * (1 # 100))
              (Some "Manual credit adjustment for memberM") noon (fst r1) in
  (exists b, balance (fst r1) memberM_id = Some b /\ (b == 90)%Q)
  /\ length (transactions (fst r1)) = 1%nat
  /\ (exists c, snd r2 = inr c /\ (c == 2 # 100)%Q)
  /\ (exists b, balance (fst r2) agentA_id = Some b /\ (b == 10002 # 100)%Q).
Proof.
  vm_compute. split; [eexists; split; reflexivity|].
  split; [reflexivity|].
  split; eexists; split; reflexivity.
Qed.

(** Recomputing A's rollup counts its member and leaves the commission
    paths alone. *)
Lemma C8_recompute_frame_witness :
  let r := updateAgentStats agentA_id noon db0 in
  snd r = inr tt
  /\ map untouched (agentStats (fst r)) = map untouched (agentStats db0)
  /\ map AgentStats.totalMembers (agentStats (fst r)) = [1].
Proof.
  destruct (C8_recompute_frame db0 agentA_id noon) as (H1 & H2 & _).
  split; [exact H1|]. split; [exact H2|]. reflexivity.
Defined.


(** * Further properties *)

(** ** What every core operation keeps *)

Section KeptByWrites.
(** A property of the database kept by each of the five writes the core
    performs is kept by every core operation. *)
Variable P : Db -> Prop.
Hypothesis P_User_save :
  forall this v, preserves P (User_save (User.set_credit this v)).
Hypothesis P_Transaction_save :
  forall user amount type oldCredit newCredit adjustedBy description now,
    preserves P
      (Transaction_save
         (Transaction.new user amount type oldCredit newCredit adjustedBy
            description) now).
Hypothesis P_AgentStats_save :
  forall validate s, preserves P (AgentStats_save validate s).
Hypothesis P_incCommission :
  forall a c now, preserves P (AgentStats_incCommission a c now).
Hypothesis P_upsert :
  forall d tm am tcm tc ars notes now,
    preserves P (DailyReport_upsert d tm am tcm tc ars notes now).

Lemma kept_updateCredit this amount type adjustedBy description now :
  preserves P (updateCredit this amount type adjustedBy description now).
Proof.
  unfold updateCredit.
  assert (Hsave : forall v,
    preserves P
      (User_save (User.set_credit this v) ;;;
       saved <- Transaction_save
                  (Transaction.new (User._id (User.set_credit this v)) amount
                     type (User.credit this)
                     (User.credit (User.set_credit this v))
                     (Some adjustedBy)
                     (orDefault description "Credit adjustment")) now ;;
       ret (User.set_credit this v, saved))%op).
  { intros v. apply preserves_bind; [apply P_User_save|].
    intros _. apply preserves_bind; [apply P_Transaction_save|].
    intros saved. apply preserves_ret. }
  destruct (type =? "add")%string.
  { intros db H. unfold bind at 1. unfold ret at 1. apply Hsave. exact H. }
  destruct (type =? "deduct")%string; [|intros db H; exact H].
  destruct (Qltb _ _); [intros db H; exact H|].
  intros db H. unfold bind at 1. unfold ret at 1. apply Hsave. exact H.
Qed.

Lemma kept_adjust accountId amount type actorId description now :
  preserves P (adjust accountId amount type actorId description now).
Proof.
  intros db H. unfold adjust.
  destruct (findById _ _); [|exact H].
  apply kept_updateCredit. exact H.
Qed.

Lemma kept_calculateCommission fmt agentId betAmount description now :
  preserves P (calculateCommission fmt agentId betAmount description now).
Proof.
  unfold calculateCommission. apply preserves_try_catch.
  - intros db H. destruct (AgentStats_findOne _ _); [|exact H].
    destruct (findById _ _); [|exact H].
    destruct (Qleb _ _); [exact H|].
    revert db H. apply preserves_bind; [apply P_User_save|].
    intros _. apply preserves_bind; [apply P_AgentStats_save|].
    intros _. apply preserves_ret.
  - intros e. apply preserves_ret.
Qed.

Lemma kept_updateAgentStats agentId now :
  preserves P (updateAgentStats agentId now).
Proof.
  unfold updateAgentStats. apply preserves_try_catch.
  - intros db H. destruct (AgentStats_findOne _ _); [|exact H].
    apply P_AgentStats_save. exact H.
  - intros e. apply preserves_ret.
Qed.

Lemma kept_agentLoop txs agents : forall acc now,
  preserves P (agentLoop txs agents acc now).
Proof.
  induction agents as [|agent rest IH]; intros acc now.
  - apply preserves_ret.
  - intros db H. cbn [agentLoop].
    apply (preserves_bind P
             (AgentStats_incCommission (User._id agent)
                (AgentReport.commission
                   (agentReportFor txs (users db) agent)) now)
             (fun _ => agentLoop txs rest
                         (acc ++ [agentReportFor txs (users db) agent]) now)).
    + apply P_incCommission.
    + intros _. apply IH.
    + exact H.
Qed.

Lemma kept_runDaily now : preserves P (runDaily now).
Proof.
  intros db H. unfold runDaily.
  match goal with
  | |- P (fst (bind ?m ?k db)) => apply (preserves_bind P m k)
  end.
  - apply kept_agentLoop.
  - intros ars db' H'. apply P_upsert. exact H'.
  - exact H.
Qed.

Lemma kept_exec fmt op db : P db -> P (exec fmt op db).
Proof.
  destruct op; simpl.
  - apply kept_adjust.
  - apply kept_calculateCommission.
  - apply kept_updateAgentStats.
  - apply kept_runDaily.
Qed.

Lemma kept_reachable fmt init db :
  P init -> reachable fmt init db -> P db.
Proof.
  intros Hinit Hreach. induction Hreach as [|db op _ IH]; [exact Hinit|].
  apply kept_exec. exact IH.
Qed.
End KeptByWrites.

Lemma db_reached_reachable : reachable format_thTH db0 db_reached.
Proof. unfold db_reached. repeat apply reach_step. apply reach_init. Defined.

(** ** Footprint of the five writes *)

Lemma User_save_footprint (this : User.t) (db : Db) :
  let db' := fst (User_save this db) in
  map identity (users db') = map identity (users db)
  /\ transactions db' = transactions db
  /\ agentStats db' = agentStats db
  /\ dailyReports db' = dailyReports db
  /\ forall id, id <> User._id this -> balance db' id = balance db id.
Proof.
  unfold User_save. destruct (Qltb _ _); [simpl; repeat split|].
  destruct (findById (users db) (User._id this)) as [x|] eqn:F;
    [|simpl; repeat split].
  simpl. split; [|repeat split].
  - apply (map_updateOne _ _ identity _ x); [exact F|reflexivity].
  - intros id Hid. unfold balance, findById. simpl. f_equal.
    apply find_updateOne_other.
    intros y Hy. apply oid_eqb_eq in Hy.
    split; apply oid_eqb_neq; simpl; congruence.
Qed.

Lemma Transaction_save_footprint (t : Transaction.t) (now : Z) (db : Db) :
  let db' := fst (Transaction_save t now db) in
  users db' = users db
  /\ agentStats db' = agentStats db
  /\ dailyReports db' = dailyReports db
  /\ (transactions db' = transactions db
      \/ exists saved,
           transactions db' = transactions db ++ [saved]
           /\ acceptedTransaction saved
           /\ (Transaction.amount saved, Transaction.oldCredit saved,
               Transaction.newCredit saved)
              = (Transaction.amount t, Transaction.oldCredit t,
                 Transaction.newCredit t)).
Proof.
  unfold Transaction_save.
  destruct (Transaction_validate t) eqn:V; simpl; [repeat split; auto|].
  repeat split. right. eexists. split; [reflexivity|].
  split; [|reflexivity].
  unfold Transaction_validate in V. unfold acceptedTransaction. simpl.
  destruct (Qltb (Transaction.amount t) (1 # 100)) eqn:E1; [discriminate|].
  destruct ((Transaction.type t =? "add")%string) eqn:E2;
    destruct ((Transaction.type t =? "deduct")%string) eqn:E3;
    simpl in V; try discriminate;
    (destruct (255 <? _) eqn:E4; [discriminate|]);
    (split; [apply Qltb_ge; exact E1|]);
    (split; [|apply Z.ltb_ge in E4; lia]).
  - left. apply String.eqb_eq. exact E2.
  - left. apply String.eqb_eq. exact E2.
  - right. apply String.eqb_eq. exact E3.
Qed.

Lemma AgentStats_save_footprint validate (this : AgentStats.t) (db : Db) :
  let db' := fst (AgentStats_save validate this db) in
  users db' = users db /\ transactions db' = transactions db
  /\ dailyReports db' = dailyReports db.
Proof.
  unfold AgentStats_save. destruct (validate this); [simpl; auto|].
  destruct (AgentStats_findOne _ _); simpl; auto.
Qed.

Lemma AgentStats_incCommission_footprint a c now (db : Db) :
  let db' := fst (AgentStats_incCommission a c now db) in
  users db' = users db /\ transactions db' = transactions db
  /\ dailyReports db' = dailyReports db.
Proof.
  unfold AgentStats_incCommission.
  destruct (AgentStats_findOne _ _); simpl; auto.
Qed.

Lemma DailyReport_upsert_footprint d tm am tcm tc ars notes now (db : Db) :
  let db' := fst (DailyReport_upsert d tm am tcm tc ars notes now db) in
  users db' = users db /\ transactions db' = transactions db
  /\ agentStats db' = agentStats db.
Proof.
  unfold DailyReport_upsert. destruct (find _ _); simpl; auto.
Qed.

(** A property of the log alone, kept when an accepted and rounded
    Transaction is appended, is kept by every core operation. *)
Lemma kept_log_property (Plog : list Transaction.t -> Prop) :
  (forall l t, acceptedTransaction t -> roundedTransaction t ->
               Plog l -> Plog (l ++ [t])) ->
  forall fmt op db,
    Plog (transactions db) -> Plog (transactions (exec fmt op db)).
Proof.
  intros Happ fmt op db.
  apply (kept_exec (fun d => Plog (transactions d))).
  - intros this v d H.
    destruct (User_save_footprint (User.set_credit this v) d)
      as (_ & -> & _). exact H.
  - intros user amount type oldCredit newCredit adjustedBy description now
           d H.
    destruct (Transaction_save_footprint
                (Transaction.new user amount type oldCredit newCredit
                   adjustedBy description) now d)
      as (_ & _ & _ & [-> | (saved & -> & Hs & Hr)]); [exact H|].
    apply Happ; [exact Hs| |exact H].
    unfold roundedTransaction. injection Hr as -> -> ->. simpl.
    repeat split; apply TwoDecimals_round2.
  - intros validate s d H.
    destruct (AgentStats_save_footprint validate s d) as (_ & -> & _).
    exact H.
  - intros a c now d H.
    destruct (AgentStats_incCommission_footprint a c now d) as (_ & -> & _).
    exact H.
  - intros d0 tm am tcm tc ars notes now d H.
    destruct (DailyReport_upsert_footprint d0 tm am tcm tc ars notes now d)
      as (_ & -> & _). exact H.
Qed.

(** ** Invariants of the ledger *)



(** X3: the transaction log is append-only: no core operation removes,
    reorders or rewrites a logged Transaction, so the log of every reached
    state continues the initial log, and every operation continues the log it
    finds. *)
Theorem X3_log_append_only :
  forall (toLocaleString : Q -> string) (init db : Db),
    reachable toLocaleString init db ->
    logExtends init db
    /\ forall op, logExtends db (exec toLocaleString op db).
Proof.
  intros fmt init db Hreach.
  assert (Hstep : forall d0 d op, logExtends d0 d ->
                                  logExtends d0 (exec fmt op d)).
  { intros d0 d op.
    apply (kept_log_property
             (fun l => exists ext, l = transactions d0 ++ ext)).
    intros l t _ _ (ext & ->). exists (ext ++ [t]).
    rewrite app_assoc. reflexivity. }
  assert (Hrefl : forall d, logExtends d d).
  { intros d. exists []. rewrite app_nil_r. reflexivity. }
  split.
  - induction Hreach as [|db op _ IH]; [apply Hrefl|].
    apply Hstep. exact IH.
  - intros op. apply Hstep. apply Hrefl.
Qed.

Lemma X3_log_append_only_witness :
  reachable format_thTH db0 db_reached
  /\ logExtends db0 db_reached
  /\ logExtends db_reached
       (exec format_thTH (OpAdjust memberM_id 5 "add" rootId None night1)
          db_reached).
Proof.
  split; [exact db_reached_reachable|].
  destruct (X3_log_append_only format_thTH db0 db_reached
              db_reached_reachable) as [H1 H2].
  split; [exact H1|apply H2].
Defined.

(** X5: no core operation creates, deletes or re-parents an account: the
    identifiers, usernames, roles and parents of the accounts are the same,
    in the same order, in every reached state. *)
Theorem X5_hierarchy_untouched :
  forall (toLocaleString : Q -> string) (init db : Db),
    reachable toLocaleString init db ->
    map identity (users db) = map identity (users init).
Proof.
  intros fmt init db Hreach.
  apply (kept_reachable
           (fun d => map identity (users d) = map identity (users init))
           ) with (fmt := fmt) (init := init); [| | | | |reflexivity|exact Hreach].
  - intros this v d H.
    destruct (User_save_footprint (User.set_credit this v) d) as (-> & _).
    exact H.
  - intros user amount type oldCredit newCredit adjustedBy description now
           d H.
    destruct (Transaction_save_footprint
                (Transaction.new user amount type oldCredit newCredit
                   adjustedBy description) now d) as (-> & _).
    exact H.
  - intros validate s d H.
    destruct (AgentStats_save_footprint validate s d) as (-> & _). exact H.
  - intros a c now d H.
    destruct (AgentStats_incCommission_footprint a c now d) as (-> & _).
    exact H.
  - intros d0 tm am tcm tc ars notes now d H.
    destruct (DailyReport_upsert_footprint d0 tm am tcm tc ars notes now d)
      as (-> & _). exact H.
Qed.

Lemma X5_hierarchy_untouched_witness :
  reachable format_thTH db0 db_reached
  /\ map identity (users db_reached) = map identity (users db0).
Proof.
  split; [exact db_reached_reachable|].
  exact (X5_hierarchy_untouched format_thTH db0 db_reached
           db_reached_reachable).
Defined.

(** ** The ledger, call by call *)

Lemma Qfloor_add_Z (z : Z) (x : Q) :
  Qfloor (inject_Z z + x) = z + Qfloor x.
Proof.
  pose proof (Qfloor_le x) as H1. pose proof (Qlt_floor x) as H2.
  pose proof (Qfloor_le (inject_Z z + x)) as H3.
  pose proof (Qlt_floor (inject_Z z + x)) as H4.
  assert (A : (inject_Z (Qfloor (inject_Z z + x))
               < inject_Z (z + Qfloor x + 1))%Q).
  { rewrite !inject_Z_plus in *. lra. }
  assert (B : (inject_Z (z + Qfloor x)
               < inject_Z (Qfloor (inject_Z z + x) + 1))%Q).
  { rewrite !inject_Z_plus in *. lra. }
  rewrite <- Zlt_Qlt in A, B. lia.
Qed.

(** Adding to a value of two decimals commutes with the setter. *)
Lemma round2_add_l (c a : Q) :
  TwoDecimals c -> (round2 (c + a) == c + round2 a)%Q.
Proof.
  intros Hc. destruct (TwoDecimals_hundredths c Hc) as [z Hz].
  assert (E : Math_round ((c + a) * 100) = z + Math_round (a * 100)).
  { unfold Math_round. rewrite <- Qfloor_add_Z. apply Qfloor_comp.
    rewrite Hz. field. }
  unfold round2. rewrite E, inject_Z_plus, Hz. field.
Qed.

Lemma updateCredit_footprint this amount type adjustedBy description now db :
  let db' :=
    fst (updateCredit this amount type adjustedBy description now db) in
  map identity (users db') = map identity (users db)
  /\ (forall id, id <> User._id this -> balance db' id = balance db id)
  /\ (transactions db' = transactions db
      \/ exists t, transactions db' = transactions db ++ [t])
  /\ agentStats db' = agentStats db
  /\ dailyReports db' = dailyReports db.
Proof.
  unfold updateCredit.
  assert (Hsave : forall v,
    let db' :=
      fst ((User_save (User.set_credit this v) ;;;
            saved <- Transaction_save
                       (Transaction.new (User._id (User.set_credit this v))
                          amount type (User.credit this)
                          (User.credit (User.set_credit this v))
                          (Some adjustedBy)
                          (orDefault description "Credit adjustment")) now ;;
            ret (User.set_credit this v, saved))%op db) in
    map identity (users db') = map identity (users db)
    /\ (forall id, id <> User._id this -> balance db' id = balance db id)
    /\ (transactions db' = transactions db
        \/ exists t, transactions db' = transactions db ++ [t])
    /\ agentStats db' = agentStats db
    /\ dailyReports db' = dailyReports db).
  { intros v. unfold bind at 1.
    pose proof (User_save_footprint (User.set_credit this v) db) as F1.
    destruct (User_save (User.set_credit this v) db) as [d1 [e|[]]];
      simpl in F1; destruct F1 as (Fi & Ft & Fs & Fr & Fb).
    { simpl. repeat split; auto. }
    unfold bind.
    match goal with
    | |- context [Transaction_save ?t0 now d1] =>
        pose proof (Transaction_save_footprint t0 now d1) as F2;
        destruct (Transaction_save t0 now d1) as [d2 [e|saved]]
    end; simpl in F2; destruct F2 as (Gu & Gs & Gr & Gt); simpl;
      (split; [rewrite Gu; exact Fi|]);
      (split; [intros id Hid; unfold balance; rewrite Gu; apply Fb;
               exact Hid|]);
      (split; [|split; congruence]);
      (destruct Gt as [Gt|(t & Gt & _)];
       [left; congruence|right; exists t; congruence]). }
  destruct (type =? "add")%string.
  { unfold bind at 1. unfold ret at 1. apply Hsave. }
  destruct (type =? "deduct")%string;
    [|unfold bind, throw; simpl; repeat split; auto].
  destruct (Qltb _ _); [unfold bind, throw; simpl; repeat split; auto|].
  unfold bind at 1. unfold ret at 1. apply Hsave.
Qed.

(** X8: whether it succeeds or fails, [updateCredit] writes nothing but the
    balance of its own account and at most one Transaction: every other
    balance, the hierarchy, the AgentStats and the DailyReports are as
    before. *)
Theorem X8_updateCredit_footprint :
  forall (this : User.t) (amount : Q) (type : string) (adjustedBy : ObjectId)
         (description : option string) (now : Z) (db : Db),
    let db' :=
      fst (updateCredit this amount type adjustedBy description now db) in
    map identity (users db') = map identity (users db)
    /\ (forall id, id <> User._id this -> balance db' id = balance db id)
    /\ (transactions db' = transactions db
        \/ exists t, transactions db' = transactions db ++ [t])
    /\ agentStats db' = agentStats db
    /\ dailyReports db' = dailyReports db.
Proof.
  intros this amount type adjustedBy description now db.
  apply updateCredit_footprint.
Qed.

Lemma X8_updateCredit_footprint_witness :
  let db' := fst (updateCredit memberM 5 "add" rootId (Some longDescription)
                    noon db0) in
  balance db' agentA_id = balance db0 agentA_id
  /\ agentStats db' = agentStats db0.
Proof.
  destruct (X8_updateCredit_footprint memberM 5 "add" rootId
              (Some longDescription) noon db0) as (_ & Hb & _ & Hs & _).
  split; [apply Hb; discriminate|exact Hs].
Defined.

(** ** Commission engine, whatever happens *)

Lemma User_save_balance (this : User.t) (db db' : Db) :
  User_save this db = (db', inr tt) ->
  balance db' (User._id this) = Some (User.credit this)
  /\ (0 <= User.credit this)%Q.
Proof.
  unfold User_save. destruct (Qltb _ _) eqn:Q; [discriminate|].
  destruct (findById (users db) (User._id this)) as [x|] eqn:F;
    [|discriminate].
  intros H. injection H as <-. split; [|apply Qltb_ge; exact Q].
  unfold balance, findById. simpl.
  rewrite (find_updateOne_same _ _ _ x); [reflexivity|exact F|].
  simpl. apply oid_eqb_eq. apply (findById_id _ _ _ F).
Qed.

Lemma User_save_error (this : User.t) (db db' : Db) (e : Exn) :
  User_save this db = (db', inl e) -> db' = db.
Proof.
  unfold User_save. destruct (Qltb _ _); [congruence|].
  destruct (findById _ _); [discriminate|congruence].
Qed.

Lemma calculateCommission_effect fmt agentId betAmount description now db :
  let r := calculateCommission fmt agentId betAmount description now db in
  (exists q, snd r = inr q /\ (0 <= q)%Q)
  /\ map identity (users (fst r)) = map identity (users db)
  /\ transactions (fst r) = transactions db
  /\ dailyReports (fst r) = dailyReports db
  /\ (forall id, id <> agentId -> balance (fst r) id = balance db id)
  /\ (balance (fst r) agentId = balance db agentId
      \/ exists agent st,
           findById (users db) agentId = Some agent
           /\ AgentStats_findOne (agentStats db) agentId = Some st
           /\ (0 < betAmount * AgentStats.commissionRate st)%Q
           /\ balance (fst r) agentId
              = Some (round2 (User.credit agent
                              + betAmount * AgentStats.commissionRate st))).
Proof.
  intros r.
  assert (Hr : r = calculateCommission fmt agentId betAmount description now
                     db) by reflexivity.
  clearbody r.
  assert (Hzero : exists q : Q, @inr Exn Q 0%Q = inr q /\ (0 <= q)%Q)
    by (exists 0%Q; split; [reflexivity|lra]).
  unfold calculateCommission, try_catch in Hr.
  destruct (AgentStats_findOne (agentStats db) agentId) as [st|] eqn:Hst;
    [|subst r; simpl; repeat split; auto].
  pose proof (AgentStats_findOne_agent _ _ _ Hst) as Hid. rewrite Hid in Hr.
  destruct (findById (users db) agentId) as [agent|] eqn:Hagent;
    [|subst r; simpl; repeat split; auto].
  pose proof (findById_id _ _ _ Hagent) as Hid'.
  set (commission := (betAmount * AgentStats.commissionRate st)%Q) in *.
  destruct (Qleb commission 0) eqn:Hc; [subst r; simpl; repeat split; auto|].
  apply Qleb_gt in Hc.
  set (agent' := User.set_credit agent (User.credit agent + commission)) in *.
  unfold bind in Hr.
  pose proof (User_save_footprint agent' db) as F1.
  pose proof (User_save_balance agent' db) as B1.
  destruct (User_save agent' db) as [d1 [e|[]]] eqn:S1; simpl in F1;
    destruct F1 as (Fi & Ft & Fs & Fr & Fb).
  { apply User_save_error in S1. subst d1 r. simpl.
    split; [exact Hzero|]. repeat split; auto. }
  destruct (B1 d1 eq_refl) as [B1' _]. simpl in B1'. rewrite Hid' in B1'.
  assert (Hcz : (0 <= commission)%Q) by (clearbody commission; lra).
  match type of Hr with
  | context [AgentStats_save ?v ?s d1] =>
      pose proof (AgentStats_save_footprint v s d1) as F2;
      destruct (AgentStats_save v s d1) as [d2 [e|[]]]
  end; simpl in F2; destruct F2 as (Gu & Gt & Gr); subst r; simpl;
    (split; [first [exact Hzero|eexists; split; [reflexivity|exact Hcz]]|]);
    (split; [rewrite Gu; exact Fi|]);
    (split; [congruence|]); (split; [congruence|]);
    (split; [intros id Hne; unfold balance; rewrite Gu; apply Fb; simpl;
             congruence|]);
    right; exists agent, st;
    (split; [reflexivity|]); (split; [reflexivity|]);
    (split; [exact Hc|]); unfold balance; rewrite Gu; exact B1'.
Qed.

(** X9: [calculateCommission] never raises: it always returns a number, and
    that number is never negative.  Whatever happens it writes no
    Transaction and no DailyReport, leaves the hierarchy alone and changes
    the balance of no account but the agent's. *)
Theorem X9_calculateCommission_contained :
  forall (toLocaleString : Q -> string) (agentId : ObjectId) (betAmount : Q)
         (description : option string) (now : Z) (db : Db),
    let r := calculateCommission toLocaleString agentId betAmount description
               now db in
    (exists q, snd r = inr q /\ (0 <= q)%Q)
    /\ map identity (users (fst r)) = map identity (users db)
    /\ transactions (fst r) = transactions db
    /\ dailyReports (fst r) = dailyReports db
    /\ (forall id, id <> agentId -> balance (fst r) id = balance db id).
Proof.
  intros fmt agentId betAmount description now db.
  destruct (calculateCommission_effect fmt agentId betAmount description now
              db) as (H1 & H2 & H3 & H4 & H5 & _).
  repeat split; assumption.
Qed.

Lemma X9_calculateCommission_contained_witness :
  let r := calculateCommission format_thTH agentA_id (4 # 10) None noon db0 in
  (exists q, snd r = inr q /\ (0 <= q)%Q)
  /\ transactions (fst r) = transactions db0
  /\ balance (fst r) memberM_id = balance db0 memberM_id.
Proof.
  destruct (X9_calculateCommission_contained format_thTH agentA_id (4 # 10)
              None noon db0) as (H1 & _ & H3 & _ & H5).
  split; [exact H1|]. split; [exact H3|]. apply H5. discriminate.
Defined.

(** X10: in a store whose balances have at most two decimals,
    [calculateCommission] never lowers a balance: every account ends with at
    least what it had. *)
Theorem X10_commission_never_lowers :
  forall (toLocaleString : Q -> string) (agentId : ObjectId) (betAmount : Q)
         (description : option string) (now : Z) (db : Db)
         (id : ObjectId) (b : Q),
    balances_two_decimals db ->
    balance db id = Some b ->
    exists b',
      balance
        (fst (calculateCommission toLocaleString agentId betAmount
                description now db)) id = Some b'
      /\ (b <= b')%Q.
Proof.
  intros fmt agentId betAmount description now db id b H2 Hb.
  destruct (calculateCommission_effect fmt agentId betAmount description now
              db) as (_ & _ & _ & _ & Hother & Hagent).
  destruct (oid_eqb id agentId) eqn:E.
  - apply oid_eqb_eq in E. subst id.
    destruct Hagent as [Hsame|(agent & st & Hf & _ & Hpos & Hnew)].
    + exists b. rewrite Hsame. split; [exact Hb|lra].
    + eexists. split; [exact Hnew|].
      unfold balance in Hb. rewrite Hf in Hb. injection Hb as <-.
      assert (Hin : In agent (users db)).
      { unfold findById in Hf. apply find_some in Hf. apply Hf. }
      unfold balances_two_decimals in H2. rewrite Forall_forall in H2.
      rewrite (round2_add_l _ _ (H2 agent Hin)).
      assert (Hr : (0 <= round2 (betAmount * AgentStats.commissionRate st))%Q)
        by (apply round2_nonneg; lra).
      lra.
  - exists b. rewrite Hother; [split; [exact Hb|lra]|].
    intros ->. rewrite oid_eqb_refl in E. discriminate.
Qed.

Lemma X10_commission_never_lowers_witness :
  balances_two_decimals db0
  /\ balance db0 agentA_id = Some 100%Q
  /\ exists b',
       balance (fst (calculateCommission format_thTH agentA_id (4 # 10) None
                       noon db0)) agentA_id = Some b'
       /\ (100 <= b')%Q.
Proof.
  assert (H2 : balances_two_decimals db0).
  { unfold balances_two_decimals. simpl. repeat constructor. }
  split; [exact H2|]. split; [reflexivity|].
  exact (X10_commission_never_lowers format_thTH agentA_id (4 # 10) None noon
           db0 agentA_id 100 H2 eq_refl).
Defined.

(** ** Stats aggregator, what it computes *)


Lemma filter_and_length {A : Type} (p q : A -> bool) (l : list A) :
  (length (filter (fun x => p x && q x) l) <= length (filter p l))%nat.
Proof.
  induction l as [|x l IH]; simpl; [lia|].
  destruct (p x), (q x); simpl; lia.
Qed.



Lemma updateOne_const_twice {A : Type} (p : A -> bool) (x y : A) (l : list A) :
  p x = true ->
  updateOne p (fun _ => y) (updateOne p (fun _ => x) l)
  = updateOne p (fun _ => y) l.
Proof.
  intros Hx. induction l as [|z l IH]; simpl; [reflexivity|].
  destruct (p z) eqn:E; simpl.
  - rewrite Hx. reflexivity.
  - rewrite E, IH. reflexivity.
Qed.

Lemma updateAgentStats_run (agentId : ObjectId) (now : Z) (db : Db) :
  updateAgentStats agentId now db
  = match AgentStats_findOne (agentStats db) agentId with
    | None => (db, inr tt)
    | Some st =>
        match AgentStats_validate_rollup (rollup agentId st now (users db))
        with
        | Some _ => (db, inr tt)
        | None =>
            (with_agentStats db
               (updateOne (fun s => oid_eqb (AgentStats.agent s) agentId)
                  (fun _ => rollup agentId st now (users db))
                  (agentStats db)),
             inr tt)
        end
    end.
Proof.
  unfold updateAgentStats, try_catch.
  destruct (AgentStats_findOne (agentStats db) agentId) as [st|] eqn:Hst;
    [|reflexivity].
  pose proof (AgentStats_findOne_agent _ _ _ Hst) as Hid.
  unfold AgentStats_save. fold (rollup agentId st now (users db)).
  destruct (AgentStats_validate_rollup _); [reflexivity|].
  change (AgentStats.agent (rollup agentId st now (users db)))
    with (AgentStats.agent st).
  rewrite Hid, Hst. reflexivity.
Qed.

(** X13: recomputing an agent's rollup twice is the same as recomputing it
    once at the later time: nothing but [lastUpdated] distinguishes the second
    run from the first, and no other collection is touched. *)
Theorem X13_recompute_idempotent :
  forall (db : Db) (agentId : ObjectId) (now1 now2 : Z),
    fst (updateAgentStats agentId now2
           (fst (updateAgentStats agentId now1 db)))
    = fst (updateAgentStats agentId now2 db).
Proof.
  intros db agentId now1 now2.
  rewrite (updateAgentStats_run agentId now1 db).
  destruct (AgentStats_findOne (agentStats db) agentId) as [st|] eqn:Hst;
    [|reflexivity].
  pose proof (AgentStats_findOne_agent _ _ _ Hst) as Hid.
  destruct (AgentStats_validate_rollup (rollup agentId st now1 (users db)))
    eqn:V1; [reflexivity|].
  simpl fst at 2.
  rewrite !updateAgentStats_run. rewrite Hst. simpl agentStats. simpl users.
  assert (Hf : AgentStats_findOne
                 (updateOne (fun s => oid_eqb (AgentStats.agent s) agentId)
                    (fun _ => rollup agentId st now1 (users db))
                    (agentStats db)) agentId
               = Some (rollup agentId st now1 (users db))).
  { unfold AgentStats_findOne.
    rewrite (find_updateOne_same _ _ _ st); [reflexivity|exact Hst|].
    simpl. rewrite Hid. apply oid_eqb_refl. }
  rewrite Hf.
  change (rollup agentId (rollup agentId st now1 (users db)) now2 (users db))
    with (rollup agentId st now2 (users db)).
  change (AgentStats_validate_rollup (rollup agentId st now2 (users db)))
    with (AgentStats_validate_rollup (rollup agentId st now1 (users db))).
  rewrite V1. simpl. unfold with_agentStats. simpl. f_equal.
  apply updateOne_const_twice. simpl. rewrite Hid. apply oid_eqb_refl.
Qed.

Lemma X13_recompute_idempotent_witness :
  agentStats (fst (updateAgentStats agentA_id night1
                     (fst (updateAgentStats agentA_id noon db0))))
  = agentStats (fst (updateAgentStats agentA_id night1 db0)).
Proof.
  rewrite (X13_recompute_idempotent db0 agentA_id noon night1). reflexivity.
Defined.

(** ** The nightly run, report and side effects *)

Lemma reduce_sum_zero {A : Type} (f : A -> Q) (l : list A) :
  Forall (fun x => (f x == 0)%Q) l -> (reduce_sum f l == 0)%Q.
Proof.
  unfold reduce_sum. intros H.
  assert (G : forall acc, (acc == 0)%Q ->
                (fold_left (fun sum x => (sum + f x)%Q) l acc == 0)%Q).
  { induction H as [|x l Hx _ IH]; intros acc Hacc; simpl; [exact Hacc|].
    apply IH. rewrite Hacc, Hx. reflexivity. }
  apply G. reflexivity.
Qed.

Lemma round2_zero (q : Q) : (q == 0)%Q -> (round2 q == 0)%Q.
Proof. intros H. rewrite (round2_comp _ _ H). reflexivity. Qed.

Lemma agentReportFor_zero txs us agent :
  (AgentReport.creditMovement (agentReportFor txs us agent) == 0)%Q
  /\ (AgentReport.commission (agentReportFor txs us agent) == 0)%Q.
Proof.
  unfold agentReportFor. simpl. rewrite memberTransactionsOf_nil.
  split; reflexivity.
Qed.

(** The run as a whole: the loop, then the upsert of the report. *)
Lemma runDaily_result (now : Z) (db : Db) :
  let yesterday := startOfDay (now - msPerDay) in
  let txs := transactionsBetween yesterday (startOfDay now)
               (transactions db) in
  let ars := map (agentReportFor txs (users db))
                 (filter (hasRole "agent") (users db)) in
  exists db' rep,
    runDaily now db = (db', inr rep)
    /\ users db' = users db
    /\ transactions db' = transactions db
    /\ DailyReport.date rep = yesterday
    /\ DailyReport.totalMembers rep
       = countDocuments (hasRole "member") (users db)
    /\ DailyReport.activeMembers rep
       = countDocuments isActiveMember (users db)
    /\ DailyReport.totalCreditMovement rep
       = round2 (reduce_sum Transaction.amount txs)
    /\ DailyReport.totalCommission rep
       = round2 (reduce_sum AgentReport.commission ars)
    /\ DailyReport.agentReports rep = map castAgentReport ars
    /\ DailyReport.updatedAt rep = now.
Proof.
  intros yesterday txs ars.
  destruct (runDaily_spec now db) as (db1 & Hu & Ht & Hr & Hrun).
  fold yesterday in Hrun. fold txs in Hrun. fold ars in Hrun.
  match type of Hrun with
  | _ = DailyReport_upsert ?d ?tm ?am ?tcm ?tc ?a ?notes ?n ?db1 =>
      destruct (DailyReport_upsert_spec d tm am tcm tc a notes n db1)
        as (createdAt & rs & Hup & _)
  end.
  rewrite Hup in Hrun. eexists _, _. split; [exact Hrun|].
  simpl. repeat split; assumption.
Qed.

(** X16: as the run's member filter compares identifiers with a string, the
    report of the nightly run credits no movement to any agent: every
    per-agent sub-report has creditMovement 0 and commission 0, and the
    report's totalCommission is 0, whatever the day's transactions. *)
Theorem X16_runDaily_pays_nothing :
  forall (now : Z) (db : Db),
    exists db' rep,
      runDaily now db = (db', inr rep)
      /\ Forall (fun sub => (AgentReport.creditMovement sub == 0)%Q
                            /\ (AgentReport.commission sub == 0)%Q)
                (DailyReport.agentReports rep)
      /\ (DailyReport.totalCommission rep == 0)%Q.
Proof.
  intros now db.
  destruct (runDaily_result now db)
    as (db' & rep & Hrun & _ & _ & _ & _ & _ & _ & Htc & Hars & _).
  exists db', rep. split; [exact Hrun|]. split.
  - rewrite Hars. apply Forall_forall. intros sub Hsub.
    apply in_map_iff in Hsub. destruct Hsub as (r & <- & Hr).
    apply in_map_iff in Hr. destruct Hr as (agent & <- & _).
    destruct (agentReportFor_zero
                (transactionsBetween (startOfDay (now - msPerDay))
                   (startOfDay now) (transactions db)) (users db) agent)
      as [H1 H2].
    simpl. split; apply round2_zero; assumption.
  - rewrite Htc. apply round2_zero. apply reduce_sum_zero.
    apply Forall_forall. intros r Hr.
    apply in_map_iff in Hr. destruct Hr as (agent & <- & _).
    apply agentReportFor_zero.
Qed.

Lemma X16_runDaily_pays_nothing_witness :
  exists db' rep,
    runDaily night1 db_deduct = (db', inr rep)
    /\ Forall (fun sub => (AgentReport.creditMovement sub == 0)%Q
                          /\ (AgentReport.commission sub == 0)%Q)
              (DailyReport.agentReports rep)
    /\ (DailyReport.totalCommission rep == 0)%Q.
Proof. exact (X16_runDaily_pays_nothing night1 db_deduct). Defined.

(** C6 (a defect of the code): for every agent account the run writes a
    sub-report, but its member filter
    [memberIds.includes(t.user.toString())] looks for a string among the
    ObjectIds [distinct('_id')] returned and keeps no transaction: the
    sub-report's [creditMovement] is 0 and its [commission] is 0 whatever the
    agent's members moved that day, and [creditMovement] is the signed sum
    the specification asks for only when that sum is zero. *)
Theorem C6_agent_subreport :
  forall (now : Z) (db : Db) (agent : User.t),
    In agent (users db) ->
    User.role agent = "agent" ->
    let window :=
      transactionsBetween (startOfDay (now - msPerDay)) (startOfDay now)
        (transactions db) in
    exists db' report sub,
      runDaily now db = (db', inr report)
      /\ In sub (DailyReport.agentReports report)
      /\ AgentReport.agent sub = User._id agent
      /\ selectedFor now db agent = []
      /\ (AgentReport.creditMovement sub == 0)%Q
      /\ (AgentReport.commission sub == 0)%Q
      /\ ((AgentReport.creditMovement sub
           == creditMovement_spec window (users db) agent)%Q
          <-> (creditMovement_spec window (users db) agent == 0)%Q).
Proof.
  intros now db agent Hin Hrole window.
  destruct (runDaily_spec now db) as (db1 & Hu & Ht & Hr & Hrun).
  match type of Hrun with
  | _ = DailyReport_upsert ?d ?tm ?am ?tcm ?tc ?ars ?notes ?n ?db1 =>
      destruct (DailyReport_upsert_spec d tm am tcm tc ars notes n db1)
        as (createdAt & rs & Hup & _)
  end.
  rewrite Hup in Hrun.
  destruct (agentReportFor_zero window (users db) agent) as [Hm Hc].
  eexists _, _, (castAgentReport (agentReportFor window (users db) agent)).
  split; [exact Hrun|]. simpl. split.
  { apply in_map. apply in_map. apply filter_In. split; [exact Hin|].
    unfold hasRole. rewrite Hrole. reflexivity. }
  split; [reflexivity|].
  split; [apply memberTransactionsOf_nil|].
  assert (Hm0 : (round2 (AgentReport.creditMovement
                           (agentReportFor window (users db) agent)) == 0)%Q)
    by (apply round2_zero; exact Hm).
  split; [exact Hm0|].
  split; [apply round2_zero; exact Hc|].
  rewrite Hm0. split; intros H; [symmetry; exact H|symmetry; exact H].
Qed.

(** At the failing input: member M of agent A was debited 40.00 inside the
    window, the signed sum over A's members is -40.00, and the sub-report
    written for A has [creditMovement] 0.00. *)
Lemma C6_agent_subreport_witness :
  exists db' report sub,
    runDaily night1 db_deduct = (db', inr report)
    /\ In sub (DailyReport.agentReports report)
    /\ AgentReport.agent sub = agentA_id
    /\ (AgentReport.creditMovement sub == 0)%Q
    /\ (creditMovement_spec
          (transactionsBetween (startOfDay (night1 - msPerDay))
             (startOfDay night1) (transactions db_deduct))
          (users db_deduct) agentA == - (40))%Q.
Proof.
  assert (Hin : In agentA (users db_deduct)) by (left; reflexivity).
  destruct (C6_agent_subreport night1 db_deduct agentA Hin eq_refl)
    as (db' & report & sub & Hrun & Hsub & Hag & _ & Hm & _).
  exists db', report, sub.
  split; [exact Hrun|]. split; [exact Hsub|]. split; [exact Hag|].
  split; [exact Hm|]. vm_compute. reflexivity.
Defined.

(** The same by evaluation: the run after the debit writes one sub-report,
    for agent A, with [creditMovement] 0.00 and not -40.00, while the day's
    [totalCreditMovement] counts the deduction as +40.00. *)
Lemma C6_counterexample :
  let r := runDaily night1 db_deduct in
  (creditMovement_spec
     (transactionsBetween (startOfDay (night1 - msPerDay)) (startOfDay night1)
        (transactions db_deduct))
     (users db_deduct) agentA == - (40))%Q
  /\ exists report sub,
       snd r = inr report
       /\ DailyReport.agentReports report = [sub]
       /\ AgentReport.agent sub = agentA_id
       /\ ~ (AgentReport.creditMovement sub == - (40))%Q
       /\ (AgentReport.creditMovement sub == 0)%Q
       /\ (DailyReport.totalCreditMovement report == 40)%Q.
Proof.
  vm_compute. split; [reflexivity|].
  eexists _, _. split; [reflexivity|]. split; [reflexivity|].
  split; [reflexivity|]. split; [discriminate|]. split; reflexivity.
Qed.

(** X17: the report of the nightly run holds exactly one sub-report per
    agent account, in the order of the accounts, and the [members] of each
    is the number of distinct member accounts whose parent is that agent. *)
Theorem X17_runDaily_one_subreport_per_agent :
  forall (now : Z) (db : Db),
    exists db' rep,
      runDaily now db = (db', inr rep)
      /\ map (fun sub => (AgentReport.agent sub, AgentReport.members sub))
             (DailyReport.agentReports rep)
         = map (fun agent =>
                  (User._id agent,
                   Z.of_nat (length (distinct (map User._id
                     (filter (isMemberOf (User._id agent)) (users db)))))))
               (filter (hasRole "agent") (users db)).
Proof.
  intros now db.
  destruct (runDaily_result now db)
    as (db' & rep & Hrun & _ & _ & _ & _ & _ & _ & _ & Hars & _).
  exists db', rep. split; [exact Hrun|].
  rewrite Hars, !map_map. reflexivity.
Qed.

Lemma X17_runDaily_one_subreport_per_agent_witness :
  exists db' rep,
    runDaily night1 db_deduct = (db', inr rep)
    /\ map (fun sub => (AgentReport.agent sub, AgentReport.members sub))
           (DailyReport.agentReports rep) = [(agentA_id, 1)].
Proof.
  destruct (X17_runDaily_one_subreport_per_agent night1 db_deduct)
    as (db' & rep & Hrun & H).
  exists db', rep. split; [exact Hrun|]. rewrite H. reflexivity.
Defined.

Lemma find_updateOne_kept {A : Type} (p q : A -> bool) (f : A -> A)
    (l : list A) :
  (forall x, q (f x) = q x) -> find q l <> None ->
  find q (updateOne p f l) <> None.
Proof.
  intros Hq. induction l as [|y l IH]; simpl; [auto|].
  destruct (p y) eqn:E; simpl.
  - rewrite Hq. destruct (q y); [discriminate|auto].
  - destruct (q y); [discriminate|auto].
Qed.

Lemma find_app_last {A : Type} (p : A -> bool) (l : list A) (x : A) :
  find p (l ++ [x])
  = match find p l with
    | Some y => Some y
    | None => if p x then Some x else None
    end.
Proof.
  induction l as [|y l IH]; simpl; [reflexivity|].
  destruct (p y); [reflexivity|exact IH].
Qed.

Lemma AgentStats_incCommission_hasStats a c now db :
  let db' := fst (AgentStats_incCommission a c now db) in
  hasStats db' a /\ forall a', hasStats db a' -> hasStats db' a'.
Proof.
  unfold AgentStats_incCommission, hasStats, AgentStats_findOne.
  destruct (find (fun s => oid_eqb (AgentStats.agent s) a) (agentStats db))
    as [st|] eqn:F; simpl.
  - split.
    + apply find_updateOne_kept; [reflexivity|]. rewrite F. discriminate.
    + intros a' H. apply find_updateOne_kept; [reflexivity|exact H].
  - split.
    + rewrite find_app_last, F. simpl. rewrite oid_eqb_refl. discriminate.
    + intros a' H. rewrite find_app_last.
      destruct (find (fun s => oid_eqb (AgentStats.agent s) a')
                  (agentStats db)); [discriminate|congruence].
Qed.

Lemma agentLoop_hasStats txs agents : forall acc now db,
  let db' := fst (agentLoop txs agents acc now db) in
  (forall a, hasStats db a -> hasStats db' a)
  /\ (forall agent, In agent agents -> hasStats db' (User._id agent)).
Proof.
  induction agents as [|agent rest IH]; intros acc now db.
  - simpl. split; [auto|contradiction].
  - cbn [agentLoop]. unfold bind.
    pose proof (AgentStats_incCommission_hasStats (User._id agent)
                  (AgentReport.commission
                     (agentReportFor txs (users db) agent)) now db) as H1.
    destruct (AgentStats_incCommission (User._id agent)
                (AgentReport.commission (agentReportFor txs (users db) agent))
                now db) as [db1 r] eqn:E.
    assert (Hr : r = inr tt).
    { unfold AgentStats_incCommission in E.
      destruct (AgentStats_findOne _ _); congruence. }
    subst r. simpl in H1. destruct H1 as [Hnew Hold].
    destruct (IH (acc ++ [agentReportFor txs (users db) agent]) now db1)
      as [Hkeep Hall].
    split.
    + intros a Ha. apply Hkeep. apply Hold. exact Ha.
    + intros ag [<-|Hin]; [apply Hkeep; exact Hnew|apply Hall; exact Hin].
Qed.

(** X18: after the nightly run every agent account has an AgentStats record
    (the run creates the missing ones), and no record that existed before is
    lost. *)
Theorem X18_runDaily_ensures_stats :
  forall (now : Z) (db : Db),
    let db' := fst (runDaily now db) in
    (forall agent, In agent (users db) -> User.role agent = "agent" ->
                   hasStats db' (User._id agent))
    /\ (forall a, hasStats db a -> hasStats db' a).
Proof.
  intros now db db'.
  assert (Hdb' : db' = fst (runDaily now db)) by reflexivity.
  clearbody db'. unfold runDaily, bind in Hdb'.
  pose proof (agentLoop_hasStats
                (transactionsBetween (startOfDay (now - msPerDay))
                   (startOfDay now) (transactions db))
                (filter (hasRole "agent") (users db)) [] now db) as H.
  destruct (agentLoop _ _ [] now db) as [db1 [e|ars]] eqn:L.
  { destruct (agentLoop_spec
                (transactionsBetween (startOfDay (now - msPerDay))
                   (startOfDay now) (transactions db))
                (filter (hasRole "agent") (users db)) [] now db)
      as (d & Hd & _). rewrite L in Hd. discriminate Hd. }
  simpl in H. destruct H as [Hkeep Hall].
  match type of Hdb' with
  | _ = fst (DailyReport_upsert ?d ?tm ?am ?tcm ?tc ?a ?notes ?n db1) =>
      pose proof (DailyReport_upsert_footprint d tm am tcm tc a notes n db1)
        as F
  end.
  cbv zeta in F. rewrite <- Hdb' in F. destruct F as (_ & _ & Fs).
  unfold hasStats in *. rewrite Fs. split.
  - intros agent Hin Hrole. apply Hall. apply filter_In.
    split; [exact Hin|]. unfold hasRole. rewrite Hrole. reflexivity.
  - exact Hkeep.
Qed.

Lemma X18_runDaily_ensures_stats_witness :
  let db := mkDb [agentA; memberM] [] [] [] in
  ~ hasStats db agentA_id
  /\ hasStats (fst (runDaily night1 db)) agentA_id.
Proof.
  split.
  - intros H. apply H. reflexivity.
  - apply (proj1 (X18_runDaily_ensures_stats night1
                    (mkDb [agentA; memberM] [] [] [])) agentA).
    + left. reflexivity.
    + reflexivity.
Defined.

Lemma filter_updateOne_other {A : Type} (p q : A -> bool) (f : A -> A)
    (l : list A) :
  (forall x, p x = true -> q x = false /\ q (f x) = false) ->
  filter q (updateOne p f l) = filter q l.
Proof.
  intros H. induction l as [|y l IH]; simpl; [reflexivity|].
  destruct (p y) eqn:E; simpl.
  - destruct (H y E) as [-> ->]. reflexivity.
  - rewrite IH. reflexivity.
Qed.

Lemma DailyReport_upsert_other d tm am tcm tc ars notes now db d' :
  d' <> d ->
  reportsDated d'
    (dailyReports (fst (DailyReport_upsert d tm am tcm tc ars notes now db)))
  = reportsDated d' (dailyReports db).
Proof.
  intros Hd. unfold DailyReport_upsert, reportsDated.
  destruct (find _ _); simpl.
  - apply filter_updateOne_other. intros x Hx. apply Z.eqb_eq in Hx.
    simpl. split; apply Z.eqb_neq; congruence.
  - rewrite filter_app. simpl.
    assert (E : (d =? d') = false) by (apply Z.eqb_neq; congruence).
    rewrite E. apply app_nil_r.
Qed.

(** X19: the nightly run never raises and touches neither the accounts nor
    the transaction log; among the DailyReports it writes only the one of
    the reported day: the stored reports of every other date are exactly as
    before. *)
Theorem X19_runDaily_footprint :
  forall (now : Z) (db : Db),
    exists db' rep,
      runDaily now db = (db', inr rep)
      /\ users db' = users db
      /\ transactions db' = transactions db
      /\ forall d, d <> startOfDay (now - msPerDay) ->
                   reportsDated d (dailyReports db')
                   = reportsDated d (dailyReports db).
Proof.
  intros now db.
  destruct (runDaily_spec now db) as (db1 & Hu & Ht & Hr & Hrun).
  cbv zeta in Hrun.
  match type of Hrun with
  | _ = DailyReport_upsert ?d ?tm ?am ?tcm ?tc ?a ?notes ?n ?db1 =>
      pose proof (DailyReport_upsert_footprint d tm am tcm tc a notes n db1)
        as F;
      pose proof (fun d' => DailyReport_upsert_other d tm am tcm tc a notes n
                              db1 d') as G;
      destruct (DailyReport_upsert d tm am tcm tc a notes n db1)
        as [db' [e|rep]] eqn:E
  end.
  { match type of E with
    | DailyReport_upsert ?d ?tm ?am ?tcm ?tc ?a ?notes ?n ?db1 = _ =>
        destruct (DailyReport_upsert_spec d tm am tcm tc a notes n db1)
          as (c & rs & Hup & _)
    end. rewrite Hup in E. discriminate E. }
  simpl in F, G. destruct F as (Fu & Ft & _).
  exists db', rep. split; [exact Hrun|].
  split; [congruence|]. split; [congruence|].
  intros d Hd. rewrite (G d Hd), Hr. reflexivity.
Qed.

Lemma X19_runDaily_footprint_witness :
  exists db' rep,
    runDaily night2 db_reported = (db', inr rep)
    /\ users db' = users db_reported
    /\ reportsDated 0 (dailyReports db') = reportsDated 0 (dailyReports db_reported).
Proof.
  destruct (X19_runDaily_footprint night2 db_reported)
    as (db' & rep & H1 & H2 & _ & H4).
  exists db', rep. split; [exact H1|]. split; [exact H2|].
  apply H4. vm_compute. discriminate.
Defined.

(** X20: the report of a run dates from the midnight that opens the day
    before the run: its date is a whole number of days, lies at least one
    and less than two days before the time of the run, and its activeMembers
    lies between 0 and its totalMembers. *)
Theorem X20_runDaily_report_bounds :
  forall (now : Z) (db : Db),
    exists db' rep,
      runDaily now db = (db', inr rep)
      /\ DailyReport.date rep mod msPerDay = 0
      /\ DailyReport.date rep + msPerDay <= now
         < DailyReport.date rep + 2 * msPerDay
      /\ 0 <= DailyReport.activeMembers rep <= DailyReport.totalMembers rep.
Proof.
  intros now db.
  destruct (runDaily_result now db)
    as (db' & rep & Hrun & _ & _ & Hd & Htm & Ham & _).
  exists db', rep. split; [exact Hrun|].
  rewrite Hd, Htm, Ham, startOfDay_prev. unfold startOfDay, msPerDay.
  pose proof (Z.div_mod now 86400000 ltac:(lia)) as Hdm.
  pose proof (Z.mod_pos_bound now 86400000 ltac:(lia)) as Hb.
  split; [|split].
  - replace (now / 86400000 * 86400000 - 86400000)
      with ((now / 86400000 - 1) * 86400000) by lia.
    apply Z.mod_mul. lia.
  - lia.
  - unfold countDocuments, isActiveMember.
    pose proof (filter_and_length (hasRole "member")
                  (fun u => Qltb 0 (User.credit u)) (users db)) as H.
    cbv beta in H. lia.
Qed.

Lemma X20_runDaily_report_bounds_witness :
  exists db' rep,
    runDaily night1 db_deduct = (db', inr rep)
    /\ DailyReport.date rep mod msPerDay = 0
    /\ DailyReport.date rep + msPerDay <= night1
       < DailyReport.date rep + 2 * msPerDay
    /\ 0 <= DailyReport.activeMembers rep <= DailyReport.totalMembers rep.
Proof. exact (X20_runDaily_report_bounds night1 db_deduct). Defined.

(** ** The weekly span and the range query *)

Lemma timeClip_some (t t' : Z) : timeClip t = Some t' -> t' = t.
Proof. unfold timeClip. destruct (_ <=? _); congruence. Qed.

(** X21: whenever [generateWeeklySummary] can form the span of
    (year, weekNumber), that span runs from a Monday at midnight to the Sunday
    six days later; it contains the day the week is counted from (1 January
    plus 7 * (weekNumber - 1) days) unless that day is a Sunday, in which case
    the span starts the day after. *)
Theorem X21_weekSpan_monday_to_sunday :
  forall (year weekNumber firstDay lastDay : Z),
    weekSpan year weekNumber = Some (firstDay, lastDay) ->
    getDay firstDay = 1
    /\ getDay lastDay = 0
    /\ lastDay = firstDay + 6 * msPerDay
    /\ firstDay mod msPerDay = 0
    /\ exists d0,
         Date_new year (1 + (weekNumber - 1) * 7) = Some d0
         /\ (getDay d0 <> 0 -> firstDay <= d0 <= lastDay)
         /\ (getDay d0 = 0 -> firstDay = d0 + msPerDay).
Proof.
  intros year weekNumber firstDay lastDay. unfold weekSpan.
  destruct (Date_new year (1 + (weekNumber - 1) * 7)) as [d0|] eqn:E0;
    [|discriminate].
  destruct (addDays d0 (1 - getDay d0)) as [f|] eqn:E1; [|discriminate].
  destruct (addDays f 6) as [l|] eqn:E2; [|discriminate].
  intros H. injection H as <- <-.
  unfold Date_new in E0. apply timeClip_some in E0.
  unfold addDays in E1, E2. apply timeClip_some in E1, E2.
  set (k := days_from_civil
              (if (0 <=? year) && (year <=? 99) then 1900 + year else year)
              1 1 + (1 + (weekNumber - 1) * 7 - 1)) in *.
  assert (Hg : getDay d0 = (k + 4) mod 7).
  { unfold getDay. rewrite E0, Z.div_mul by (unfold msPerDay; lia).
    reflexivity. }
  pose proof (Z.div_mod (k + 4) 7 ltac:(lia)) as Hdm.
  pose proof (Z.mod_pos_bound (k + 4) 7 ltac:(lia)) as Hb.
  rewrite <- Hg in Hdm, Hb.
  set (g := getDay d0) in *.
  assert (Ef : f = (k + 1 - g) * msPerDay) by (rewrite E1, E0; ring).
  assert (El : l = (k + 7 - g) * msPerDay) by (rewrite E2, Ef; ring).
  split; [|split; [|split; [|split]]].
  - unfold getDay. rewrite Ef, Z.div_mul by (unfold msPerDay; lia).
    symmetry. apply (Z.mod_unique _ 7 ((k + 4) / 7) 1); lia.
  - unfold getDay. rewrite El, Z.div_mul by (unfold msPerDay; lia).
    symmetry. apply (Z.mod_unique _ 7 ((k + 4) / 7 + 1) 0); lia.
  - rewrite E2. reflexivity.
  - rewrite Ef. apply Z.mod_mul. unfold msPerDay. lia.
  - exists d0. split; [reflexivity|]. fold g. clearbody g k.
    subst f l d0. unfold msPerDay. split; intros Hz; lia.
Qed.

Lemma X21_weekSpan_monday_to_sunday_witness :
  weekSpan 2025 45 = Some (1762128000000, 1762128000000 + 6 * msPerDay)
  /\ getDay 1762128000000 = 1.
Proof.
  assert (H : weekSpan 2025 45
              = Some (1762128000000, 1762128000000 + 6 * msPerDay))
    by reflexivity.
  split; [exact H|].
  exact (proj1 (X21_weekSpan_monday_to_sunday 2025 45 _ _ H)).
Defined.

Lemma insert_by_date_perm r l : Permutation (insert_by_date r l) (r :: l).
Proof.
  induction l as [|x l IH]; simpl; [apply Permutation_refl|].
  destruct (_ <=? _); [apply Permutation_refl|].
  eapply Permutation_trans; [apply perm_skip; exact IH|apply perm_swap].
Qed.

Lemma sort_by_date_perm l : Permutation (sort_by_date l) l.
Proof.
  induction l as [|x l IH]; simpl; [apply perm_nil|].
  eapply Permutation_trans; [apply insert_by_date_perm|].
  apply perm_skip. exact IH.
Qed.

Lemma insert_by_date_sorted r l :
  Sorted byDate l -> Sorted byDate (insert_by_date r l).
Proof.
  induction 1 as [|x l Hl IH Hx]; simpl.
  - repeat constructor.
  - destruct (DailyReport.date r <=? DailyReport.date x) eqn:E.
    + apply Z.leb_le in E. constructor; [constructor; assumption|].
      constructor. exact E.
    + apply Z.leb_gt in E. constructor; [exact IH|].
      destruct l as [|y l]; simpl.
      * constructor. unfold byDate. lia.
      * destruct (DailyReport.date r <=? DailyReport.date y).
        -- constructor. unfold byDate. lia.
        -- inversion Hx. constructor. assumption.
Qed.

Lemma sort_by_date_sorted l : Sorted byDate (sort_by_date l).
Proof.
  induction l as [|x l IH]; simpl; [constructor|].
  apply insert_by_date_sorted. exact IH.
Qed.

Lemma reportsBetween_sorted_exact firstDay lastDay rs :
  let out := reportsBetween firstDay lastDay rs in
  Sorted byDate out
  /\ Permutation out
       (filter (fun r => (firstDay <=? DailyReport.date r)
                         && (DailyReport.date r <=? lastDay)) rs)
  /\ (forall r, In r out <-> In r rs /\ inSpan firstDay lastDay r).
Proof.
  intros out. unfold out, reportsBetween.
  split; [apply sort_by_date_sorted|].
  split; [apply sort_by_date_perm|].
  intros r. split.
  - intros H. apply (Permutation_in _ (sort_by_date_perm _)) in H.
    apply filter_In in H. destruct H as [Hin H].
    apply andb_true_iff in H. destruct H as [H1 H2].
    apply Z.leb_le in H1, H2. split; [exact Hin|split; assumption].
  - intros [Hin [H1 H2]].
    apply (Permutation_in _ (Permutation_sym (sort_by_date_perm _))).
    apply filter_In. split; [exact Hin|].
    apply andb_true_iff. split; apply Z.leb_le; assumption.
Qed.

(** X22: the range query behind the weekly summary and the range report
    ([find({ date: { $gte, $lte } }).sort({ date: 1 })]) returns the stored
    reports whose date lies in the span, each as often as it is stored and no
    other, in ascending order of date. *)
Theorem X22_reportsBetween_sorted_exact :
  forall (firstDay lastDay : Z) (rs : list DailyReport.t),
    let out := reportsBetween firstDay lastDay rs in
    Sorted byDate out
    /\ Permutation out
         (filter (fun r => (firstDay <=? DailyReport.date r)
                           && (DailyReport.date r <=? lastDay)) rs)
    /\ (forall r, In r out <-> In r rs /\ inSpan firstDay lastDay r).
Proof.
  intros firstDay lastDay rs. apply reportsBetween_sorted_exact.
Qed.

Lemma X22_reportsBetween_sorted_exact_witness :
  Sorted byDate (reportsBetween 0 night2 (dailyReports db_reported))
  /\ length (reportsBetween 0 night2 (dailyReports db_reported)) = 1%nat.
Proof.
  split.
  - exact (proj1 (X22_reportsBetween_sorted_exact 0 night2
                    (dailyReports db_reported))).
  - reflexivity.
Defined.

(** ** The transactions route *)

Lemma opt_oid_eqb_eq (a : option ObjectId) (b : ObjectId) :
  opt_oid_eqb a b = true <-> a = Some b.
Proof.
  destruct a as [a|]; simpl.
  - rewrite oid_eqb_eq. split; congruence.
  - split; discriminate.
Qed.

Lemma insert_newest_perm t l : Permutation (insert_newest t l) (t :: l).
Proof.
  induction l as [|x l IH]; simpl; [apply Permutation_refl|].
  destruct (_ <=? _); [apply Permutation_refl|].
  eapply Permutation_trans; [apply perm_skip; exact IH|apply perm_swap].
Qed.

Lemma sort_newest_perm l : Permutation (sort_newest l) l.
Proof.
  induction l as [|x l IH]; simpl; [apply perm_nil|].
  eapply Permutation_trans; [apply insert_newest_perm|].
  apply perm_skip. exact IH.
Qed.

Lemma insert_newest_sorted t l :
  Sorted newestFirst l -> Sorted newestFirst (insert_newest t l).
Proof.
  induction 1 as [|x l Hl IH Hx]; simpl.
  - repeat constructor.
  - destruct (Transaction.createdAt x <=? Transaction.createdAt t) eqn:E.
    + apply Z.leb_le in E. constructor; [constructor; assumption|].
      constructor. exact E.
    + apply Z.leb_gt in E. constructor; [exact IH|].
      destruct l as [|y l]; simpl.
      * constructor. unfold newestFirst. lia.
      * destruct (Transaction.createdAt y <=? Transaction.createdAt t).
        -- constructor. unfold newestFirst. lia.
        -- inversion Hx. constructor. assumption.
Qed.

Lemma sort_newest_sorted l : StronglySorted newestFirst (sort_newest l).
Proof.
  apply Sorted_StronglySorted.
  - intros a b c. unfold newestFirst. lia.
  - induction l as [|x l IH]; simpl; [constructor|].
    apply insert_newest_sorted. exact IH.
Qed.

Lemma firstn_In {A : Type} (n : nat) : forall (l : list A) (x : A),
  In x (firstn n l) -> In x l.
Proof.
  induction n as [|n IH]; intros [|y l] x; simpl; try tauto.
  intros [->|H]; [left; reflexivity|right; apply IH; exact H].
Qed.

Lemma skipn_In {A : Type} (n : nat) : forall (l : list A) (x : A),
  In x (skipn n l) -> In x l.
Proof.
  induction n as [|n IH]; intros [|y l] x; simpl; try tauto.
  intros H. right. apply IH. exact H.
Qed.

Lemma StronglySorted_firstn_skipn {A : Type} (R : A -> A -> Prop) (n : nat) :
  forall l, StronglySorted R l ->
    StronglySorted R (firstn n l)
    /\ forall a b, In a (firstn n l) -> In b (skipn n l) -> R a b.
Proof.
  induction n as [|n IH]; intros l Hl.
  - simpl. split; [constructor|contradiction].
  - destruct l as [|x l]; simpl; [split; [constructor|contradiction]|].
    inversion Hl as [|? ? Hs Hx]; subst.
    destruct (IH l Hs) as [H1 H2]. split.
    + constructor; [exact H1|].
      rewrite Forall_forall in *. intros y Hy. apply Hx.
      apply (firstn_In n). exact Hy.
    + intros a b [<-|Ha] Hb.
      * rewrite Forall_forall in Hx. apply Hx.
        apply (skipn_In n). exact Hb.
      * apply H2; assumption.
Qed.

(** X23: when [GET /:id/transactions] answers 200, the identifier of the
    request casts to an ObjectId and the answer shows at most 50
    Transactions, all of that account, from the newest to the oldest, and
    they are the most recent ones: every Transaction of that account left out
    is at least as old as every one shown, and nothing is left out when the
    account has at most 50. *)
Theorem X23_transactions_route_most_recent :
  forall (formatMoney : Q -> string) (formatDateTime : Z -> string)
         (castObjectId : string -> option ObjectId)
         (token : option Actor) (id : string) (db : Db)
         (m : MemberView.t) (views : list TransactionView.t),
    transactionsRoute formatMoney formatDateTime castObjectId token id db
    = R200 (m, views) ->
    exists memberId shown rest,
      castObjectId id = Some memberId
      /\ views = map (viewTransaction formatMoney formatDateTime) shown
      /\ (length shown <= 50)%nat
      /\ Permutation (shown ++ rest)
           (filter (fun t => oid_eqb (Transaction.user t) memberId)
              (transactions db))
      /\ (forall t, In t shown ->
                    Transaction.user t = memberId /\ In t (transactions db))
      /\ StronglySorted newestFirst shown
      /\ (forall a b, In a shown -> In b rest ->
                      Transaction.createdAt b <= Transaction.createdAt a)
      /\ ((length (filter (fun t => oid_eqb (Transaction.user t) memberId)
                     (transactions db)) <= 50)%nat -> rest = []).
Proof.
  intros fm fdt cast token id db m views Hroute.
  destruct (cast id) as [memberId|] eqn:Ecast.
  2:{ unfold transactionsRoute, checkAccess, transactionsHandler in Hroute.
      rewrite Ecast in Hroute.
      repeat match type of Hroute with
             | context [match ?x with _ => _ end] => destruct x
             end; discriminate. }
  exists memberId.
  set (mine := filter (fun t => oid_eqb (Transaction.user t) memberId)
                 (transactions db)) in *.
  assert (Hviews : views = map (viewTransaction fm fdt)
                             (firstn 50 (sort_newest mine))).
  { unfold transactionsRoute, checkAccess, transactionsHandler in Hroute.
    rewrite Ecast in Hroute.
    unfold recentTransactions in Hroute. fold mine in Hroute.
    repeat match type of Hroute with
           | context [match ?x with _ => _ end] => destruct x
           end; try discriminate; injection Hroute as _ <-; reflexivity. }
  exists (firstn 50 (sort_newest mine)), (skipn 50 (sort_newest mine)).
  destruct (StronglySorted_firstn_skipn newestFirst 50 _
              (sort_newest_sorted mine)) as [Hs Hsplit].
  split; [reflexivity|].
  split; [exact Hviews|]. split; [apply firstn_le_length|].
  split; [rewrite firstn_skipn; apply sort_newest_perm|].
  split; [|split; [exact Hs|split; [exact Hsplit|]]].
  - intros t Ht. apply firstn_In in Ht.
    apply (Permutation_in _ (sort_newest_perm mine)) in Ht.
    apply filter_In in Ht. destruct Ht as [Hin Hu].
    apply oid_eqb_eq in Hu. split; assumption.
  - intros Hlen. apply skipn_all2.
    rewrite (Permutation_length (sort_newest_perm mine)). exact Hlen.
Qed.

Lemma X23_transactions_route_most_recent_witness :
  exists m views shown,
    transactionsRoute format_thTH toISOString castHex (Some admin)
      "64B0000000000000000000B1" db_reached = R200 (m, views)
    /\ views = map (viewTransaction format_thTH toISOString) shown
    /\ (length shown <= 50)%nat.
Proof.
  destruct (transactionsRoute format_thTH toISOString castHex (Some admin)
              "64B0000000000000000000B1" db_reached)
    as [| | | | |[m views]] eqn:E;
    try (vm_compute in E; discriminate E).
  destruct (X23_transactions_route_most_recent format_thTH toISOString
              castHex (Some admin) "64B0000000000000000000B1" db_reached
              m views E)
    as (memberId & shown & rest & _ & H1 & H2 & _).
  exists m, views, shown. split; [reflexivity|]. split; assumption.
Defined.

(** X24: [GET /:id/transactions] answers 200 only to a verified token of
    the operator, or of an agent whose own identifier is the parent of the
    requested account; without a valid token it answers 401.  To an agent it
    answers 500 for an identifier that does not cast to an ObjectId, and 403
    for an account it is not the parent of and for an identifier no account
    has; to the operator it answers 400 for an identifier that does not
    cast. *)
Theorem X24_transactions_route_access :
  forall (formatMoney : Q -> string) (formatDateTime : Z -> string)
         (castObjectId : string -> option ObjectId)
         (token : option Actor) (id : string) (db : Db),
    let reply :=
      transactionsRoute formatMoney formatDateTime castObjectId token id db in
    (forall payload, reply = R200 payload ->
       exists user memberId member,
         token = Some user
         /\ castObjectId id = Some memberId
         /\ findById (users db) memberId = Some member
         /\ (actor_role user = "superadmin"
             \/ (actor_role user = "agent"
                 /\ User.parent member = Some (actor_id user))))
    /\ (token = None -> reply = R401)
    /\ (forall user, token = Some user -> actor_role user = "agent" ->
          id <> "" ->
          match castObjectId id with
          | None => reply = R500
          | Some memberId =>
              (forall member, findById (users db) memberId = Some member ->
                              User.parent member <> Some (actor_id user)) ->
              reply = R403
          end)
    /\ (forall user, token = Some user -> actor_role user = "superadmin" ->
          castObjectId id = None -> reply = R400).
Proof.
  intros fm fdt cast token id db reply.
  unfold reply, transactionsRoute, checkAccess, transactionsHandler.
  split; [|split; [|split]].
  - intros payload H.
    destruct token as [user|]; [|discriminate].
    destruct (actor_role user =? "superadmin")%string eqn:Es.
    + apply String.eqb_eq in Es.
      destruct (cast id) as [memberId|] eqn:Ec; [|discriminate].
      destruct (findById (users db) memberId) as [member|] eqn:Ef;
        [|discriminate].
      exists user, memberId, member.
      split; [reflexivity|]. split; [reflexivity|]. split; [exact Ef|].
      left. exact Es.
    + destruct (actor_role user =? "agent")%string eqn:Ea; [|discriminate].
      apply String.eqb_eq in Ea.
      assert (G : match cast id with
                  | Some memberId =>
                      match findById (users db) memberId with
                      | Some member =>
                          if true
                             && negb (opt_oid_eqb (User.parent member)
                                        (actor_id user))
                          then @R403 (MemberView.t * list TransactionView.t)
                          else R200 payload
                      | None => R404
                      end
                  | None => R400
                  end = R200 payload).
      { destruct (id =? "")%string.
        - destruct (cast id) as [memberId|]; [|discriminate].
          destruct (findById (users db) memberId) as [member|];
            [|discriminate].
          destruct (opt_oid_eqb (User.parent member) (actor_id user));
            [|discriminate]. reflexivity.
        - destruct (cast id) as [memberId|]; [|discriminate].
          destruct (findById (users db) memberId) as [member|];
            [|discriminate].
          destruct (opt_oid_eqb (User.parent member) (actor_id user));
            [|discriminate]. reflexivity. }
      destruct (cast id) as [memberId|] eqn:Ec; [|discriminate].
      destruct (findById (users db) memberId) as [member|] eqn:Ef;
        [|discriminate].
      destruct (opt_oid_eqb (User.parent member) (actor_id user)) eqn:Ep;
        [|discriminate].
      apply opt_oid_eqb_eq in Ep.
      exists user, memberId, member.
      split; [reflexivity|]. split; [reflexivity|]. split; [exact Ef|].
      right. split; assumption.
  - intros ->. reflexivity.
  - intros user -> Hrole Hid. rewrite Hrole. simpl.
    apply String.eqb_neq in Hid. rewrite Hid.
    destruct (cast id) as [memberId|]; [|reflexivity].
    intros Hnot.
    destruct (findById (users db) memberId) as [member|]; [|reflexivity].
    destruct (opt_oid_eqb (User.parent member) (actor_id user)) eqn:Ep;
      [|reflexivity].
    apply opt_oid_eqb_eq in Ep. exfalso. apply (Hnot member eq_refl Ep).
  - intros user -> Hrole Hcast. rewrite Hrole, Hcast. reflexivity.
Qed.

Lemma X24_transactions_route_access_witness :
  transactionsRoute format_thTH toISOString castHex
    (Some (mkActor agentA_id "agentA" "agent")) "zzz" db_reached = R500
  /\ transactionsRoute format_thTH toISOString castHex
       (Some (mkActor agentA_id "agentA" "agent"))
       "64b0000000000000000000ff" db_reached = R403.
Proof.
  split.
  - apply (proj1 (proj2 (proj2 (X24_transactions_route_access format_thTH
                           toISOString castHex
                           (Some (mkActor agentA_id "agentA" "agent"))
                           "zzz" db_reached)))
             (mkActor agentA_id "agentA" "agent")).
    + reflexivity.
    + reflexivity.
    + discriminate.
  - apply (proj1 (proj2 (proj2 (X24_transactions_route_access format_thTH
                           toISOString castHex
                           (Some (mkActor agentA_id "agentA" "agent"))
                           "64b0000000000000000000ff" db_reached)))
             (mkActor agentA_id "agentA" "agent")).
    + reflexivity.
    + reflexivity.
    + discriminate.
    + intros member H. vm_compute in H. discriminate H.
Defined.

(** ** The statistics route *)

(** X25: to an agent, [GET /stats] never shows a commission rate of 0: it
    shows the stored rate when there is a record with a non-zero rate, and
    0.05 when the agent has no AgentStats record or the stored rate is 0; the
    counters and sums shown are the stored ones, or 0 without a record. *)
Theorem X25_stats_route_agent_rate :
  forall (formatMoney : Q -> string) (user : Actor) (db : Db),
    actor_role user = "agent" ->
    exists tm am tc tcm rate f1 f2,
      statsRoute formatMoney (Some user) db
      = R200 (StatsView.Agent tm am tc tcm rate f1 f2)
      /\ ~ (rate == 0)%Q
      /\ match AgentStats_findOne (agentStats db) (actor_id user) with
         | Some st =>
             tm = AgentStats.totalMembers st
             /\ am = AgentStats.activeMembers st
             /\ (tc == AgentStats.totalCredit st)%Q
             /\ (tcm == AgentStats.totalCommission st)%Q
             /\ (~ (AgentStats.commissionRate st == 0)%Q ->
                 rate = AgentStats.commissionRate st)
             /\ ((AgentStats.commissionRate st == 0)%Q -> rate = (5 # 100)%Q)
         | None =>
             tm = 0 /\ am = 0 /\ tc = 0%Q /\ tcm = 0%Q
             /\ rate = (5 # 100)%Q
         end.
Proof.
  intros fm user db Hrole.
  unfold statsRoute, checkAccess, statsHandler. rewrite Hrole. simpl.
  eexists _, _, _, _, _, _, _. split; [reflexivity|].
  destruct (AgentStats_findOne (agentStats db) (actor_id user)) as [st|];
    simpl.
  - unfold orNumber.
    assert (Hor : forall q,
              ((if Qeq_bool q 0 then 0 else q) == q)%Q).
    { intros q. destruct (Qeq_bool q 0) eqn:E; [|reflexivity].
      apply Qeq_bool_iff in E. symmetry. exact E. }
    split.
    + destruct (Qeq_bool (AgentStats.commissionRate st) 0) eqn:E.
      * intros H. discriminate H.
      * intros H. apply Qeq_bool_iff in H. congruence.
    + split; [reflexivity|]. split; [reflexivity|].
      split; [apply Hor|]. split; [apply Hor|].
      destruct (Qeq_bool (AgentStats.commissionRate st) 0) eqn:E.
      * split; [|reflexivity]. intros H. exfalso. apply H.
        apply Qeq_bool_iff. exact E.
      * split; [reflexivity|]. intros H. apply Qeq_bool_iff in H. congruence.
  - split; [intros H; discriminate H|]. repeat split.
Qed.

Lemma X25_stats_route_agent_rate_witness :
  exists tm am tc tcm rate f1 f2,
    statsRoute format_thTH (Some (mkActor agentA_id "agentA" "agent")) db0
    = R200 (StatsView.Agent tm am tc tcm rate f1 f2)
    /\ ~ (rate == 0)%Q.
Proof.
  destruct (X25_stats_route_agent_rate format_thTH
              (mkActor agentA_id "agentA" "agent") db0 eq_refl)
    as (tm & am & tc & tcm & rate & f1 & f2 & H1 & H2 & _).
  exists tm, am, tc, tcm, rate, f1, f2. split; assumption.
Defined.

(** ** The range report *)







(** * Properties on the values of the runtime

    From here on the names are those of [Js]: a Number is a binary64 float
    and [+], [<] and the setter are the runtime's. *)

Import Js.

(** ** Numbers of the runtime *)

(** The number of binary digits of a mantissa. *)
Lemma digits2_pos_bounds (p : positive) :
  2 ^ (Z.pos (digits2_pos p) - 1) <= Z.pos p < 2 ^ Z.pos (digits2_pos p).
Proof.
  induction p as [p IH|p IH|]; simpl digits2_pos.
  - rewrite Pos2Z.inj_succ.
    replace (Z.succ (Z.pos (digits2_pos p)) - 1)
      with (Z.succ (Z.pos (digits2_pos p) - 1)) by lia.
    rewrite !Z.pow_succ_r by lia. lia.
  - rewrite Pos2Z.inj_succ.
    replace (Z.succ (Z.pos (digits2_pos p)) - 1)
      with (Z.succ (Z.pos (digits2_pos p) - 1)) by lia.
    rewrite !Z.pow_succ_r by lia. lia.
  - simpl. lia.
Qed.

Lemma digits2_pos_le (p : positive) (k : Z) :
  0 <= k -> Z.pos p < 2 ^ k -> Z.pos (digits2_pos p) <= k.
Proof.
  intros Hk Hp.
  destruct (Z_le_gt_dec (Z.pos (digits2_pos p)) k) as [H|H]; [exact H|].
  exfalso. pose proof (digits2_pos_bounds p) as [Hlo _].
  assert (2 ^ k <= 2 ^ (Z.pos (digits2_pos p) - 1))
    by (apply Z.pow_le_mono_r; lia).
  lia.
Qed.

Lemma iter_xO_digits (p k : positive) :
  digits2_pos (Pos.iter xO p k) = (digits2_pos p + k)%positive.
Proof.
  induction k as [|k IH] using Pos.peano_ind.
  - simpl. lia.
  - rewrite Pos.iter_succ. simpl. rewrite IH. lia.
Qed.

Lemma iter_xO_value (p k : positive) :
  Z.pos (Pos.iter xO p k) = Z.pos p * 2 ^ Z.pos k.
Proof.
  induction k as [|k IH] using Pos.peano_ind.
  - simpl. lia.
  - rewrite Pos.iter_succ. rewrite Pos2Z.inj_xO, IH, Pos2Z.inj_succ.
    rewrite Z.pow_succ_r by lia. lia.
Qed.

(** A mantissa of 53 digits with an exponent in range is what
    [binary_round_aux] returns unchanged. *)
Lemma binary_round_aux_canonical (s : bool) (m : positive) (e : Z) :
  Z.pos (digits2_pos m) = 53 -> -1074 <= e <= 971 ->
  binary_round_aux prec emax s (Z.pos m) e loc_Exact = S754_finite s m e.
Proof.
  intros Hd He.
  assert (Hf : fexp prec emax (Z.pos (digits2_pos m) + e) - e = 0).
  { rewrite Hd. unfold fexp, emin, prec, emax. lia. }
  unfold binary_round_aux, shr_fexp.
  cbn [Zdigits2 shr_record_of_loc].
  rewrite Hf.
  cbn [shr shr_m loc_of_shr_record round_nearest_even Zdigits2
       shr_record_of_loc].
  rewrite Hf. cbn [shr shr_m].
  unfold emax, prec.
  destruct (e <=? 1024 - 53) eqn:E; [reflexivity|]. apply Z.leb_gt in E. lia.
Qed.

Lemma binary_normalize_exact (p : positive) :
  Z.pos p < 2 ^ 53 ->
  exists m e,
    binary_normalize prec emax (Z.pos p) 0 false = S754_finite false m e
    /\ e <= 0 /\ Z.pos m = Z.pos p * 2 ^ (- e).
Proof.
  intros Hp.
  pose proof (digits2_pos_le p 53 ltac:(lia) Hp) as Hd.
  unfold binary_normalize, binary_round.
  assert (Hf : fexp prec emax (Z.pos (digits2_pos p) + 0)
               = Z.pos (digits2_pos p) - 53).
  { unfold fexp, emin, prec, emax. lia. }
  rewrite Hf. unfold shl_align.
  destruct (Z.pos (digits2_pos p) - 53 - 0) as [|k|k] eqn:Ek.
  - exists p, 0. split.
    + apply binary_round_aux_canonical; lia.
    + split; [lia|]. simpl. lia.
  - lia.
  - exists (Pos.iter xO p k), (Z.pos (digits2_pos p) - 53). split.
    + apply binary_round_aux_canonical; [|lia].
      rewrite iter_xO_digits. lia.
    + split; [lia|]. rewrite iter_xO_value. f_equal. f_equal. lia.
Qed.

Lemma ofZ_pos (p : positive) :
  Z.pos p < 2 ^ 53 ->
  exists m e,
    Prim2SF (ofZ (Z.pos p)) = S754_finite false m e
    /\ e <= 0 /\ Z.pos m = Z.pos p * 2 ^ (- e).
Proof.
  intros Hp. unfold ofZ.
  change (Z.pos p <? 0) with false. cbv iota. cbv zeta.
  rewrite of_uint63_spec, Uint63.of_Z_spec.
  rewrite Z.mod_small.
  - apply binary_normalize_exact. exact Hp.
  - change (Z.abs (Z.pos p)) with (Z.pos p).
    split; [lia|].
    apply Z.lt_trans with (2 ^ 53); [exact Hp|]. reflexivity.
Qed.

Lemma ofZ_neg (p : positive) :
  Z.pos p < 2 ^ 53 ->
  exists m e,
    Prim2SF (ofZ (Z.neg p)) = S754_finite true m e
    /\ e <= 0 /\ Z.pos m = Z.pos p * 2 ^ (- e).
Proof.
  intros Hp. unfold ofZ.
  change (Z.neg p <? 0) with true. cbv iota. cbv zeta.
  rewrite opp_spec, of_uint63_spec, Uint63.of_Z_spec.
  rewrite Z.mod_small.
  - change (Z.abs (Z.neg p)) with (Z.pos p).
    destruct (binary_normalize_exact p Hp) as (m & e & -> & He & Hm).
    exists m, e. split; [reflexivity|]. split; assumption.
  - change (Z.abs (Z.neg p)) with (Z.pos p).
    split; [lia|].
    apply Z.lt_trans with (2 ^ 53); [exact Hp|]. reflexivity.
Qed.

Lemma toQ_finite (s : bool) (m : positive) (e : Z) (x : float) (n : Z) :
  Prim2SF x = S754_finite s m e ->
  e <= 0 ->
  (if s then Z.neg m else Z.pos m) = n * 2 ^ (- e) ->
  (toQ x == inject_Z n)%Q.
Proof.
  intros Hx He Hv. unfold toQ. rewrite Hx. cbv zeta.
  destruct (0 <=? e) eqn:E.
  - apply Z.leb_le in E. assert (e = 0) by lia. subst e.
    rewrite Hv. simpl. rewrite !Z.mul_1_r. reflexivity.
  - rewrite Hv. unfold Qeq, inject_Z. simpl Qnum. simpl Qden.
    rewrite Z2Pos.id by (apply Z.pow_pos_nonneg; lia). lia.
Qed.

(** [ofZ] is exact below 2^53. *)
Lemma ofZ_exact (n : Z) :
  n <> 0 -> Z.abs n < 2 ^ 53 ->
  isFinite (ofZ n) = true /\ (toQ (ofZ n) == inject_Z n)%Q.
Proof.
  intros Hn Hb. destruct n as [|p|p]; [congruence| |].
  - destruct (ofZ_pos p Hb) as (m & e & Hx & He & Hm).
    split; [unfold isFinite; rewrite Hx; reflexivity|].
    apply (toQ_finite false m e); assumption.
  - destruct (ofZ_neg p Hb) as (m & e & Hx & He & Hm).
    split; [unfold isFinite; rewrite Hx; reflexivity|].
    apply (toQ_finite true m e); [assumption|assumption|].
    rewrite <- Pos2Z.opp_pos, Hm. lia.
Qed.

(** The mantissa of a Number has at most 53 digits. *)
Lemma mantissa_bound (x : float) (s : bool) (m : positive) (e : Z) :
  Prim2SF x = S754_finite s m e -> Z.pos m < 2 ^ 53.
Proof.
  intros Hx. pose proof (Prim2SF_valid x) as V. rewrite Hx in V.
  unfold valid_binary, bounded, canonical_mantissa in V.
  apply andb_prop in V. destruct V as [V _]. apply Z.eqb_eq in V.
  unfold fexp, emin, prec, emax in V.
  pose proof (digits2_pos_bounds m) as [_ Hhi].
  assert (Z.pos (digits2_pos m) <= 53) by lia.
  apply Z.lt_le_trans with (2 ^ Z.pos (digits2_pos m)); [exact Hhi|].
  apply Z.pow_le_mono_r; lia.
Qed.

(** [Math.round] returns the nearest whole number, the upper one at a
    tie, and leaves an infinity and NaN as they are. *)
Lemma nearest_self (q : Q) (k : Z) : (q == inject_Z k)%Q -> nearest q k.
Proof.
  intros H. unfold nearest. rewrite H.
  unfold Qle, Qlt, Qminus, Qplus, Qopp, inject_Z. simpl. lia.
Qed.

Lemma Math_round_spec (x : float) : roundedToUnit x (Math_round x).
Proof.
  unfold roundedToUnit, isFinite at 1, Math_round.
  destruct (Prim2SF x) as [s0|s0| |s m e] eqn:Hx; try reflexivity.
  - (* zero *)
    split; [unfold isFinite; rewrite Hx; reflexivity|].
    exists 0. unfold toQ. rewrite Hx. split; [reflexivity|].
    apply nearest_self. reflexivity.
  - (* finite *)
    pose proof (mantissa_bound x s m e Hx) as Hm.
    destruct (0 <=? e) eqn:E.
    + apply Z.leb_le in E.
      split; [unfold isFinite; rewrite Hx; reflexivity|].
      set (k := (if s then Z.neg m else Z.pos m) * 2 ^ e).
      exists k.
      assert (Hq : (toQ x == inject_Z k)%Q).
      { unfold toQ. rewrite Hx. cbv zeta.
        apply Z.leb_le in E. rewrite E. reflexivity. }
      split; [exact Hq|]. apply nearest_self. exact Hq.
    + apply Z.leb_gt in E. cbv zeta.
      set (d := 2 ^ (- e)).
      set (v := if s then Z.neg m else Z.pos m).
      set (n := (2 * v + d) / (2 * d)).
      assert (Hd : 2 <= d).
      { unfold d. change 2 with (2 ^ 1) at 1. apply Z.pow_le_mono_r; lia. }
      assert (Hv : Z.abs v < 2 ^ 53) by (unfold v; destruct s; simpl; exact Hm).
      assert (Hdiv : 2 * d * n <= 2 * v + d < 2 * d * n + 2 * d).
      { unfold n. pose proof (Z.mul_div_le (2 * v + d) (2 * d) ltac:(lia)).
        pose proof (Z.mul_succ_div_gt (2 * v + d) (2 * d) ltac:(lia)). lia. }
      assert (Hq : (toQ x == v # Z.to_pos d)%Q).
      { unfold toQ. rewrite Hx. cbv zeta.
        destruct (0 <=? e) eqn:E'; [apply Z.leb_le in E'; lia|]. reflexivity. }
      assert (Hnear : nearest (toQ x) n).
      { unfold nearest. rewrite Hq.
        unfold Qle, Qlt, Qminus, Qplus, Qopp, inject_Z.
        simpl Qnum. simpl Qden.
        rewrite ?Pos2Z.inj_mul, ?Z2Pos.id by lia. split; nia. }
      destruct (n =? 0) eqn:En.
      * apply Z.eqb_eq in En. rewrite En in Hnear.
        destruct s.
        -- split; [reflexivity|]. exists 0. split; [reflexivity|exact Hnear].
        -- split; [reflexivity|]. exists 0. split; [reflexivity|exact Hnear].
      * apply Z.eqb_neq in En.
        assert (Hn : Z.abs n < 2 ^ 53) by nia.
        destruct (ofZ_exact n En Hn) as [Hfin Hval].
        split; [exact Hfin|]. exists n. split; [exact Hval|exact Hnear].
Qed.

Lemma round2_spec (x : float) : roundedToCent x (round2 x).
Proof.
  exists (Math_round (PrimFloat.mul x 100%float)).
  split; [apply Math_round_spec|reflexivity].
Qed.

(** NaN, by its representation. *)
Lemma isNaN_spec (x : float) : isNaN x = true <-> Prim2SF x = S754_nan.
Proof.
  unfold isNaN. rewrite eqb_spec.
  destruct (Prim2SF x) as [s|s| |s m e]; simpl.
  - split; [discriminate|discriminate].
  - destruct s; simpl; split; discriminate.
  - split; reflexivity.
  - unfold SFeqb, SFcompare.
    destruct s; rewrite Z.compare_refl, Pos.compare_cont_refl; simpl;
      split; discriminate.
Qed.

Lemma leb_isNaN (a r : float) : PrimFloat.leb a r = true -> isNaN r = false.
Proof.
  intros H. destruct (isNaN r) eqn:E; [|reflexivity].
  apply isNaN_spec in E. rewrite leb_spec, E in H.
  destruct (Prim2SF a); discriminate H.
Qed.

(** Rounding a mantissa that is not negative never makes NaN. *)
Lemma iter_pos_invariant {A : Type} (P : A -> Prop) (f : A -> A) :
  (forall x, P x -> P (f x)) ->
  forall (n : positive) (x : A), P x -> P (iter_pos f n x).
Proof.
  intros Hf. induction n as [n IH|n IH|]; intros x Hx; simpl.
  - apply IH, IH, Hf, Hx.
  - apply IH, IH, Hx.
  - apply Hf, Hx.
Qed.

Lemma shr_1_nonneg (mrs : shr_record) :
  0 <= shr_m mrs -> 0 <= shr_m (shr_1 mrs).
Proof.
  destruct mrs as [m r s]. simpl. intros H.
  destruct m as [|[p|p|]|p]; simpl; lia.
Qed.

Lemma shr_nonneg (mrs : shr_record) (e n : Z) :
  0 <= shr_m mrs -> 0 <= shr_m (fst (shr mrs e n)).
Proof.
  intros H. unfold shr. destruct n as [|p|p]; simpl; [exact H| |exact H].
  apply (iter_pos_invariant (fun r => 0 <= shr_m r));
    [apply shr_1_nonneg|exact H].
Qed.

Lemma shr_record_of_loc_m (m : Z) (l : location) :
  shr_m (shr_record_of_loc m l) = m.
Proof. destruct l as [|[| |]]; reflexivity. Qed.

Lemma binary_round_aux_not_nan (s : bool) (mx e : Z) (l : location) :
  0 <= mx -> binary_round_aux prec emax s mx e l <> S754_nan.
Proof.
  intros H. unfold binary_round_aux, shr_fexp.
  match goal with
  | |- context [shr ?r ?e0 ?n] =>
      pose proof (shr_nonneg r e0 n) as H1; destruct (shr r e0 n) as [mrs' e']
  end.
  rewrite shr_record_of_loc_m in H1. specialize (H1 H). simpl fst in H1.
  match goal with
  | |- context [shr ?r ?e0 ?n] =>
      pose proof (shr_nonneg r e0 n) as H2; destruct (shr r e0 n) as [mrs'' e'']
  end.
  rewrite shr_record_of_loc_m in H2. simpl fst in H2.
  assert (Hr : 0 <= round_nearest_even (shr_m mrs') (loc_of_shr_record mrs')).
  { unfold round_nearest_even.
    destruct (loc_of_shr_record mrs') as [|[| |]]; try exact H1.
    - destruct (Z.even (shr_m mrs')); lia.
    - lia. }
  specialize (H2 Hr).
  destruct (shr_m mrs'') as [|p|p]; [discriminate| |lia].
  destruct (e'' <=? emax - prec); discriminate.
Qed.

Lemma isNaN_false_spec (x : float) : isNaN x = false <-> Prim2SF x <> S754_nan.
Proof.
  pose proof (isNaN_spec x) as H. destruct (isNaN x).
  - split; [discriminate|]. intros Hn. exfalso. apply Hn, H. reflexivity.
  - split; [|reflexivity]. intros _ Hn. apply H in Hn. discriminate Hn.
Qed.

Lemma Prim2SF_100 :
  Prim2SF 100%float = S754_finite false 7036874417766400 (-46).
Proof. reflexivity. Qed.

Lemma mul_100_isNaN (v : float) :
  isNaN (PrimFloat.mul v 100%float) = isNaN v.
Proof.
  destruct (isNaN v) eqn:E.
  - apply isNaN_spec in E. apply isNaN_spec.
    rewrite mul_spec, E. reflexivity.
  - apply isNaN_false_spec in E. apply isNaN_false_spec.
    rewrite mul_spec, Prim2SF_100. unfold SF64mul, SFmul.
    destruct (Prim2SF v) as [s|s| |s m e]; try discriminate; [congruence|].
    apply binary_round_aux_not_nan. lia.
Qed.

Lemma div_100_isNaN (v : float) :
  isNaN (PrimFloat.div v 100%float) = isNaN v.
Proof.
  destruct (isNaN v) eqn:E.
  - apply isNaN_spec in E. apply isNaN_spec.
    rewrite div_spec, E. reflexivity.
  - apply isNaN_false_spec in E. apply isNaN_false_spec.
    rewrite div_spec, Prim2SF_100. unfold SF64div, SFdiv.
    destruct (Prim2SF v) as [s|s| |s m e]; try discriminate; [congruence|].
    destruct (SFdiv_core_binary prec emax (Z.pos m) e 7036874417766400 (-46))
      as [[mz ez] lz] eqn:D.
    apply binary_round_aux_not_nan.
    unfold SFdiv_core_binary in D. cbv zeta in D.
    match type of D with
    | context [Z.div_eucl ?a ?b] =>
        assert (Hq : 0 <= fst (Z.div_eucl a b));
          [|destruct (Z.div_eucl a b) as [q r]; injection D as <- _ _; exact Hq]
    end.
    match goal with
    | |- 0 <= fst (Z.div_eucl ?a ?b) => change (0 <= a / b)
    end.
    apply Z.div_pos; [|lia].
    match goal with
    | |- 0 <= match ?s with _ => _ end => destruct s as [|p|p]
    end; [lia| |lia].
    apply Z.shiftl_nonneg. lia.
Qed.

Lemma Math_round_isNaN (x : float) : isNaN (Math_round x) = isNaN x.
Proof.
  pose proof (Math_round_spec x) as H. unfold roundedToUnit in H.
  destruct (isFinite x) eqn:F.
  - destruct H as [Hr _].
    assert (Hx : isNaN x = false).
    { apply isNaN_false_spec. unfold isFinite in F.
      destruct (Prim2SF x); try discriminate. }
    rewrite Hx. apply isNaN_false_spec. unfold isFinite in Hr.
    destruct (Prim2SF (Math_round x)); try discriminate.
  - rewrite H. reflexivity.
Qed.

(** The setter makes NaN of NaN alone. *)
Lemma round2_isNaN (v : float) : isNaN (round2 v) = isNaN v.
Proof.
  unfold round2. rewrite div_100_isNaN, Math_round_isNaN, mul_100_isNaN.
  reflexivity.
Qed.

(** X1: the setter of every monetary path returns a whole number of
    hundredths divided by 100, that whole number being the one nearest to
    the binary64 product of the value by 100, the upper one at a tie, when
    that product is finite; and it returns NaN for NaN alone. *)
Theorem X1_setter_rounds_to_cent :
  forall v : float,
    roundedToCent v (round2 v) /\ isNaN (round2 v) = isNaN v.
Proof.
  intros v. split; [apply round2_spec|apply round2_isNaN].
Qed.

(** Half a cent does not always go up: 1.005 * 100 and 0.145 * 100 are
    100.49999999999999 and 14.499999999999998 in binary64, while 0.125 is
    exact and goes up. *)
Example setter_at_half_cents :
  round2 1.005%float = 1%float
  /\ round2 0.145%float = 0.14%float
  /\ round2 0.125%float = 0.13%float
  /\ round2 (-0.125)%float = (-0.12)%float
  /\ PrimFloat.mul 1.005%float 100%float = 100.49999999999999%float.
Proof. vm_compute. repeat split. Qed.

Lemma add_isNaN_r (a b : float) :
  isNaN (PrimFloat.add a b) = false -> isNaN b = false.
Proof.
  intros H. destruct (isNaN b) eqn:E; [|reflexivity].
  apply isNaN_spec in E. apply isNaN_false_spec in H. exfalso. apply H.
  rewrite add_spec, E. unfold SF64add, SFadd.
  destruct (Prim2SF a); reflexivity.
Qed.

(** ** Assignments and saves *)

Lemma isNaN_same (r : float) : isNaN r = false -> same r r.
Proof.
  unfold isNaN, same. destruct (PrimFloat.eqb r r); [reflexivity|discriminate].
Qed.

(** An assignment that [save()] accepts leaves in the document a value
    [===] to the stored one, which is the setter's. *)
Lemma assign_accepted (path : string) (min : float)
    (setter : float -> float) (prior v : float) :
  pathErrors path min (assign setter prior v) = [] ->
  held prior (assign setter prior v) = setter v
  /\ same (written prior (assign setter prior v)) (setter v).
Proof.
  unfold assign. destruct (isNaN (setter v)) eqn:En; [discriminate|].
  destruct (PrimFloat.eqb prior (setter v)) eqn:Ee; simpl; intros _.
  - split; [reflexivity|exact Ee].
  - split; [reflexivity|apply isNaN_same; exact En].
Qed.

Lemma castNumber_Some (v r : float) : castNumber v = Some r -> r = round2 v.
Proof.
  unfold castNumber. destruct (isNaN (round2 v)); [discriminate|].
  intros H. injection H as <-. reflexivity.
Qed.

Lemma pathErrors_quote_nothing path min a needle :
  existsb (fun e : string * option string =>
             match snd e with
             | Some quoted => includes quoted needle
             | None => false
             end) (pathErrors path min a) = false.
Proof.
  destruct a as [|v|v]; simpl; [reflexivity| |];
    destruct (PrimFloat.leb min v); reflexivity.
Qed.

Lemma found_by_id (us : list User.t) (id : ObjectId) (u : User.t) :
  findById us id = Some u -> User._id u = id.
Proof.
  unfold findById. intros H. apply find_some in H. destruct H as [_ H].
  apply oid_eqb_eq in H. exact H.
Qed.

(** [user.save()]: what it writes, and what it leaves. *)
Lemma User_save_effect (this : User.t) (a : assignment) (db : Db) :
  match User_save this a db with
  | (db', inr m) =>
      m = User.with_credit this (held (User.credit this) a)
      /\ pathErrors "credit" 0%float a = []
      /\ (exists stored,
            findById (users db) (User._id this) = Some stored
            /\ balance db' (User._id this)
               = Some (written (User.credit stored) a))
      /\ (forall id, id <> User._id this -> balance db' id = balance db id)
      /\ transactions db' = transactions db
      /\ agentStats db' = agentStats db
      /\ dailyReports db' = dailyReports db
  | (db', inl e) =>
      db' = db /\ raisedByTransaction e = false
      /\ forall needle, mentions e needle = false
  end.
Proof.
  unfold User_save. cbv zeta.
  destruct (pathErrors "credit" 0%float a) as [|x l] eqn:Ep.
  2:{ split; [reflexivity|]. split; [reflexivity|].
      intros needle. unfold mentions. rewrite <- Ep.
      apply pathErrors_quote_nothing. }
  destruct (findById (users db) (User._id this)) as [stored|] eqn:Ef.
  2:{ split; [reflexivity|]. split; [reflexivity|]. reflexivity. }
  pose proof (found_by_id _ _ _ Ef) as Hid.
  split; [reflexivity|]. split; [reflexivity|].
  split.
  { exists stored. split; [reflexivity|].
    unfold balance, findById. simpl.
    rewrite (find_updateOne_same _ _ _ stored).
    - reflexivity.
    - exact Ef.
    - simpl. rewrite Hid. apply oid_eqb_refl. }
  split.
  { intros id Hne. unfold balance, findById. simpl. f_equal.
    apply find_updateOne_other.
    intros x Hx. apply oid_eqb_eq in Hx.
    split; apply oid_eqb_neq; simpl; congruence. }
  split; [reflexivity|]. split; reflexivity.
Qed.

Section RuntimeFacts.

Variable StringToNumber : string -> float.
Variable NumberToString : float -> string.
Variable castObjectId : string -> option ObjectId.

Lemma Transaction_create_effect user amount type oldCredit newCredit
    adjustedBy description now db :
  match Transaction_create StringToNumber castObjectId user amount type
          oldCredit newCredit adjustedBy description now db with
  | (db', inr t) =>
      db' = with_transactions db (transactions db ++ [t])
      /\ Transaction.user t = user
      /\ Transaction.amount t = round2 (ToNumber StringToNumber amount)
      /\ Transaction.type t = type
      /\ Transaction.oldCredit t = round2 oldCredit
      /\ Transaction.newCredit t = round2 newCredit
      /\ castObjectId adjustedBy = Some (Transaction.adjustedBy t)
      /\ Transaction.description t = trim description
      /\ Transaction.createdAt t = now
      /\ PrimFloat.leb 0.01%float (Transaction.amount t) = true
      /\ (js_length (Transaction.description t) <= 255)%nat
  | (db', inl e) => db' = db /\ raisedByTransaction e = true
  end.
Proof.
  unfold Transaction_create, castMoney.
  destruct (castNumber (ToNumber StringToNumber amount)) as [a|] eqn:Ea;
    [|split; reflexivity].
  destruct (castNumber oldCredit) as [o|] eqn:Eo; [|split; reflexivity].
  destruct (castNumber newCredit) as [n|] eqn:En; [|split; reflexivity].
  destruct (castObjectId adjustedBy) as [by_|] eqn:Eb; [|split; reflexivity].
  destruct (Transaction_errors _ _ _ _ _ _ _) as [|x l] eqn:Ee;
    [|split; reflexivity].
  apply castNumber_Some in Ea, Eo, En. subst a o n.
  unfold Transaction_errors in Ee.
  destruct (PrimFloat.leb 0.01%float
              (round2 (ToNumber StringToNumber amount))) eqn:Emin;
    [|discriminate Ee].
  destruct ((type =? "add") || (type =? "deduct"))%string; [|discriminate Ee].
  simpl in Ee.
  destruct (255 <? Z.of_nat (js_length (trim description))) eqn:El;
    [discriminate Ee|].
  apply Z.ltb_ge in El.
  simpl. repeat split; try reflexivity; try assumption. lia.
Qed.

(** [updateCredit], whatever the amount and the type are. *)
Lemma updateCredit_effect this amount type adjustedBy description now db :
  match updateCredit StringToNumber NumberToString castObjectId this amount
          type adjustedBy description now db with
  | (db', inr (m, t)) =>
      exists a stored,
        ((isText type "add" = true
          /\ a = assignMoney StringToNumber (User.credit this)
                   (plus StringToNumber NumberToString (User.credit this)
                      amount))
         \/ (isText type "deduct" = true
             /\ lessThan StringToNumber (User.credit this) amount = false
             /\ a = assign round2 (User.credit this)
                      (PrimFloat.sub (User.credit this)
                         (ToNumber StringToNumber amount))))
        /\ pathErrors "credit" 0%float a = []
        /\ m = User.with_credit this (held (User.credit this) a)
        /\ findById (users db) (User._id this) = Some stored
        /\ balance db' (User._id this)
           = Some (written (User.credit stored) a)
        /\ (forall id, id <> User._id this -> balance db' id = balance db id)
        /\ transactions db' = transactions db ++ [t]
        /\ agentStats db' = agentStats db
        /\ dailyReports db' = dailyReports db
        /\ Transaction.user t = User._id this
        /\ Transaction.amount t = round2 (ToNumber StringToNumber amount)
        /\ Transaction.type t = ToString NumberToString type
        /\ Transaction.oldCredit t = round2 (User.credit this)
        /\ Transaction.newCredit t = round2 (User.credit m)
        /\ Transaction.description t
           = trim (orDefault description "Credit adjustment")
        /\ Transaction.createdAt t = now
  | (db', inl e) =>
      transactions db' = transactions db
      /\ agentStats db' = agentStats db
      /\ dailyReports db' = dailyReports db
      /\ (forall id, id <> User._id this -> balance db' id = balance db id)
      /\ (raisedByTransaction e = false ->
          db' = db
          /\ (mentions e "Insufficient credit" = true ->
              isText type "deduct" = true
              /\ lessThan StringToNumber (User.credit this) amount = true))
  end.
Proof.
  unfold updateCredit.
  set (d := orDefault description "Credit adjustment").
  assert (Hcommit : forall a,
    match (this' <- User_save this a ;;
           saved <- Transaction_create StringToNumber castObjectId
                      (User._id this') amount
                      (ToString NumberToString type) (User.credit this)
                      (User.credit this') adjustedBy d now ;;
           ret (this', saved))%js db with
    | (db', inr (m, t)) =>
        exists stored,
          pathErrors "credit" 0%float a = []
          /\ m = User.with_credit this (held (User.credit this) a)
          /\ findById (users db) (User._id this) = Some stored
          /\ balance db' (User._id this)
             = Some (written (User.credit stored) a)
          /\ (forall id, id <> User._id this ->
                         balance db' id = balance db id)
          /\ transactions db' = transactions db ++ [t]
          /\ agentStats db' = agentStats db
          /\ dailyReports db' = dailyReports db
          /\ Transaction.user t = User._id this
          /\ Transaction.amount t = round2 (ToNumber StringToNumber amount)
          /\ Transaction.type t = ToString NumberToString type
          /\ Transaction.oldCredit t = round2 (User.credit this)
          /\ Transaction.newCredit t = round2 (User.credit m)
          /\ Transaction.description t = trim d
          /\ Transaction.createdAt t = now
    | (db', inl e) =>
        transactions db' = transactions db
        /\ agentStats db' = agentStats db
        /\ dailyReports db' = dailyReports db
        /\ (forall id, id <> User._id this ->
                       balance db' id = balance db id)
        /\ (raisedByTransaction e = false ->
            db' = db /\ mentions e "Insufficient credit" = false)
    end).
  { intros a. unfold bind at 1.
    pose proof (User_save_effect this a db) as Hs.
    destruct (User_save this a db) as [db1 [e|m]].
    { destruct Hs as (-> & Hr & Hm).
      repeat split; try reflexivity. apply Hm. }
    destruct Hs as (-> & Hp & (stored & Hf & Hb) & Ho & Ht & Ha & Hd).
    unfold bind at 1.
    match goal with
    | |- context [Transaction_create ?s ?c ?u ?am ?ty ?o ?n ?b ?de ?no db1] =>
        pose proof (Transaction_create_effect u am ty o n b de no db1) as Hc;
        destruct (Transaction_create s c u am ty o n b de no db1)
          as [db2 [e|t]]
    end.
    { destruct Hc as (-> & Hr). rewrite Ht, Ha, Hd.
      repeat split; try reflexivity; try assumption.
      all: match goal with
           | Hx : raisedByTransaction _ = false |- _ =>
               rewrite Hr in Hx; discriminate Hx
           end. }
    destruct Hc as (-> & Hu & Ham & Hty & Hold & Hnew & _ & Hde & Hno & _).
    unfold ret. exists stored. simpl.
    rewrite Ht, Ha, Hd.
    repeat split; try reflexivity; try assumption. }
  destruct (isText type "add") eqn:Eadd.
  { unfold bind at 1. unfold ret at 1.
    match goal with
    | |- context [User_save this ?a] =>
        specialize (Hcommit a); set (a0 := a) in *
    end.
    destruct ((_ <- User_save this a0 ;; _)%js db) as [db' [e|[m t]]].
    - destruct Hcommit as (H1 & H2 & H3 & H4 & H5).
      split; [exact H1|]. split; [exact H2|]. split; [exact H3|].
      split; [exact H4|].
      intros Hr. destruct (H5 Hr) as [Hdb Hmen]. split; [exact Hdb|].
      intros Hm. rewrite Hmen in Hm. discriminate Hm.
    - destruct Hcommit as (stored & Hrest).
      exists a0, stored. split; [left; split; reflexivity|exact Hrest]. }
  destruct (isText type "deduct") eqn:Eded.
  2:{ unfold bind, throw.
      split; [reflexivity|]. split; [reflexivity|]. split; [reflexivity|].
      split; [reflexivity|]. intros _. split; [reflexivity|].
      intros Hm. vm_compute in Hm. discriminate Hm. }
  destruct (lessThan StringToNumber (User.credit this) amount) eqn:Elt.
  { unfold bind, throw.
    split; [reflexivity|]. split; [reflexivity|]. split; [reflexivity|].
    split; [reflexivity|]. intros _. split; [reflexivity|].
    intros _. split; reflexivity. }
  unfold bind at 1. unfold ret at 1.
  match goal with
  | |- context [User_save this ?a] => specialize (Hcommit a); set (a0 := a) in *
  end.
  destruct ((_ <- User_save this a0 ;; _)%js db) as [db' [e|[m t]]].
  - destruct Hcommit as (H1 & H2 & H3 & H4 & H5).
    split; [exact H1|]. split; [exact H2|]. split; [exact H3|].
    split; [exact H4|].
    intros Hr. destruct (H5 Hr) as [Hdb Hmen]. split; [exact Hdb|].
    intros Hm. rewrite Hmen in Hm. discriminate Hm.
  - destruct Hcommit as (stored & Hrest).
    exists a0, stored.
    split; [right; split; [reflexivity|split; reflexivity]|exact Hrest].
Qed.

End RuntimeFacts.

Lemma isText_eq (v : value) (text : string) :
  isText v text = true -> v = Str text.
Proof.
  destruct v; simpl; try discriminate.
  intros H. apply String.eqb_eq in H. congruence.
Qed.

(** ** Credit ledger *)

(** C1 (as amended): when [updateCredit] succeeds on a stored account with
    a Number for amount, the balance it leaves is the setter's value
    [Math.round(v * 100) / 100] of the binary64 sum (add) or difference
    (deduct) of the prior balance and the amount; exactly one Transaction is
    appended, whose [amount], [oldCredit] and [newCredit] are the setter's
    values of the amount, of the prior balance and of the new balance; no
    other account, rollup or report is touched.  When it fails, the
    transaction log is unchanged, and unless the failure was raised by the
    validation of the Transaction record itself the whole database is
    unchanged. *)
Theorem C1_updateCredit_effect :
  forall (StringToNumber : string -> float) (NumberToString : float -> string)
         (castObjectId : string -> option ObjectId)
         (db : Db) (this : User.t) (amount : float) (type : value)
         (adjustedBy : string) (description : option string) (now : Z),
    findById (users db) (User._id this) = Some this ->
    match updateCredit StringToNumber NumberToString castObjectId this
            (Num amount) type adjustedBy description now db with
    | (db', inr (member, t)) =>
        ((type = Str "add"
          /\ User.credit member
             = round2 (PrimFloat.add (User.credit this) amount))
         \/ (type = Str "deduct"
             /\ PrimFloat.ltb (User.credit this) amount = false
             /\ User.credit member
                = round2 (PrimFloat.sub (User.credit this) amount)))
        /\ (exists b, balance db' (User._id this) = Some b
                      /\ same b (User.credit member))
        /\ (forall id, id <> User._id this -> balance db' id = balance db id)
        /\ transactions db' = transactions db ++ [t]
        /\ Transaction.user t = User._id this
        /\ Transaction.amount t = round2 amount
        /\ Transaction.oldCredit t = round2 (User.credit this)
        /\ Transaction.newCredit t = round2 (User.credit member)
        /\ agentStats db' = agentStats db
        /\ dailyReports db' = dailyReports db
    | (db', inl e) =>
        transactions db' = transactions db
        /\ (raisedByTransaction e = false -> db' = db)
    end.
Proof.
  intros S N cast db this amount type adjustedBy description now Hfind.
  pose proof (updateCredit_effect S N cast this (Num amount) type adjustedBy
                description now db) as E.
  destruct (updateCredit S N cast this (Num amount) type adjustedBy
              description now db) as [db' [e|[m t]]].
  { destruct E as (H1 & _ & _ & _ & H5). split; [exact H1|].
    intros Hr. apply (H5 Hr). }
  destruct E as (a & stored & Ha & Hp & Hm & Hf & Hb & Ho & Ht & Hs & Hd
                 & Hu & Ham & _ & Hold & Hnew & _).
  rewrite Hfind in Hf. injection Hf as <-.
  assert (Hheld : exists v,
            a = assign round2 (User.credit this) v
            /\ ((type = Str "add"
                 /\ v = PrimFloat.add (User.credit this) amount)
                \/ (type = Str "deduct"
                    /\ PrimFloat.ltb (User.credit this) amount = false
                    /\ v = PrimFloat.sub (User.credit this) amount))).
  { destruct Ha as [(Hty & ->)|(Hty & Hlt & ->)].
    - eexists. split; [reflexivity|]. left.
      split; [apply isText_eq; exact Hty|reflexivity].
    - eexists. split; [reflexivity|]. right.
      split; [apply isText_eq; exact Hty|]. split; [exact Hlt|reflexivity]. }
  destruct Hheld as (v & -> & Hv).
  destruct (assign_accepted _ _ round2 (User.credit this) v Hp) as [Hh Hw].
  assert (Hc : User.credit m = round2 v) by (rewrite Hm; exact Hh).
  split.
  { destruct Hv as [(Hty & ->)|(Hty & Hlt & ->)].
    - left. split; assumption.
    - right. split; [assumption|]. split; assumption. }
  split.
  { eexists. split; [exact Hb|]. rewrite Hc. exact Hw. }
  repeat split; assumption.
Qed.

(** Member M (balance 50) is credited 1.005: the balance becomes 51.01 while
    the Transaction records an amount of 1, the product 1.005 * 100 being
    100.49999999999999 in binary64. *)
Lemma C1_updateCredit_effect_witness :
  findById (users db0) (User._id memberM) = Some memberM
  /\ match updateCredit exampleStringToNumber exampleNumberToString castHex
             memberM (Num 1.005%float) (Str "add")
             "64b000000000000000000000" None noon db0 with
     | (db', inr (member, t)) =>
         User.credit member = 51.01%float
         /\ balance db' memberM_id = Some 51.01%float
         /\ transactions db' = transactions db0 ++ [t]
         /\ Transaction.amount t = 1%float
         /\ Transaction.oldCredit t = 50%float
         /\ Transaction.newCredit t = 51.01%float
     | (_, inl _) => False
     end.
Proof.
  assert (Hf : findById (users db0) (User._id memberM) = Some memberM)
    by reflexivity.
  split; [exact Hf|].
  pose proof (C1_updateCredit_effect exampleStringToNumber
                exampleNumberToString castHex db0 memberM 1.005%float
                (Str "add") "64b000000000000000000000" None noon Hf) as C.
  destruct (updateCredit exampleStringToNumber exampleNumberToString castHex
              memberM (Num 1.005%float) (Str "add")
              "64b000000000000000000000" None noon db0)
    as [db' [e|[member t]]] eqn:E.
  - vm_compute in E. discriminate E.
  - destruct C as (Hc & _ & _ & Ht & _ & Ham & Hold & Hnew & _).
    destruct Hc as [(_ & Hc)|(Hc & _)]; [|discriminate Hc].
    split; [rewrite Hc; vm_compute; reflexivity|].
    split; [vm_compute in E; injection E as <- _ _; reflexivity|].
    split; [exact Ht|].
    split; [rewrite Ham; vm_compute; reflexivity|].
    split; [rewrite Hold; vm_compute; reflexivity|].
    rewrite Hnew, Hc. vm_compute. reflexivity.
Defined.

(** C1, as stated, fails: called with the description the route builds from
    one of 255 characters, [updateCredit] saves the new balance, then the
    Transaction is refused by [maxlength: 255]: the call fails, the balance
    moved from 50 to 55 and no Transaction was written. *)
Lemma C1_counterexample :
  let r := updateCredit exampleStringToNumber exampleNumberToString castHex
             memberM (Num 5%float) (Str "add") "64b000000000000000000000"
             (Some longDescription) noon db0 in
  (exists e, snd r = inl e /\ raisedByTransaction e = true)
  /\ transactions (fst r) = transactions db0
  /\ balance db0 memberM_id = Some 50%float
  /\ balance (fst r) memberM_id = Some 55%float.
Proof.
  vm_compute. split; [eexists; split; reflexivity|]. repeat split.
Qed.

(** The amount of a request is not converted to a Number: a string is
    appended to the digits of the balance, and crediting "5" to a balance of
    50 leaves 505, logged as an amount of 5. *)
Example updateCredit_concatenates_a_string :
  match updateCredit exampleStringToNumber exampleNumberToString castHex
          memberM (Str "5") (Str "add") "64b000000000000000000000" None noon
          db0 with
  | (db', inr (member, t)) =>
      User.credit member = 505%float
      /\ balance db' memberM_id = Some 505%float
      /\ Transaction.amount t = 5%float
      /\ Transaction.oldCredit t = 50%float
      /\ Transaction.newCredit t = 505%float
  | (_, inl _) => False
  end.
Proof. vm_compute. repeat split. Qed.

(** Crediting and then debiting the same amount need not restore the
    balance: with 1e17 on a balance of 50, both calls succeed and leave
    48. *)
Example add_then_deduct_large :
  let run this type :=
    updateCredit exampleStringToNumber exampleNumberToString castHex this
      (Num 1e17%float) (Str type) "64b000000000000000000000" None noon in
  match run memberM "add" db0 with
  | (db1, inr (member, _)) =>
      match run member "deduct" db1 with
      | (db2, inr (member', _)) => balance db2 memberM_id = Some 48%float
      | (_, inl _) => False
      end
  | (_, inl _) => False
  end.
Proof. vm_compute. reflexivity. Qed.

(** ** Commission engine *)

(** [save()] accepts what the setter made of an assignment when it is not
    below [min], which NaN is. *)
Lemma valid_pathErrors (path : string) (min : float)
    (setter : float -> float) (prior v : float) :
  PrimFloat.leb min (setter v) = true ->
  pathErrors path min (assign setter prior v) = [].
Proof.
  intros Hm. unfold assign. rewrite (leb_isNaN _ _ Hm).
  destruct (PrimFloat.eqb prior (setter v)); simpl; rewrite Hm; reflexivity.
Qed.

Lemma stats_by_agent (ss : list AgentStats.t) (agentId : ObjectId)
    (s : AgentStats.t) :
  AgentStats_findOne ss agentId = Some s -> AgentStats.agent s = agentId.
Proof.
  unfold AgentStats_findOne. intros H. apply find_some in H.
  destruct H as [_ H]. apply oid_eqb_eq in H. exact H.
Qed.

(** [agentStats.save()] in [calculateCommission]: either every path is
    accepted and the stored record receives the new total and the entry, or
    nothing is written. *)
Lemma AgentStats_save_commission_effect (this : AgentStats.t)
    (a : assignment) (amount : option float) (date : Z) (description : string)
    (db : Db) :
  match AgentStats_save_commission this a amount date description db with
  | (db', inr _) =>
      exists r stored,
        amount = Some r
        /\ pathErrors "totalCommission" 0%float a = []
        /\ (js_length description <= 255)%nat
        /\ AgentStats_findOne (agentStats db) (AgentStats.agent this)
           = Some stored
        /\ AgentStats_findOne (agentStats db') (AgentStats.agent this)
           = Some (AgentStats.mk (AgentStats.agent stored)
                     (AgentStats.totalMembers stored)
                     (AgentStats.activeMembers stored)
                     (AgentStats.totalCredit stored)
                     (AgentStats.totalProfit stored)
                     (AgentStats.commissionRate stored)
                     (written (AgentStats.totalCommission stored) a)
                     (AgentStats.commissionHistory stored
                      ++ [CommissionEntry.mk r date description])
                     (AgentStats.lastUpdated stored))
        /\ users db' = users db
        /\ transactions db' = transactions db
        /\ dailyReports db' = dailyReports db
  | (db', inl _) => db' = db
  end.
Proof.
  unfold AgentStats_save_commission. cbv zeta.
  destruct amount as [r|].
  2:{ reflexivity. }
  destruct (pathErrors "totalCommission" 0%float a) as [|x l] eqn:Ep;
    [|reflexivity].
  simpl app.
  destruct (255 <? Z.of_nat (js_length description)) eqn:El; [reflexivity|].
  apply Z.ltb_ge in El.
  destruct (AgentStats_findOne (agentStats db) (AgentStats.agent this))
    as [stored|] eqn:Ef; [|reflexivity].
  exists r, stored.
  split; [reflexivity|]. split; [reflexivity|]. split; [lia|].
  split; [reflexivity|]. split; [|repeat split].
  unfold AgentStats_findOne. simpl.
  rewrite (find_updateOne_same _ _ _ stored).
  - reflexivity.
  - exact Ef.
  - simpl. rewrite (stats_by_agent _ _ _ Ef). apply oid_eqb_refl.
Qed.

(** Whatever it returns, [calculateCommission] writes no Transaction and no
    report, and changes the balance of no account but the agent's. *)
Lemma calculateCommission_footprint (toLocaleString : float -> string)
    (agentId : ObjectId) (betAmount : float) (description : option string)
    (now : Z) (db : Db) :
  let r := calculateCommission toLocaleString agentId betAmount description
             now db in
  transactions (fst r) = transactions db
  /\ dailyReports (fst r) = dailyReports db
  /\ (forall id, id <> agentId -> balance (fst r) id = balance db id)
  /\ exists q, snd r = inr q.
Proof.
  intros r.
  assert (Hr : r = calculateCommission toLocaleString agentId betAmount
                     description now db) by reflexivity.
  clearbody r.
  unfold calculateCommission, try_catch in Hr. cbv zeta in Hr.
  destruct (AgentStats_findOne (agentStats db) agentId) as [st|] eqn:Es.
  2:{ subst r. simpl. repeat split. eexists. reflexivity. }
  pose proof (stats_by_agent _ _ _ Es) as Hag.
  destruct (findById (users db) (AgentStats.agent st)) as [agent|] eqn:Ea.
  2:{ subst r. simpl. repeat split. eexists. reflexivity. }
  pose proof (found_by_id _ _ _ Ea) as Hid. rewrite Hag in Hid.
  destruct (PrimFloat.leb _ 0%float).
  { subst r. simpl. repeat split. eexists. reflexivity. }
  unfold bind at 1 in Hr.
  match type of Hr with
  | context [User_save agent ?a db] =>
      pose proof (User_save_effect agent a db) as Hs;
      destruct (User_save agent a db) as [db1 [e|m]]
  end.
  { destruct Hs as (-> & _). subst r. simpl. repeat split.
    eexists. reflexivity. }
  destruct Hs as (_ & _ & _ & Ho & Ht & _ & Hd).
  rewrite Hid in Ho.
  unfold bind at 1 in Hr.
  match type of Hr with
  | context [AgentStats_save_commission ?t ?a ?am ?dt ?de db1] =>
      pose proof (AgentStats_save_commission_effect t a am dt de db1) as Hc;
      destruct (AgentStats_save_commission t a am dt de db1) as [db2 [e|u]]
  end.
  { subst db2. subst r. simpl.
    split; [exact Ht|]. split; [exact Hd|]. split; [exact Ho|].
    eexists. reflexivity. }
  destruct Hc as (r0 & stored & _ & _ & _ & _ & _ & Hu & Ht2 & Hd2).
  subst r. unfold ret. simpl.
  split; [congruence|]. split; [congruence|].
  split; [|eexists; reflexivity].
  intros id Hne. unfold balance. rewrite Hu. apply Ho. exact Hne.
Qed.

(** C4 (as amended): for an agent with an AgentStats record,
    [calculateCommission] computes the binary64 product
    [betAmount * commissionRate] and does not round it.  When that is at
    most 0 it returns 0 and writes nothing.  Otherwise, when the validators
    of the two saves pass (the new balance and the new total are not below
    0, the description of the entry has at most 255 characters), the
    agent's balance becomes the setter's value of balance + commission,
    [totalCommission] the setter's value of totalCommission + commission,
    exactly one entry is appended to [commissionHistory], whose amount is
    the setter's value of the commission, the rest of the record and the
    transaction log are untouched, and the unrounded commission is
    returned. *)
Theorem C4_calculateCommission :
  forall (toLocaleString : float -> string) (db : Db) (agentId : ObjectId)
         (st : AgentStats.t) (agent : User.t) (baseAmount : float)
         (description : option string) (now : Z),
    AgentStats_findOne (agentStats db) agentId = Some st ->
    findById (users db) agentId = Some agent ->
    let commission :=
      PrimFloat.mul baseAmount (AgentStats.commissionRate st) in
    let credit' := round2 (PrimFloat.add (User.credit agent) commission) in
    let total' :=
      round2 (PrimFloat.add (AgentStats.totalCommission st) commission) in
    let text :=
      trim (orDefault description "Commission from bet" ++ ": "
            ++ toLocaleString baseAmount)%string in
    (PrimFloat.leb commission 0%float = true ->
     calculateCommission toLocaleString agentId baseAmount description now db
     = (db, inr 0%float))
    /\ (PrimFloat.leb commission 0%float = false ->
        PrimFloat.leb 0%float credit' = true ->
        PrimFloat.leb 0%float total' = true ->
        (js_length text <= 255)%nat ->
        exists db' st',
          calculateCommission toLocaleString agentId baseAmount description
            now db = (db', inr commission)
          /\ (exists b, balance db' agentId = Some b /\ same b credit')
          /\ (forall id, id <> agentId -> balance db' id = balance db id)
          /\ AgentStats_findOne (agentStats db') agentId = Some st'
          /\ same (AgentStats.totalCommission st') total'
          /\ AgentStats.commissionHistory st'
             = AgentStats.commissionHistory st
               ++ [CommissionEntry.mk (round2 commission) now text]
          /\ rollupOf st' = rollupOf st
          /\ transactions db' = transactions db).
Proof.
  intros fmt db agentId st agent base description now Hst Hagent
         commission credit' total' text.
  pose proof (stats_by_agent _ _ _ Hst) as Hag.
  pose proof (found_by_id _ _ _ Hagent) as Hid.
  unfold calculateCommission, try_catch. cbv zeta.
  rewrite Hst, Hag, Hagent. fold commission.
  split.
  { intros Hle. rewrite Hle. reflexivity. }
  intros Hle Hc Ht Hlen. rewrite Hle.
  assert (Hn : isNaN (round2 commission) = false).
  { rewrite round2_isNaN.
    apply (add_isNaN_r (User.credit agent)).
    rewrite <- round2_isNaN. apply (leb_isNaN 0%float). exact Hc. }
  pose proof (valid_pathErrors "credit" 0%float round2 (User.credit agent)
                (PrimFloat.add (User.credit agent) commission) Hc) as Pc.
  pose proof (valid_pathErrors "totalCommission" 0%float round2
                (AgentStats.totalCommission st)
                (PrimFloat.add (AgentStats.totalCommission st) commission)
                Ht) as Pt.
  destruct (assign_accepted _ _ _ _ _ Pc) as [_ Wc].
  destruct (assign_accepted _ _ _ _ _ Pt) as [_ Wt].
  unfold bind at 1.
  match goal with
  | |- context [User_save agent ?a db] =>
      pose proof (User_save_effect agent a db) as Hs;
      destruct (User_save agent a db) as [db1 [e|m]] eqn:Es
  end.
  { exfalso. unfold User_save in Es. cbv zeta in Es.
    rewrite Pc, Hid, Hagent in Es. discriminate Es. }
  destruct Hs as (_ & _ & (stored & Hf & Hb) & Ho & Htx & Has & Hd).
  rewrite Hid in Hf, Hb, Ho. rewrite Hagent in Hf. injection Hf as <-.
  unfold bind at 1.
  match goal with
  | |- context [AgentStats_save_commission ?t ?a ?am ?dt ?de db1] =>
      pose proof (AgentStats_save_commission_effect t a am dt de db1) as Hsc;
      destruct (AgentStats_save_commission t a am dt de db1)
        as [db2 [e|u]] eqn:Esc
  end.
  { exfalso. unfold AgentStats_save_commission in Esc. cbv zeta in Esc.
    unfold castNumber in Esc. rewrite Hn, Pt in Esc. simpl app in Esc.
    match type of Esc with
    | context [255 <? ?n] =>
        assert (El : (255 <? n) = false)
          by (apply Z.ltb_ge; change 255 with (Z.of_nat 255);
              apply Nat2Z.inj_le; exact Hlen);
        rewrite El in Esc
    end.
    rewrite Has, Hag, Hst in Esc. discriminate Esc. }
  destruct Hsc as (r & stored & Hr & _ & _ & Hfs & Hfs' & Hu & Htx2 & _).
  unfold castNumber in Hr. rewrite Hn in Hr. injection Hr as <-.
  rewrite Has, Hag, Hst in Hfs. injection Hfs as <-.
  rewrite Hag in Hfs'.
  unfold ret. eexists _, _. split; [reflexivity|].
  split.
  { eexists. split; [|exact Wc]. unfold balance. rewrite Hu. exact Hb. }
  split.
  { intros id Hne. unfold balance. rewrite Hu. apply Ho. exact Hne. }
  split; [exact Hfs'|]. simpl.
  split; [exact Wt|]. split; [reflexivity|].
  split; [unfold rollupOf; simpl; rewrite Hag; reflexivity|].
  congruence.
Qed.

(** Agent A (rate 0.05, balance 100, no commission yet) is paid on a base
    of 2.9, which is what the route passes for a credit of 290: the
    commission is 0.145 (0.14499999999999999 in binary64); the balance
    becomes 100.15 while [totalCommission] and the history entry record
    0.14. *)
Lemma C4_calculateCommission_witness :
  exists db' st',
    calculateCommission exampleLocale agentA_id
      (PrimFloat.mul 290%float 0.01%float) None noon db0
    = (db', inr (PrimFloat.mul (PrimFloat.mul 290%float 0.01%float)
                   0.05%float))
    /\ balance db' agentA_id = Some 100.15%float
    /\ AgentStats_findOne (agentStats db') agentA_id = Some st'
    /\ AgentStats.totalCommission st' = 0.14%float
    /\ AgentStats.commissionHistory st'
       = [CommissionEntry.mk 0.14%float noon "Commission from bet: 2.90"].
Proof.
  destruct (C4_calculateCommission exampleLocale db0 agentA_id statsA agentA
              (PrimFloat.mul 290%float 0.01%float) None noon
              eq_refl eq_refl) as [_ H].
  destruct H as (db' & st' & Hrun & _ & _ & Hst & _ & Hh & _).
  - vm_compute. reflexivity.
  - vm_compute. reflexivity.
  - vm_compute. reflexivity.
  - vm_compute. lia.
  - exists db', st'. split; [exact Hrun|].
    assert (E : fst (calculateCommission exampleLocale agentA_id
                       (PrimFloat.mul 290%float 0.01%float) None noon db0)
                = db') by (rewrite Hrun; reflexivity).
    vm_compute in E. subst db'.
    vm_compute in Hst. injection Hst as <-.
    split; [vm_compute; reflexivity|]. split; [vm_compute; reflexivity|].
    split; vm_compute; reflexivity.
Defined.

(** C4, as stated, fails: on a base of 2.9 at rate 0.05 the claim credits
    and records round2(2.9 * 0.05) = 0.14 and returns it; the code returns
    the unrounded product and credits the balance with 0.15, 100 becoming
    100.15, while it records 0.14. *)
Lemma C4_counterexample :
  let base := PrimFloat.mul 290%float 0.01%float in
  let r := calculateCommission exampleLocale agentA_id base None noon db0 in
  round2 (PrimFloat.mul base 0.05%float) = 0.14%float
  /\ snd r = inr (PrimFloat.mul base 0.05%float)
  /\ PrimFloat.eqb (PrimFloat.mul base 0.05%float) 0.14%float = false
  /\ balance db0 agentA_id = Some 100%float
  /\ balance (fst r) agentA_id = Some 100.15%float
  /\ PrimFloat.eqb 100.15%float (PrimFloat.add 100%float 0.14%float) = false
  /\ option_map AgentStats.totalCommission
       (AgentStats_findOne (agentStats (fst r)) agentA_id) = Some 0.14%float.
Proof. vm_compute. repeat split. Qed.

(** X11: when the history description (the description, ": " and the
    formatted base amount, trimmed) is longer than 255 UTF-16 code units, a
    commission above 0 that leaves a balance not below 0 is credited to the
    agent's balance and then lost to the record: [agentStats.save()] fails,
    the AgentStats record is not written, and the call returns 0. *)
Theorem X11_commission_partial_write :
  forall (toLocaleString : float -> string) (db : Db) (agentId : ObjectId)
         (st : AgentStats.t) (agent : User.t) (baseAmount : float)
         (description : option string) (now : Z),
    AgentStats_findOne (agentStats db) agentId = Some st ->
    findById (users db) agentId = Some agent ->
    let commission :=
      PrimFloat.mul baseAmount (AgentStats.commissionRate st) in
    let credit' := round2 (PrimFloat.add (User.credit agent) commission) in
    PrimFloat.leb commission 0%float = false ->
    PrimFloat.leb 0%float credit' = true ->
    (255 < js_length
             (trim (orDefault description "Commission from bet" ++ ": "
                    ++ toLocaleString baseAmount)%string))%nat ->
    exists db',
      calculateCommission toLocaleString agentId baseAmount description now db
      = (db', inr 0%float)
      /\ (exists b, balance db' agentId = Some b /\ same b credit')
      /\ agentStats db' = agentStats db
      /\ transactions db' = transactions db.
Proof.
  intros fmt db agentId st agent base description now Hst Hagent
         commission credit' Hle Hc Hlen.
  pose proof (stats_by_agent _ _ _ Hst) as Hag.
  pose proof (found_by_id _ _ _ Hagent) as Hid.
  unfold calculateCommission, try_catch. cbv zeta.
  rewrite Hst, Hag, Hagent. fold commission. rewrite Hle.
  pose proof (valid_pathErrors "credit" 0%float round2 (User.credit agent)
                (PrimFloat.add (User.credit agent) commission) Hc) as Pc.
  destruct (assign_accepted _ _ _ _ _ Pc) as [_ Wc].
  unfold bind at 1.
  match goal with
  | |- context [User_save agent ?a db] =>
      pose proof (User_save_effect agent a db) as Hs;
      destruct (User_save agent a db) as [db1 [e|m]] eqn:Es
  end.
  { exfalso. unfold User_save in Es. cbv zeta in Es.
    rewrite Pc, Hid, Hagent in Es. discriminate Es. }
  destruct Hs as (_ & _ & (stored & Hf & Hb) & Ho & Htx & Has & Hd).
  rewrite Hid in Hf, Hb. rewrite Hagent in Hf. injection Hf as <-.
  unfold bind at 1.
  match goal with
  | |- context [AgentStats_save_commission ?t ?a ?am ?dt ?de db1] =>
      pose proof (AgentStats_save_commission_effect t a am dt de db1) as Hsc;
      destruct (AgentStats_save_commission t a am dt de db1)
        as [db2 [e|u]]
  end.
  - subst db2. unfold ret. exists db1. split; [reflexivity|].
    split; [eexists; split; [exact Hb|exact Wc]|]. split; assumption.
  - exfalso. destruct Hsc as (r & stored & _ & _ & Hl & _).
    apply (Nat.lt_irrefl 255). eapply Nat.lt_le_trans; [exact Hlen|exact Hl].
Qed.

Lemma X11_commission_partial_write_witness :
  exists db',
    calculateCommission exampleLocale agentA_id
      (PrimFloat.mul 290%float 0.01%float)
      (Some (repeat_char "x" 255)) noon db0 = (db', inr 0%float)
    /\ balance db' agentA_id = Some 100.15%float
    /\ agentStats db' = agentStats db0.
Proof.
  destruct (X11_commission_partial_write exampleLocale db0 agentA_id statsA
              agentA (PrimFloat.mul 290%float 0.01%float)
              (Some (repeat_char "x" 255)) noon eq_refl eq_refl)
    as (db' & Hrun & _ & Hs & _).
  - vm_compute. reflexivity.
  - vm_compute. reflexivity.
  - vm_compute. lia.
  - exists db'. split; [exact Hrun|]. split; [|exact Hs].
    assert (E : fst (calculateCommission exampleLocale agentA_id
                       (PrimFloat.mul 290%float 0.01%float)
                       (Some (repeat_char "x" 255)) noon db0) = db')
      by (rewrite Hrun; reflexivity).
    vm_compute in E. subst db'. vm_compute. reflexivity.
Defined.

(** ** The credit route *)

(** Whatever it does, [updateAgentStats] writes to the AgentStats alone. *)
Lemma updateAgentStats_footprint (sum : list float -> float)
    (agentId : ObjectId) (now : Z) (db : Db) :
  let db' := fst (updateAgentStats sum agentId now db) in
  users db' = users db
  /\ transactions db' = transactions db
  /\ dailyReports db' = dailyReports db.
Proof.
  intros db'.
  assert (E : db' = fst (updateAgentStats sum agentId now db))
    by reflexivity.
  clearbody db'.
  unfold updateAgentStats, try_catch in E. cbv zeta in E.
  destruct (AgentStats_findOne (agentStats db) agentId) as [st|].
  2:{ subst db'. repeat split. }
  unfold AgentStats_save_rollup in E. cbv zeta in E.
  destruct (pathErrors _ _ _ ++ pathErrors _ _ _ ++ pathErrors _ _ _).
  2:{ subst db'. repeat split. }
  destruct (AgentStats_findOne (agentStats db) (AgentStats.agent st)).
  - subst db'. repeat split.
  - subst db'. repeat split.
Qed.

Section CreditRouteFacts.

Variable StringToNumber : string -> float.
Variable NumberToString : float -> string.
Variable toLocaleString : float -> string.
Variable castObjectId : string -> option ObjectId.
Variable sum : list float -> float.
Variable isMongoId : string -> bool.
Variable isFloat : value -> bool.
Variable isIn : value -> bool.
Variable descriptionChain : value -> bool.
Variable toFixed2 : float -> string.

(** What the handler does to the database, by its answer. *)
Lemma creditHandler_effect (id : string) (amount type description : value)
    (now : Z) (db : Db) (user : Actor) :
  let r := creditHandler StringToNumber NumberToString toLocaleString
             castObjectId sum isMongoId isFloat isIn descriptionChain
             toFixed2 id amount type description now db user in
  match snd r with
  | Success m t =>
      transactions (fst r) = transactions db ++ [t]
      /\ dailyReports (fst r) = dailyReports db
      /\ exists memberId member,
           castObjectId id = Some memberId
           /\ findById (users db) memberId = Some member
           /\ (isText type "add" = true \/ isText type "deduct" = true)
           /\ (isText type "add" = false ->
               User.credit m
               = round2 (PrimFloat.sub (User.credit member)
                           (ToNumber StringToNumber amount))
               /\ (exists b, balance (fst r) memberId = Some b
                             /\ same b (User.credit m))
               /\ agentStats (fst r) = agentStats db
               /\ forall other, other <> memberId ->
                    balance (fst r) other = balance db other)
  | BadRequest err =>
      raisedByTransaction err = true
      /\ transactions (fst r) = transactions db
      /\ agentStats (fst r) = agentStats db
      /\ dailyReports (fst r) = dailyReports db
  | ServerError err =>
      transactions (fst r) = transactions db
      /\ agentStats (fst r) = agentStats db
      /\ dailyReports (fst r) = dailyReports db
      /\ (raisedByTransaction err = false -> fst r = db)
  | _ => fst r = db
  end.
Proof.
  intros r.
  assert (E : r = creditHandler StringToNumber NumberToString toLocaleString
                    castObjectId sum isMongoId isFloat isIn descriptionChain
                    toFixed2 id amount type description now db user)
    by reflexivity.
  clearbody r. unfold creditHandler in E. cbv zeta in E.
  destruct (negb (validateCreditAdjustment _ _ _ _ _ _ _ _ _)).
  { subst r. reflexivity. }
  unfold User_findById in E.
  destruct (castObjectId id) as [memberId|] eqn:Ecast.
  2:{ subst r. reflexivity. }
  destruct (findById (users db) memberId) as [member|] eqn:Ef.
  2:{ subst r. reflexivity. }
  pose proof (found_by_id _ _ _ Ef) as Hid.
  destruct ((actor_role user =? "agent")%string
            && negb (opt_oid_eqb (User.parent member) (actor_id user))).
  { subst r. reflexivity. }
  destruct (isText type "deduct"
            && lessThan StringToNumber (User.credit member) amount) eqn:Epre.
  { subst r. reflexivity. }
  match type of E with
  | context [updateCredit ?s ?n ?c member amount type ?by_ ?de now db] =>
      pose proof (updateCredit_effect s n c member amount type by_ de now db)
        as U;
      destruct (updateCredit s n c member amount type by_ de now db)
        as [db1 [err|[m t]]]
  end.
  { destruct U as (Ht & Hs & Hd & Ho & Hr).
    assert (Hraised : mentions err "Insufficient credit" = true ->
                      raisedByTransaction err = true).
    { intros Hm. destruct (raisedByTransaction err) eqn:R; [reflexivity|].
      destruct (Hr eq_refl) as [_ Hpre]. destruct (Hpre Hm) as [H1 H2].
      rewrite H1, H2 in Epre. discriminate Epre. }
    destruct err as [message|model errors|model|path].
    - destruct (mentions (JsError message) "Insufficient credit") eqn:Em.
      + specialize (Hraised eq_refl). discriminate Hraised.
      + subst r. simpl. repeat split; try assumption.
        intros _. apply (Hr eq_refl).
    - destruct (mentions (ValidationError model errors)
                  "Insufficient credit") eqn:Em.
      + subst r. simpl. repeat split; try assumption.
        apply Hraised. reflexivity.
      + subst r. simpl. repeat split; try assumption.
        intros R. apply (Hr R).
    - destruct (mentions (DocumentNotFoundError model)
                  "Insufficient credit") eqn:Em; [discriminate Em|].
      subst r. simpl. repeat split; try assumption.
      intros _. apply (Hr eq_refl).
    - subst r. simpl. apply (Hr eq_refl). }
  destruct U as (a & stored & Ha & Hp & Hm & Hfs & Hb & Ho & Ht & Hs & Hd
                 & _).
  rewrite Hid in Hfs, Hb, Ho. rewrite Ef in Hfs. injection Hfs as <-.
  assert (Hkind : isText type "add" = true \/ isText type "deduct" = true).
  { destruct Ha as [(H & _)|(H & _)]; [left|right]; exact H. }
  assert (Hdeduct : isText type "add" = false ->
            User.credit m
            = round2 (PrimFloat.sub (User.credit member)
                        (ToNumber StringToNumber amount))
            /\ (exists b, balance db1 memberId = Some b
                          /\ same b (User.credit m))).
  { intros Hadd. destruct Ha as [(H & _)|(_ & _ & ->)]; [congruence|].
    destruct (assign_accepted _ _ _ _ _ Hp) as [Hh Hw].
    assert (Hc : User.credit m
                 = round2 (PrimFloat.sub (User.credit member)
                             (ToNumber StringToNumber amount)))
      by (rewrite Hm; exact Hh).
    split; [exact Hc|]. eexists. split; [exact Hb|]. rewrite Hc. exact Hw. }
  destruct (User.parent member) as [parent|].
  2:{ subst r. simpl. split; [exact Ht|]. split; [exact Hd|].
      exists memberId, member. repeat split; try assumption.
      - apply Hdeduct; assumption.
      - apply Hdeduct; assumption. }
  destruct (isText type "add") eqn:Eadd.
  2:{ subst r. simpl. split; [exact Ht|]. split; [exact Hd|].
      exists memberId, member. repeat split; try assumption.
      - apply Hdeduct; reflexivity.
      - apply Hdeduct; reflexivity. }
  subst r. simpl.
  match goal with
  | |- context [calculateCommission ?f ?p ?b ?d now ?x] =>
      destruct (calculateCommission_footprint f p b d now x)
        as (Ct & Cd & _)
  end.
  match goal with
  | |- context [updateAgentStats sum ?p now db1] =>
      destruct (updateAgentStats_footprint sum p now db1) as (_ & Ut & Ud)
  end.
  split; [congruence|]. split; [congruence|].
  exists memberId, member. repeat split; try assumption.
  all: discriminate.
Qed.

End CreditRouteFacts.

(** X14: what [PUT /:id/credit] writes, by its answer.  An answer sent
    before [updateCredit] is called (401, 403, 404, 500 from [checkAccess],
    400 for a failed validation, for insufficient credit or for an
    identifier that does not cast) leaves the whole database as it was.  A
    success has appended exactly the Transaction it returns.  A 400 that
    carries [err.message] is never the "Insufficient credit" of
    [updateCredit], which the route has excluded: it is a Transaction that
    failed validation with a description that holds these words, after the
    balance was saved; neither it nor a 500 appends a Transaction or writes
    an AgentStats record, and a 500 for a failure raised before the
    Transaction was validated has written nothing. *)
Theorem X14_creditRoute_writes :
  forall (StringToNumber : string -> float) (NumberToString : float -> string)
         (toLocaleString : float -> string)
         (castObjectId : string -> option ObjectId)
         (sum : list float -> float) (isMongoId : string -> bool)
         (isFloat isIn descriptionChain : value -> bool)
         (toFixed2 : float -> string)
         (token : option Actor) (id : string)
         (amount type description : value) (now : Z) (db : Db),
    let r := creditRoute StringToNumber NumberToString toLocaleString
               castObjectId sum isMongoId isFloat isIn descriptionChain
               toFixed2 token id amount type description now db in
    match snd r with
    | Success m t => transactions (fst r) = transactions db ++ [t]
    | BadRequest err =>
        raisedByTransaction err = true
        /\ transactions (fst r) = transactions db
        /\ agentStats (fst r) = agentStats db
    | ServerError err =>
        transactions (fst r) = transactions db
        /\ agentStats (fst r) = agentStats db
        /\ (raisedByTransaction err = false -> fst r = db)
    | _ => fst r = db
    end.
Proof.
  intros S N L cast sum isMongoId isFloat isIn chain toFixed2 token id amount
         type description now db r.
  assert (Hnext : forall user,
    match snd (creditHandler S N L cast sum isMongoId isFloat isIn chain
                 toFixed2 id amount type description now db user) with
    | Success m t =>
        transactions
          (fst (creditHandler S N L cast sum isMongoId isFloat isIn chain
                  toFixed2 id amount type description now db user))
        = transactions db ++ [t]
    | BadRequest err =>
        raisedByTransaction err = true
        /\ transactions
             (fst (creditHandler S N L cast sum isMongoId isFloat isIn chain
                     toFixed2 id amount type description now db user))
           = transactions db
        /\ agentStats
             (fst (creditHandler S N L cast sum isMongoId isFloat isIn chain
                     toFixed2 id amount type description now db user))
           = agentStats db
    | ServerError err =>
        transactions
          (fst (creditHandler S N L cast sum isMongoId isFloat isIn chain
                  toFixed2 id amount type description now db user))
        = transactions db
        /\ agentStats
             (fst (creditHandler S N L cast sum isMongoId isFloat isIn chain
                     toFixed2 id amount type description now db user))
           = agentStats db
        /\ (raisedByTransaction err = false ->
            fst (creditHandler S N L cast sum isMongoId isFloat isIn chain
                   toFixed2 id amount type description now db user) = db)
    | _ =>
        fst (creditHandler S N L cast sum isMongoId isFloat isIn chain
               toFixed2 id amount type description now db user) = db
    end).
  { intros user.
    pose proof (creditHandler_effect S N L cast sum isMongoId isFloat isIn
                  chain toFixed2 id amount type description now db user)
      as H.
    cbv zeta in H.
    destruct (creditHandler S N L cast sum isMongoId isFloat isIn chain
                toFixed2 id amount type description now db user)
      as [db' resp].
    simpl in *. destruct resp; try exact H.
    - destruct H as (H1 & H2 & H3 & _). repeat split; assumption.
    - destruct H as (H1 & H2 & _ & H4). repeat split; assumption.
    - destruct H as (H1 & _). exact H1. }
  unfold r, creditRoute, checkAccess.
  destruct token as [decoded|]; [|reflexivity].
  destruct (actor_role decoded =? "superadmin")%string; [apply Hnext|].
  destruct (actor_role decoded =? "agent")%string; [|reflexivity].
  destruct (id =? "")%string; [apply Hnext|].
  destruct (User_findById cast id db) as [e|[member|]];
    [reflexivity| |reflexivity].
  destruct (negb (opt_oid_eqb (User.parent member) (actor_id decoded)));
    [reflexivity|apply Hnext].
Qed.

(** A description within the 255 characters the route allows, beginning
    with "Insufficient credit": the Transaction fails [maxlength] once
    " by undefined" is appended, after the balance went from 50 to 55, and
    the route answers 400 with the message of that failure. *)
Lemma X14_creditRoute_writes_witness :
  let r := exampleRoute (Some operator) "64b0000000000000000000b1"
             (Num 5%float) (Str "add")
             (Str ("Insufficient credit" ++ repeat_char "x" 236)) noon db0 in
  (exists err, snd r = BadRequest err /\ raisedByTransaction err = true)
  /\ transactions (fst r) = transactions db0
  /\ balance db0 memberM_id = Some 50%float
  /\ balance (fst r) memberM_id = Some 55%float.
Proof.
  intros r.
  pose proof (X14_creditRoute_writes exampleStringToNumber
                exampleNumberToString exampleLocale castHex exampleSum
                exampleIsMongoId exampleIsFloat exampleIsIn
                exampleDescriptionChain exampleToFixed2 (Some operator)
                "64b0000000000000000000b1" (Num 5%float) (Str "add")
                (Str ("Insufficient credit" ++ repeat_char "x" 236)) noon db0)
    as H.
  cbv zeta in H. fold exampleRoute in H. fold r in H.
  destruct (snd r) as [| | | | | | | |err|err|m t] eqn:E;
    try (vm_compute in E; discriminate E).
  destruct H as (H1 & H2 & _).
  split; [exists err; split; [reflexivity|exact H1]|].
  split; [exact H2|]. split; vm_compute; reflexivity.
Defined.

(** X15: a 'deduct' through [PUT /:id/credit] pays no commission and
    recomputes no rollup: whatever the answer, no AgentStats record and no
    report is written.  On success the account's balance is the setter's
    value of the prior balance minus the amount as converted to a Number,
    no other balance has changed and exactly the Transaction returned was
    appended; an answer other than success appends none. *)
Theorem X15_creditRoute_deduct :
  forall (StringToNumber : string -> float) (NumberToString : float -> string)
         (toLocaleString : float -> string)
         (castObjectId : string -> option ObjectId)
         (sum : list float -> float) (isMongoId : string -> bool)
         (isFloat isIn descriptionChain : value -> bool)
         (toFixed2 : float -> string)
         (token : option Actor) (id : string)
         (amount description : value) (now : Z) (db : Db),
    let r := creditRoute StringToNumber NumberToString toLocaleString
               castObjectId sum isMongoId isFloat isIn descriptionChain
               toFixed2 token id amount (Str "deduct") description now db in
    agentStats (fst r) = agentStats db
    /\ dailyReports (fst r) = dailyReports db
    /\ match snd r with
       | Success m t =>
           transactions (fst r) = transactions db ++ [t]
           /\ exists memberId member,
                castObjectId id = Some memberId
                /\ findById (users db) memberId = Some member
                /\ User.credit m
                   = round2 (PrimFloat.sub (User.credit member)
                               (ToNumber StringToNumber amount))
                /\ (exists b, balance (fst r) memberId = Some b
                              /\ same b (User.credit m))
                /\ forall other, other <> memberId ->
                     balance (fst r) other = balance db other
       | _ => transactions (fst r) = transactions db
       end.
Proof.
  intros S N L cast sum isMongoId isFloat isIn chain toFixed2 token id amount
         description now db r.
  assert (Hnext : forall user,
    let h := creditHandler S N L cast sum isMongoId isFloat isIn chain
               toFixed2 id amount (Str "deduct") description now db user in
    agentStats (fst h) = agentStats db
    /\ dailyReports (fst h) = dailyReports db
    /\ match snd h with
       | Success m t =>
           transactions (fst h) = transactions db ++ [t]
           /\ exists memberId member,
                cast id = Some memberId
                /\ findById (users db) memberId = Some member
                /\ User.credit m
                   = round2 (PrimFloat.sub (User.credit member)
                               (ToNumber S amount))
                /\ (exists b, balance (fst h) memberId = Some b
                              /\ same b (User.credit m))
                /\ forall other, other <> memberId ->
                     balance (fst h) other = balance db other
       | _ => transactions (fst h) = transactions db
       end).
  { intros user h.
    pose proof (creditHandler_effect S N L cast sum isMongoId isFloat isIn
                  chain toFixed2 id amount (Str "deduct") description now db
                  user) as H.
    cbv zeta in H. fold h in H.
    destruct h as [db' resp]. simpl in *.
    destruct resp; try (subst db'; repeat split; reflexivity).
    - destruct H as (_ & H2 & H3 & H4). repeat split; assumption.
    - destruct H as (H1 & H2 & H3 & _). repeat split; assumption.
    - destruct H as (H1 & H2 & memberId & mem & Hc & Hf & _ & Hd).
      destruct (Hd eq_refl) as (Hcr & Hb & Hs & Ho).
      split; [exact Hs|]. split; [exact H2|]. split; [exact H1|].
      exists memberId, mem. repeat split; assumption. }
  unfold r, creditRoute, checkAccess.
  destruct token as [decoded|]; [|repeat split].
  destruct (actor_role decoded =? "superadmin")%string; [apply Hnext|].
  destruct (actor_role decoded =? "agent")%string; [|repeat split].
  destruct (id =? "")%string; [apply Hnext|].
  destruct (User_findById cast id db) as [e|[member|]];
    [repeat split| |repeat split].
  destruct (negb (opt_oid_eqb (User.parent member) (actor_id decoded)));
    [repeat split|apply Hnext].
Qed.

Lemma X15_creditRoute_deduct_witness :
  let r := exampleRoute (Some operator) "64b0000000000000000000b1"
             (Num 40%float) (Str "deduct") Undefined noon db0 in
  agentStats (fst r) = agentStats db0
  /\ exists m t, snd r = Success m t
                 /\ User.credit m = 10%float
                 /\ transactions (fst r) = [t].
Proof.
  intros r.
  pose proof (X15_creditRoute_deduct exampleStringToNumber
                exampleNumberToString exampleLocale castHex exampleSum
                exampleIsMongoId exampleIsFloat exampleIsIn
                exampleDescriptionChain exampleToFixed2 (Some operator)
                "64b0000000000000000000b1" (Num 40%float) Undefined noon db0)
    as H.
  cbv zeta in H. fold exampleRoute in H. fold r in H.
  destruct H as (Hs & _ & H).
  split; [exact Hs|].
  destruct (snd r) as [| | | | | | | |err|err|m t] eqn:E;
    try (vm_compute in E; discriminate E).
  destruct H as (Ht & memberId & member & Hc & Hf & Hcr & _).
  exists m, t. split; [reflexivity|]. split; [|exact Ht].
  vm_compute in Hc. injection Hc as <-.
  vm_compute in Hf. injection Hf as <-.
  rewrite Hcr. vm_compute. reflexivity.
Defined.

(** ** Weekly summary *)

Lemma insert_by_date_permutation (r : DailyReport.t)
    (l : list DailyReport.t) :
  Permutation (insert_by_date r l) (r :: l).
Proof.
  induction l as [|x l IH]; simpl; [apply Permutation_refl|].
  destruct (DailyReport.date r <=? DailyReport.date x).
  - apply Permutation_refl.
  - eapply Permutation_trans; [apply perm_skip; exact IH|apply perm_swap].
Qed.

Lemma reportsBetween_permutation (firstDay lastDay : Z)
    (rs : list DailyReport.t) :
  Permutation (reportsBetween firstDay lastDay rs)
    (filter (inSpanb firstDay lastDay) rs).
Proof.
  unfold reportsBetween, sort_by_date.
  induction (filter (inSpanb firstDay lastDay) rs) as [|x l IH]; simpl.
  - apply Permutation_refl.
  - eapply Permutation_trans; [apply insert_by_date_permutation|].
    apply perm_skip. exact IH.
Qed.

Lemma insert_by_date_ascending (r : DailyReport.t) (l : list DailyReport.t) :
  Sorted byDate l -> Sorted byDate (insert_by_date r l).
Proof.
  induction 1 as [|x l Hl IH Hx]; simpl.
  - repeat constructor.
  - destruct (DailyReport.date r <=? DailyReport.date x) eqn:E.
    + apply Z.leb_le in E. constructor; [constructor; assumption|].
      constructor. exact E.
    + apply Z.leb_gt in E. constructor; [exact IH|].
      destruct l as [|y l]; simpl.
      * constructor. unfold byDate. lia.
      * destruct (DailyReport.date r <=? DailyReport.date y).
        -- constructor. unfold byDate. lia.
        -- inversion Hx. constructor. assumption.
Qed.

Lemma reportsBetween_ascending (firstDay lastDay : Z)
    (rs : list DailyReport.t) :
  Sorted byDate (reportsBetween firstDay lastDay rs).
Proof.
  unfold reportsBetween, sort_by_date.
  induction (filter (inSpanb firstDay lastDay) rs) as [|x l IH]; simpl.
  - constructor.
  - apply insert_by_date_ascending. exact IH.
Qed.

(** C9 (as amended): [generateWeeklySummary] raises the CastError of the
    query when a Date it derives from (year, weekNumber) is invalid.
    Otherwise it returns, without raising, the number of stored reports
    dated in the span; with none, [totalReports] is 0 and [summary] is
    null; with at least one, the summary holds, over those reports in
    ascending order of date, [Math.round(x * 100) / 100] of the binary64
    sum of their [totalCreditMovement] and of their [totalCommission],
    which is that sum rounded to two decimals, and [Math.round] of the sum
    of their [totalMembers] and of their [activeMembers] divided by their
    number, which is not zero: that average rounded to the nearest whole
    number, upwards at a tie. *)
Theorem C9_weeklySummary :
  forall (year weekNumber : Z) (db : Db),
    match weekSpan year weekNumber with
    | None =>
        generateWeeklySummary year weekNumber db
        = (db, inl (CastError "date"))
    | Some (firstDay, lastDay) =>
        let stored :=
          filter (fun r => (firstDay <=? DailyReport.date r)
                           && (DailyReport.date r <=? lastDay))
            (dailyReports db) in
        exists w,
          generateWeeklySummary year weekNumber db = (db, inr w)
          /\ WeeklySummary.totalReports w = Z.of_nat (length stored)
          /\ (stored = [] -> WeeklySummary.summary w = None)
          /\ (stored <> [] ->
              exists s reports,
                WeeklySummary.summary w = Some s
                /\ Permutation reports stored
                /\ Sorted byDate reports
                /\ (0 < length reports)%nat
                /\ let count := ofZ (Z.of_nat (length reports)) in
                   let movement :=
                     reduce_sum DailyReport.totalCreditMovement reports in
                   let commission :=
                     reduce_sum DailyReport.totalCommission reports in
                   let members :=
                     PrimFloat.div
                       (reduce_sum DailyReport.totalMembers reports) count in
                   let active :=
                     PrimFloat.div
                       (reduce_sum DailyReport.activeMembers reports) count in
                   Summary.totalCreditMovement s = round2 movement
                   /\ Summary.totalCommission s = round2 commission
                   /\ Summary.avgMembers s = Math_round members
                   /\ Summary.avgActiveMembers s = Math_round active
                   /\ roundedToCent movement (Summary.totalCreditMovement s)
                   /\ roundedToCent commission (Summary.totalCommission s)
                   /\ roundedToUnit members (Summary.avgMembers s)
                   /\ roundedToUnit active (Summary.avgActiveMembers s)
                   /\ map DailyLine.totalCreditMovement
                        (Summary.dailyReports s)
                      = map DailyReport.totalCreditMovement reports)
    end.
Proof.
  intros year weekNumber db. unfold generateWeeklySummary.
  destruct (weekSpan year weekNumber) as [[firstDay lastDay]|];
    [|reflexivity].
  cbv beta iota zeta.
  change (filter (fun r => (firstDay <=? DailyReport.date r)
                           && (DailyReport.date r <=? lastDay))
            (dailyReports db))
    with (filter (inSpanb firstDay lastDay) (dailyReports db)).
  set (stored := filter (inSpanb firstDay lastDay) (dailyReports db)).
  set (reports := reportsBetween firstDay lastDay (dailyReports db)).
  pose proof (reportsBetween_permutation firstDay lastDay (dailyReports db))
    as Hperm.
  pose proof (reportsBetween_ascending firstDay lastDay (dailyReports db))
    as Hsorted.
  fold stored in Hperm. fold reports in Hperm, Hsorted.
  pose proof (Permutation_length Hperm) as Hlen.
  destruct (Z.of_nat (length reports) =? 0) eqn:E.
  - apply Z.eqb_eq in E.
    eexists. split; [reflexivity|]. simpl.
    split; [lia|]. split; [reflexivity|].
    intros Hne. exfalso. apply Hne.
    destruct stored; [reflexivity|simpl in Hlen; lia].
  - apply Z.eqb_neq in E.
    eexists. split; [reflexivity|]. simpl.
    split; [rewrite Hlen; reflexivity|].
    split.
    + intros Hs. exfalso. rewrite Hs in Hlen. simpl in Hlen. lia.
    + intros _. eexists _, reports. split; [reflexivity|].
      split; [exact Hperm|]. split; [exact Hsorted|]. split; [lia|].
      cbv zeta. simpl.
      split; [reflexivity|]. split; [reflexivity|].
      split; [reflexivity|]. split; [reflexivity|].
      split; [apply round2_spec|]. split; [apply round2_spec|].
      split; [apply Math_round_spec|]. split; [apply Math_round_spec|].
      rewrite map_map. reflexivity.
Qed.

(** The week of Monday 2025-11-03 holds two reports, stored the later one
    first, of movements 0.1 and 0.2 and of 3 and 4 members: the binary64
    sum 0.30000000000000004 is rounded to 0.3, and the average 3.5 to 4. *)
Lemma C9_weeklySummary_witness :
  weekSpan 2025 45 = Some (monday, monday + 6 * msPerDay)
  /\ dailyReports db_week = [reportTue; reportMon]
  /\ exists w s,
       generateWeeklySummary 2025 45 db_week = (db_week, inr w)
       /\ WeeklySummary.totalReports w = 2
       /\ WeeklySummary.summary w = Some s
       /\ reduce_sum DailyReport.totalCreditMovement [reportMon; reportTue]
          = 0.30000000000000004%float
       /\ Summary.totalCreditMovement s = 0.3%float
       /\ Summary.totalCommission s = 0.14%float
       /\ Summary.avgMembers s = 4%float
       /\ Summary.avgActiveMembers s = 2%float
       /\ map DailyLine.totalCreditMovement (Summary.dailyReports s)
          = [0.1%float; 0.2%float].
Proof.
  split; [vm_compute; reflexivity|]. split; [reflexivity|].
  pose proof (C9_weeklySummary 2025 45 db_week) as H.
  assert (Hspan : weekSpan 2025 45 = Some (monday, monday + 6 * msPerDay))
    by (vm_compute; reflexivity).
  rewrite Hspan in H. cbv zeta in H.
  destruct H as (w & Hrun & Hn & _ & Hs).
  destruct Hs as (s & reports & Hsum & _ & _ & _ & _).
  { vm_compute. discriminate. }
  exists w, s. split; [exact Hrun|].
  split; [rewrite Hn; vm_compute; reflexivity|]. split; [exact Hsum|].
  split; [vm_compute; reflexivity|].
  assert (E : snd (generateWeeklySummary 2025 45 db_week) = inr w)
    by (rewrite Hrun; reflexivity).
  vm_compute in E. injection E as <-.
  simpl in Hsum. injection Hsum as <-.
  vm_compute. repeat split.
Defined.

(** C9, as stated, fails: no report is stored in the week (300000, 1),
    whose first day is beyond the range of a Date, and the call raises
    instead of returning a count of 0. *)
Lemma C9_counterexample :
  dailyReports db0 = []
  /\ weekSpan 300000 1 = None
  /\ generateWeeklySummary 300000 1 db0 = (db0, inl (CastError "date")).
Proof. vm_compute. repeat split. Qed.
